(* ===== verification/_CoqProject ===== *)
-Q . S2P
Prelude.v
Json.v
Numeric.v
Timestamp.v
JsonText.v
Schema.v
Frame.v
World.v
Quality.v
Extract.v
Transform.v
Csv.v
Sinks.v
Dotenv.v
Pipeline.v
Logging.v
