(* ===== verification/Prelude.v ===== *)
(** * A verification development of weather-api-etl

    The repository is a batch ETL job in three Python files:
    - [src/schema.py]: the constant [WEATHER_HOURLY_SCHEMA] (table name,
      primary key, required/numeric columns, valid ranges);
    - [src/functions.py]: the stages [setup_logger], [extract_weather_api]
      (HTTP GET with a bounded retry loop and linear back-off),
      [archive_raw_json], [transform_weather_hourly] (JSON -> pandas
      DataFrame with coercing casts), [quality_checks] (validation split
      and [drop_duplicates] on [time]), [save_rejected_csv] and
      [load_to_sqlite] (full table replacement);
    - [src/etl.py]: [main], which loads [.env] into the environment
      ([load_dotenv()]), reads the configuration, runs the stages in
      order, checks the required columns and lets any exception end the run.

    The stages interact only through the values passed between them and the
    world they act on: the log, the clock consumed by [time.sleep], the
    network answering [requests.get], the file system and the SQLite files.

    ** Files (in dependency order) and what each models

    - [Prelude] (this file): a state-and-error monad [st] for Python code
      whose side effects persist when it raises, its notation in
      [etl_scope], the hint database [etl], and shared lemmas on
      [List.filter] partitions and on the monad.
    - [Json]: the value [r.json()] returns ([json], with the floats NaN
      and the infinities; objects as association lists, [dict_lookup]
      returning the last binding) and [dict.get].
    - [Numeric]: exact decimals for JSON numbers and the cells [num]
      (finite, or an infinity; NaN is [None]), the comparison of
      [Series.between(0, 100, inclusive="both")], the number syntax of
      [pd.to_numeric] on strings with [floatify]'s infinity spellings, the
      element cast [to_numeric], and the
      dtype ([int64], [float64], [bool]) pandas gives a cast column
      ([numeric_dtype], after [lib.maybe_convert_numeric]).
    - [Timestamp]: the timestamps of [pd.to_datetime], the ISO formats it
      infers from the first non-null string, the UTC clock and the
      [strftime] stamp of the archive name.
    - [JsonText]: the text [json.dump(ensure_ascii=False, indent=2)] writes
      ([dump_at], [float_repr] = [float.__repr__], [encode_str]) and the
      recursive-descent reader [json.loads] behind [r.json()].
    - [Schema]: [WEATHER_HOURLY_SCHEMA] as a record.
    - [Frame]: the typed [row] and the [frame] (its columns, the dtypes of
      its numeric columns, its rows), the [pd.DataFrame({...})]
      constructor, and [frame_wf]: the cells are values of the dtypes.
    - [World]: the world the stages act on (log, slept seconds, network
      oracle, clock, directories, files holding text, databases) and its
      primitive effects.
    - [Quality]: [quality_checks], with [drop_duplicates] as written (a
      list of seen keys) and a reference definition by earlier indices.
    - [Extract]: [extract_weather_api], the retry loop.
    - [Transform]: [transform_weather_hourly].
    - [Csv]: the text [df.to_csv(path, index=False)] writes: pandas'
      chunks of 33333 rows, the per-chunk date-only time format, the cell
      strings of each dtype and Python's [csv.writer]; and a reference
      reader [read_csv] for the round trip.
    - [Sinks]: [archive_raw_json] (writes the [json.dump] text),
      [save_rejected_csv] (writes the [to_csv] text), [load_to_sqlite], and
      the [TableStore] interface the loader implements.
    - [Dotenv]: python-dotenv's [load_dotenv()] from its documented
      behaviour: the OrderedDict [DotEnv.dict()] of the parsed bindings
      (an association list that refines a map) and
      [set_as_environment_variables] without [override].
    - [Pipeline]: [etl_main] ([load_dotenv()], then the rest of [main]),
      [main] with its configuration (Python's [float()] on
      [LAT]/[LON]), [setup_logger] (the log directory and the log file
      opened in append mode), and the stage machine
      Start -> Extracted -> Archived -> Transformed -> SchemaValidated ->
      QualityChecked -> RejectsSaved -> Loaded -> Done (or Failed).
    - [Logging]: the text of the log file: the f-string of each logging
      call with Python's [str] and [repr] of what it shows, the
      formatter's line ["asctime | LEVEL | message"], and the UTF-8 bytes
      the file handler appends.

    ** Theorems, by group (PROJECT.json lists them in order, C1 to C37)

    - Quality: every input row is rejected or represented among the
      accepted rows; accepted rows pass the rule and rejected rows fail it;
      accepted times are pairwise distinct; the dedup loop equals the
      index-based reference; the logged counts add up; the gate is
      idempotent; it never reads the temperature, so a NaN or infinite
      temperature passes; the hard-coded rule equals the schema's rule; the
      exact humidity bounds.
    - Extract: success after [k] failures with the exact requests, warnings
      and sleeps; the re-raise after [retries] failures; [None] when
      [retries <= 0]; whatever the network answers, at most [retries]
      requests and the back-offs [2, 4, ..., 2k] with [k < retries].
    - Text formats: [json.loads (json.dump j) = j] up to float
      normalisation; the rejected-rows file has one line per row with the
      per-chunk time format, and reads back as the rows.
    - Transform: the strings [pd.to_numeric] reads as infinities; cells;
      the dtype of a column of JSON integers ([int64]), booleans ([bool])
      or with a float or null ([float64]); the length-mismatch error;
      [to_datetime] keeps a time exactly when its own layout is the first
      string's.
    - Sinks: full table replacement; same-second archive collisions; the
      bare rejected path.
    - Pipeline: [main] refines the stage machine; the archive survives
      later failures; a failed run leaves the databases alone; any run
      makes at most three requests and sleeps at most [2 + 4] seconds; a
      successful run loads the first valid row of every time of the
      archived payload and writes an audit file that reads back as the
      rejected rows; its log is the extraction's GET lines and warnings,
      then one line per later stage in the order of the code; two
      successful runs against an API that answers alike leave the same
      table, whatever the disk and the clock held (re-runs are idempotent);
      the database a run loads into is [SQLITE_DB] of the process
      environment, else of [.env], else the default; the required-columns
      check is dead code; [setup_logger] keeps the log lines of earlier
      runs.
    - Dotenv: after [load_dotenv()] a variable of the process environment
      keeps its value and any other takes its last binding in [.env].
    - Logging: the log file gains one line per record, in order, when no
      time stamp or string shown as it is holds a line break.

    ** Bounds and fuel

    The stage code loops only over lists (the attempt range, the rows, the
    chunks), by structural recursion.  The JSON reader is a Fixpoint on fuel
    [3 * length + 1]: the lemma [JsonText.json_loads_fuel] shows that any
    larger fuel gives the same answer, so the bound never cuts a parse
    short (a fact of the model; CPython's reader instead has a recursion
    limit, not modelled).  The
    digit loops of [int.__repr__] and of the float normaliser take the
    number of bits of the number as fuel, which is enough because every
    step divides by ten.  [to_csv]'s loop runs [nrows // 33333 + 1] chunks,
    as pandas' does.

    ** Not modelled

    Finite numbers are exact decimals: binary64 rounding (and the overflow
    of a literal such as [1e400] to an infinity) and integers beyond 64
    bits are not modelled; [\u] escapes above 255 are refused by the JSON
    reader, and its recursion has no depth limit where CPython's raises
    [RecursionError] on a deeply nested payload.  The clock advances only by
    [time.sleep]: the time requests and writes take is not modelled, so
    [Sinks.archive_raw_json_same_second] is stated for archives made at
    the same clock second rather than derived from the run.
    [to_datetime] on numbers (epoch times) and the strings "now"/"today"
    are NaT here.  Of [load_dotenv()], the parsing of the [.env] text
    (quotes, escapes, comments, [${VAR}] interpolation) and the search for
    the file from the script's directory upwards are not modelled: the
    parsed bindings are an input, as the process environment is.  The log lines' time stamps (the local clock with
    milliseconds), [str(e)] of [requests] exceptions and the copy of the
    lines on stderr are inputs or I/O, not modelled.  SQLite column types
    are not modelled. *)

From Stdlib Require Import ZArith Permutation.
From stdpp Require Import base list.

(** ** Results and the state-and-error monad *)

(** The outcome of a Python call: a value, or an exception. *)
Inductive result (E A : Type) : Type :=
| Ok (a : A)
| Err (e : E).
Arguments Ok {E A} a.
Arguments Err {E A} e.

(** A computation on a world [S] that may raise [E]: the world reached
    before the exception is kept, as Python keeps the side effects of the
    statements that ran before a [raise]. *)
Definition st (S E A : Type) : Type := S -> result E A * S.

Definition sret {S E A} (a : A) : st S E A := fun s => (Ok a, s).

Definition sbind {S E A B} (m : st S E A) (k : A -> st S E B) : st S E B :=
  fun s =>
    match m s with
    | (Ok a, s') => k a s'
    | (Err e, s') => (Err e, s')
    end.

Definition sthrow {S E A} (e : E) : st S E A := fun s => (Err e, s).

Definition smodify {S E} (f : S -> S) : st S E unit := fun s => (Ok tt, f s).

Definition sget {S E} : st S E S := fun s => (Ok s, s).

(** A pure call that may raise. *)
Definition slift {S E A} (r : result E A) : st S E A := fun s => (r, s).

(** [try: m except E as e: h(e)]. *)
Definition scatch {S E A} (m : st S E A) (h : E -> st S E A) : st S E A :=
  fun s =>
    match m s with
    | (Err e, s') => h e s'
    | r => r
    end.

Declare Scope etl_scope.
Delimit Scope etl_scope with etl.
Notation "x <- m ;; k" := (sbind m (fun x => k))
  (at level 100, m at next level, right associativity) : etl_scope.
Notation "m ;;; k" := (sbind m (fun _ => k))
  (at level 100, right associativity) : etl_scope.
Notation "'raise' e" := (sthrow e) (at level 10) : etl_scope.
Open Scope etl_scope.

Create HintDb etl discriminated.
Create Rewrite HintDb etl_rw.

Section MonadLaws.
  Context {S E : Type}.

Lemma sbind_ret_l {A B} (a : A) (k : A -> st S E B) s :
    sbind (sret a) k s = k a s.
  Proof. reflexivity. Qed.

Lemma sbind_ret_r {A} (m : st S E A) s : sbind m sret s = m s.
  Proof. unfold sbind, sret. by destruct (m s) as [[] ?]. Qed.

Lemma sbind_assoc {A B C} (m : st S E A) (f : A -> st S E B)
        (g : B -> st S E C) s :
    sbind (sbind m f) g s = sbind m (fun a => sbind (f a) g) s.
  Proof. unfold sbind. by destruct (m s) as [[] ?]. Qed.

Lemma sbind_ok {A B} (m : st S E A) (k : A -> st S E B) s a s' :
    m s = (Ok a, s') -> sbind m k s = k a s'.
  Proof. unfold sbind. by intros ->. Qed.

Lemma sbind_err {A B} (m : st S E A) (k : A -> st S E B) s e s' :
    m s = (Err e, s') -> sbind m k s = (Err e, s').
  Proof. unfold sbind. by intros ->. Qed.

  (** A bind succeeds only when both halves do. *)
Lemma sbind_Ok_inv {A B} (m : st S E A) (k : A -> st S E B) s b s'' :
    sbind m k s = (Ok b, s'') ->
    exists a s', m s = (Ok a, s') /\ k a s' = (Ok b, s'').
  Proof.
    unfold sbind. destruct (m s) as [[a|e] s'] eqn:Hm; [eauto|congruence].
  Qed.
End MonadLaws.

#[export] Hint Rewrite @sbind_ret_l @sbind_assoc : etl_rw.

(** Unfold one bind whose first computation is known in a hypothesis. *)
Ltac st_step :=
  match goal with
  | H : ?m ?s = (Ok _, _) |- context [sbind ?m _ ?s] => rewrite (sbind_ok _ _ _ _ _ H)
  | H : ?m ?s = (Err _, _) |- context [sbind ?m _ ?s] => rewrite (sbind_err _ _ _ _ _ H)
  end.

(** ** Lists split by a boolean test *)

Section FilterPartition.
  Context {A : Type} (f : A -> bool).

  (** The two halves of a split are a permutation of the list. *)
Lemma filter_negb_Permutation (l : list A) :
    Permutation l (List.filter f l ++ List.filter (fun x => negb (f x)) l).
  Proof.
    induction l as [|x l IH]; simpl; [done|].
    destruct (f x); simpl; [by constructor|].
    rewrite <- Permutation_middle. by constructor.
  Qed.

Lemma filter_negb_length (l : list A) :
    length (List.filter f l) + length (List.filter (fun x => negb (f x)) l)
    = length l.
  Proof.
    rewrite <- length_app. symmetry. apply Permutation_length.
    apply filter_negb_Permutation.
  Qed.

Lemma filter_true_Forall (l : list A) :
    Forall (fun x => f x = true) (List.filter f l).
  Proof.
    apply Forall_forall. intros x Hx. apply list_elem_of_In in Hx.
    by apply filter_In in Hx as [_ ?].
  Qed.

Lemma filter_false_Forall (l : list A) :
    Forall (fun x => f x = false) (List.filter (fun x => negb (f x)) l).
  Proof.
    apply Forall_forall. intros x Hx. apply list_elem_of_In in Hx.
    apply filter_In in Hx as [_ H]. by destruct (f x).
  Qed.
Lemma filter_sublist (l : list A) : sublist (List.filter f l) l.
  Proof.
    induction l as [|x l IH]; simpl; [constructor|].
    destruct (f x); [by apply sublist_skip|by apply sublist_cons].
  Qed.

  (** Mapping a function the test cannot see commutes with the split. *)
Lemma filter_fmap_invariant (g : A -> A) (l : list A) :
    (forall x, f (g x) = f x) -> List.filter f (g <$> l) = g <$> List.filter f l.
  Proof.
    intros Hg. induction l as [|x l IH]; [done|]. cbn. rewrite Hg.
    destruct (f x); cbn; by rewrite IH.
  Qed.

Lemma Forall_sublist_of (P : A -> Prop) (l1 l2 : list A) :
    sublist l1 l2 -> Forall P l2 -> Forall P l1.
  Proof.
    rewrite !Forall_forall. intros Hsub HP x Hx. apply HP.
    by eapply elem_of_sublist.
  Qed.

  (** On a list the test accepts throughout, the split keeps everything
      on the accepted side. *)
Lemma filter_all_true (l : list A) :
    Forall (fun x => f x = true) l ->
    List.filter f l = l /\ List.filter (fun x => negb (f x)) l = [].
  Proof.
    induction 1 as [|x l Hx _ [IH1 IH2]]; simpl; [done|]. by rewrite Hx, IH1, IH2.
  Qed.
Lemma forallb_Forall_true (l : list A) : forallb f l = true <-> Forall (fun x => f x = true) l.
  Proof. rewrite forallb_forall, Forall_forall. by setoid_rewrite list_elem_of_In. Qed.
End FilterPartition.

#[export] Hint Resolve filter_true_Forall filter_false_Forall filter_sublist : etl.
