(* ===== verification/Json.v ===== *)
(** * Python values of the ETL job: the JSON payload and the exceptions

    [json] is the value [r.json()] returns in [extract_weather_api]
    (src/functions.py): Python's [None], [bool], [int], [float], [str],
    [list] and [dict].  An [int] is an integer and a finite [float] an
    exact decimal; the reader of JsonText.v gives a float with no trailing
    zero in its mantissa, as [float] has one value for [25.0] and [25.00].
    [JNaN] and [JInf] are the floats [json.loads] reads from the
    constants [NaN], [Infinity] and [-Infinity].  A [dict] is the list of its [key: value] pairs in the
    order of the text; [json.loads] keeps the last value of a repeated key,
    so [dict_lookup] returns the last binding.  [py_get] is
    [obj.get(key, default)], which raises [AttributeError] on a value that is
    not a [dict].  [py_error] lists the exceptions the modelled code raises. *)

From Stdlib Require Import ZArith.
From stdpp Require Import base list sets strings.
From S2P Require Import Prelude.

(** A decimal number [dec_mant * 10 ^ dec_exp], as a JSON number literal
    denotes it. *)
Record decimal := Dec { dec_mant : Z; dec_exp : Z }.

#[export] Instance decimal_eq_dec : EqDecision decimal.
Proof. solve_decision. Defined.

#[local] Set Warnings "-register-all".
Inductive json : Type :=
| JNull
| JBool (b : bool)
| JInt (z : Z)
| JFloat (d : decimal)
| JNaN
| JInf (neg : bool)
| JStr (s : string)
| JArr (l : list json)
| JObj (kvs : list (string * json)).

(** Induction on [json] through the nested lists. *)
Section JsonInd.
  Variable P : json -> Prop.
  Hypothesis HNull : P JNull.
  Hypothesis HBool : forall b, P (JBool b).
  Hypothesis HInt : forall z, P (JInt z).
  Hypothesis HFloat : forall d, P (JFloat d).
  Hypothesis HNaN : P JNaN.
  Hypothesis HInf : forall b, P (JInf b).
  Hypothesis HStr : forall s, P (JStr s).
  Hypothesis HArr : forall l, Forall P l -> P (JArr l).
  Hypothesis HObj : forall kvs, Forall (fun kv => P kv.2) kvs -> P (JObj kvs).

Fixpoint json_ind' (j : json) : P j :=
    match j with
    | JNull => HNull
    | JBool b => HBool b
    | JInt z => HInt z
    | JFloat d => HFloat d
    | JNaN => HNaN
    | JInf b => HInf b
    | JStr s => HStr s
    | JArr l =>
        HArr l ((fix go (l : list json) : Forall P l :=
                   match l with
                   | [] => Forall_nil_2 _
                   | x :: l' => Forall_cons_2 _ x l' (json_ind' x) (go l')
                   end) l)
    | JObj kvs =>
        HObj kvs ((fix go (kvs : list (string * json)) :
                     Forall (fun kv => P kv.2) kvs :=
                   match kvs with
                   | [] => Forall_nil_2 _
                   | kv :: kvs' =>
                       Forall_cons_2 (fun kv => P kv.2) kv kvs' (json_ind' kv.2) (go kvs')
                   end) kvs)
    end.
End JsonInd.

(** The exceptions raised along the modelled paths.  [ConnectionError],
    [ReadTimeout], [HTTPError] and [JSONDecodeError] are the [requests]
    exceptions of one attempt; the [OSError]s are those of [os.makedirs]
    and [open]; [OperationalError] is SQLite's failure to open a database. *)
Inductive py_error : Type :=
| AttributeError (attr : string)
| ValueError (msg : string)
| KeyError (missing : list string)
| ConnectionError
| ReadTimeout
| HTTPError (status : Z)
| JSONDecodeError
| FileExistsError (path : string)
| FileNotFoundError (path : string)
| IsADirectoryError (path : string)
| NotADirectoryError (path : string)
| OperationalError (msg : string).

#[export] Instance py_error_eq_dec : EqDecision py_error.
Proof. solve_decision. Defined.

(** The value bound to [k] in a dict: the last binding, as in the dict that
    [json.loads] builds from the text. *)
Definition dict_lookup (k : string) (kvs : list (string * json)) : option json :=
  fold_left (fun acc kv => if bool_decide (kv.1 = k) then Some kv.2 else acc) kvs None.

(** [obj.get(k, default)]: a method of [dict] only. *)
Definition py_get (obj : json) (k : string) (default : json) : result py_error json :=
  match obj with
  | JObj kvs => Ok (from_option id default (dict_lookup k kvs))
  | _ => Err (AttributeError "get")
  end.

(** ** Lemmas *)

Lemma dict_lookup_app k kvs1 kvs2 :
  dict_lookup k (kvs1 ++ kvs2) =
  match dict_lookup k kvs2 with Some v => Some v | None => dict_lookup k kvs1 end.
Proof.
  unfold dict_lookup. rewrite fold_left_app.
  generalize (fold_left (fun acc kv => if bool_decide (kv.1 = k) then Some kv.2 else acc) kvs1 None) as o.
  induction kvs2 as [|[k' v'] kvs2 IH] using rev_ind; intros o; [done|].
  rewrite !fold_left_app. simpl. by case_bool_decide.
Qed.

Lemma dict_lookup_snoc k v kvs : dict_lookup k (kvs ++ [(k, v)]) = Some v.
Proof. rewrite dict_lookup_app. unfold dict_lookup. simpl. by case_bool_decide. Qed.

Lemma dict_lookup_not_in k kvs : k ∉ kvs.*1 -> dict_lookup k kvs = None.
Proof.
  induction kvs as [|[k' v'] kvs IH] using rev_ind; intros Hk; [done|].
  rewrite dict_lookup_app. rewrite fmap_app in Hk. simpl in Hk.
  unfold dict_lookup at 1. simpl. case_bool_decide; [set_solver|].
  apply IH. set_solver.
Qed.

(** Without repeated keys, the lookup is the first (and only) binding. *)
Lemma dict_lookup_cons_fresh k v kvs :
  k ∉ kvs.*1 -> dict_lookup k ((k, v) :: kvs) = Some v.
Proof.
  intros Hk. change ((k, v) :: kvs) with ([(k, v)] ++ kvs).
  rewrite dict_lookup_app, dict_lookup_not_in by done.
  unfold dict_lookup. simpl. by case_bool_decide.
Qed.

Lemma dict_lookup_cons_ne k k' v kvs :
  k' <> k -> dict_lookup k ((k', v) :: kvs) = dict_lookup k kvs.
Proof.
  intros Hne. change ((k', v) :: kvs) with ([(k', v)] ++ kvs).
  rewrite dict_lookup_app.
  replace (dict_lookup k [(k', v)]) with (@None json)
    by (unfold dict_lookup; simpl; by case_bool_decide).
  by destruct (dict_lookup k kvs).
Qed.

#[export] Hint Rewrite dict_lookup_cons_ne using congruence : etl_rw.
