(* ===== verification/Numeric.v ===== *)
(** * Numbers: exact decimals, [Series.between] and [pd.to_numeric]

    [transform_weather_hourly] (src/functions.py, lines 89-90) casts the two
    measurement columns with [pd.to_numeric(..., errors="coerce")], and
    [quality_checks] (line 106) tests humidity with
    [Series.between(0, 100, inclusive="both")].  Here a number is the exact
    decimal [dec_mant * 10 ^ dec_exp]; [None] is NaN.  [to_numeric] is the
    cast of one element: numbers stay, [True]/[False] are 1/0 (a Python
    [bool] is an [int]), a string is parsed with [parse_number], the
    spellings [floatify] accepts for the infinities ("inf", "-Infinity",
    ... in any case, [inf_literal]) become [Inf], and any other value, or a
    string that does not parse, becomes NaN.  [numeric_dtype] is the dtype
    pandas gives the cast column: [int64] for integers, [bool] for
    booleans, [float64] once a float, an infinity or a null is met.
    Finite numbers are exact decimals: binary64 rounding, and the overflow
    of a literal such as "1e400" to an infinity, are not modelled. *)

From Stdlib Require Import ZArith Ascii.
From stdpp Require Import base list sets strings.
From S2P Require Import Prelude Json.

Local Open Scope Z_scope.

(** ** Order *)

(** Compare two decimals exactly, both brought to the smaller exponent. *)
Definition dec_compare (a b : decimal) : comparison :=
  let e := Z.min (dec_exp a) (dec_exp b) in
  Z.compare (dec_mant a * 10 ^ (dec_exp a - e)) (dec_mant b * 10 ^ (dec_exp b - e)).

Definition dec_le (a b : decimal) : bool :=
  match dec_compare a b with Gt => false | _ => true end.

(** A float other than NaN: finite, or an infinity ([Inf true] is
    [-inf]). *)
Inductive num : Type :=
| Fin (d : decimal)
| Inf (neg : bool).

#[export] Instance num_eq_dec : EqDecision num.
Proof. solve_decision. Defined.

(** [s.between(lo, hi, inclusive="both")] on one element with finite
    bounds: NaN and both infinities are outside. *)
Definition between_both (lo hi : decimal) (x : option num) : bool :=
  match x with
  | Some (Fin d) => dec_le lo d && dec_le d hi
  | Some (Inf _) | None => false
  end.

(** ** The number syntax of [pd.to_numeric] on strings *)

Definition is_space (c : ascii) : bool :=
  match c with
  | " " | "009" | "010" | "011" | "012" | "013" => true
  | _ => false
  end%char.

Definition digit_value (c : ascii) : option Z :=
  let n := Z.of_nat (nat_of_ascii c) - 48 in
  if (0 <=? n) && (n <=? 9) then Some n else None.

(** The longest prefix of digits and the rest. *)
Fixpoint span_digits (cs : list ascii) : list ascii * list ascii :=
  match cs with
  | c :: cs' =>
      match digit_value c with
      | Some _ => let '(ds, rest) := span_digits cs' in (c :: ds, rest)
      | None => ([], cs)
      end
  | [] => ([], [])
  end.

Definition digits_to_Z (ds : list ascii) : Z :=
  fold_left (fun acc c => acc * 10 + from_option id 0 (digit_value c)) ds 0.

Definition read_sign (cs : list ascii) : Z * list ascii :=
  match cs with
  | "-"%char :: cs' => (-1, cs')
  | "+"%char :: cs' => (1, cs')
  | _ => (1, cs)
  end.

Fixpoint drop_spaces (cs : list ascii) : list ascii :=
  match cs with
  | c :: cs' => if is_space c then drop_spaces cs' else cs
  | [] => []
  end.

Definition strip_spaces (cs : list ascii) : list ascii :=
  reverse (drop_spaces (reverse (drop_spaces cs))).

(** [[+-]digits[.digits][(e|E)[+-]digits]], with at least one mantissa
    digit, between optional white space. *)
Definition parse_number (s : string) : option decimal :=
  let '(sgn, cs1) := read_sign (strip_spaces (String.list_ascii_of_string s)) in
  let '(ip, cs2) := span_digits cs1 in
  let '(fp, cs3) :=
    match cs2 with
    | "."%char :: r => span_digits r
    | _ => ([], cs2)
    end in
  let mant := sgn * digits_to_Z (ip ++ fp) in
  let fexp := - Z.of_nat (length fp) in
  if bool_decide (ip = [] /\ fp = []) then None else
  match cs3 with
  | [] => Some (Dec mant fexp)
  | e :: r =>
      if bool_decide (e = "e"%char \/ e = "E"%char) then
        let '(esgn, r1) := read_sign r in
        let '(eds, r2) := span_digits r1 in
        if bool_decide (eds = [] \/ r2 <> []) then None
        else Some (Dec mant (fexp + esgn * digits_to_Z eds))
      else None
  end.

(** [tolower] of the C locale. *)
Definition ascii_lower (c : ascii) : ascii :=
  let n := nat_of_ascii c in
  if ((65 <=? n) && (n <=? 90))%nat then ascii_of_nat (n + 32) else c.

(** The fallback of [floatify] when [to_double] fails: [inf], [+inf],
    [infinity], [+infinity] and their negative forms, compared with
    [strcasecmp]; [Some neg] for an infinity. *)
Definition inf_literal (s : string) : option bool :=
  let l := String.string_of_list_ascii (ascii_lower <$> String.list_ascii_of_string s) in
  if bool_decide (l ∈ ["inf"; "+inf"; "infinity"; "+infinity"]%string) then Some false
  else if bool_decide (l ∈ ["-inf"; "-infinity"]%string) then Some true
  else None.

(** [floatify] on a string: a number, else an infinity. *)
Definition parse_float_str (s : string) : option num :=
  match parse_number s with
  | Some d => Some (Fin d)
  | None => Inf <$> inf_literal s
  end.

(** [pd.to_numeric(errors="coerce")] on one element of an object column. *)
Definition to_numeric (v : json) : option num :=
  match v with
  | JInt z => Some (Fin (Dec z 0))
  | JFloat d => Some (Fin d)
  | JInf b => Some (Inf b)
  | JBool b => Some (Fin (Dec (if b then 1 else 0) 0))
  | JStr s => parse_float_str s
  | JNull | JNaN | JArr _ | JObj _ => None
  end.

(** ** The dtype of a cast column *)

(** The dtypes [to_numeric] leaves a column with.  Integers are taken to
    fit in 64 bits: larger ones would make pandas fall back to [uint64] or
    [object]. *)
Inductive num_dtype : Type := Int64 | Float64 | Bool.

#[export] Instance num_dtype_eq_dec : EqDecision num_dtype.
Proof. solve_decision. Defined.

(** What [lib.maybe_convert_numeric] records for one element: a null (NaN,
    an element it cannot read, coerced), a [bool], an integer, a float.  A
    string reads as an integer when it has no decimal point and no
    exponent. *)
Inductive num_seen : Type := SeenNull | SeenBool | SeenInt | SeenFloat.

#[export] Instance num_seen_eq_dec : EqDecision num_seen.
Proof. solve_decision. Defined.

Definition int_syntax (s : string) : bool :=
  forallb (fun c => negb (bool_decide (c ∈ ["."; "e"; "E"]%char))) (String.list_ascii_of_string s).

Definition seen_of (v : json) : num_seen :=
  match v with
  | JBool _ => SeenBool
  | JInt _ => SeenInt
  | JFloat _ | JInf _ => SeenFloat
  | JStr s =>
      match parse_number s with
      | None => match inf_literal s with Some _ => SeenFloat | None => SeenNull end
      | Some _ => if int_syntax s then SeenInt else SeenFloat
      end
  | JNull | JNaN | JArr _ | JObj _ => SeenNull
  end.

(** The dtype of [pd.to_numeric(pd.Series(col), errors="coerce")]: a
    column of [int]s is [int64], of [bool]s is [bool], and a column with a
    float is [float64]; any other column is [object] and
    [maybe_convert_numeric] returns floats once it has seen a null or a
    float, integers once it has seen an integer (a [bool] among integers
    is [1] or [0]), and booleans otherwise.  The empty column ends as
    integers. *)
Definition numeric_dtype (col : list json) : num_dtype :=
  let seen := seen_of <$> col in
  if bool_decide (SeenNull ∈ seen \/ SeenFloat ∈ seen) then Float64
  else if bool_decide (SeenInt ∈ seen) then Int64
  else if bool_decide (SeenBool ∈ seen) then Bool
  else Int64.

(** The cells a column of dtype [dt] holds: an [int64] column holds
    integers, a [bool] column [1] and [0], and neither holds NaN or an
    infinity. *)
Definition cell_fits (dt : num_dtype) (o : option num) : bool :=
  match dt, o with
  | Float64, _ => true
  | Int64, Some (Fin d) => bool_decide (dec_exp d = 0)
  | Bool, Some (Fin d) => bool_decide (d = Dec 0 0 \/ d = Dec 1 0)
  | _, _ => false
  end.

(** ** Lemmas *)

(** The comparison does not depend on the common exponent chosen, as long
    as both mantissas stay integral. *)
Lemma dec_compare_at (a b : decimal) (e : Z) :
  e <= dec_exp a -> e <= dec_exp b ->
  dec_compare a b =
  Z.compare (dec_mant a * 10 ^ (dec_exp a - e)) (dec_mant b * 10 ^ (dec_exp b - e)).
Proof.
  intros Ha Hb. unfold dec_compare.
  set (m := Z.min (dec_exp a) (dec_exp b)).
  assert (Hm : e <= m) by lia.
  replace (dec_exp a - e) with ((dec_exp a - m) + (m - e)) by lia.
  replace (dec_exp b - e) with ((dec_exp b - m) + (m - e)) by lia.
  rewrite !Z.pow_add_r by lia.
  rewrite !Z.mul_assoc.
  assert (Hp : 0 < 10 ^ (m - e)) by (apply Z.pow_pos_nonneg; lia).
  set (x := dec_mant a * 10 ^ (dec_exp a - m)).
  set (y := dec_mant b * 10 ^ (dec_exp b - m)).
  destruct (Z.compare_spec x y), (Z.compare_spec (x * 10 ^ (m - e)) (y * 10 ^ (m - e)));
    try done; nia.
Qed.

(** On integral decimals the order is the order of [Z]. *)
Lemma dec_le_int (x y : Z) : dec_le (Dec x 0) (Dec y 0) = (x <=? y).
Proof.
  unfold dec_le, dec_compare. simpl. rewrite !Z.mul_1_r.
  destruct (Z.compare_spec x y), (Z.leb_spec x y); done || lia.
Qed.

(** The humidity test with a non-positive exponent [-k]: the mantissa lies
    between 0 and [100 * 10^k]. *)
Lemma between_0_100_spec (m k : Z) :
  0 <= k ->
  between_both (Dec 0 0) (Dec 100 0) (Some (Fin (Dec m (- k)))) = true <->
  0 <= m <= 100 * 10 ^ k.
Proof.
  intros Hk. unfold between_both, dec_le.
  rewrite (dec_compare_at _ _ (- k)), (dec_compare_at (Dec m (- k)) _ (- k))
    by (simpl; lia).
  cbn [dec_mant dec_exp].
  replace (- k - - k) with 0 by lia. replace (0 - - k) with k by lia.
  rewrite Z.pow_0_r, Z.mul_1_r, Z.mul_0_l, andb_true_iff, (Z.mul_comm 100).
  destruct (Z.compare_spec 0 m), (Z.compare_spec m (10 ^ k * 100));
    split; intros; destruct_and?; try done; lia.
Qed.

(** The characters [parse_number] looks at after the digits of the
    mantissa come from the string. *)
Lemma drop_spaces_suffix cs : suffix (drop_spaces cs) cs.
Proof.
  induction cs as [|c cs IH]; cbn; [done|].
  destruct (is_space c); [by apply suffix_cons_r|done].
Qed.

Lemma strip_spaces_sub c cs : c ∈ strip_spaces cs -> c ∈ cs.
Proof.
  unfold strip_spaces. rewrite elem_of_reverse. intros Hc.
  eapply elem_of_suffix in Hc; [|apply drop_spaces_suffix].
  rewrite elem_of_reverse in Hc. eapply elem_of_suffix; [exact Hc|apply drop_spaces_suffix].
Qed.

Lemma read_sign_suffix cs : suffix (read_sign cs).2 cs.
Proof.
  destruct cs as [|c cs]; [done|]. unfold read_sign.
  repeat case_match; simplify_eq; try done; by apply suffix_cons_r.
Qed.

Lemma span_digits_suffix cs : suffix (span_digits cs).2 cs.
Proof.
  induction cs as [|c cs IH]; cbn; [done|].
  destruct (digit_value c); [|done]. destruct (span_digits cs) eqn:E. cbn in *.
  by apply suffix_cons_r.
Qed.

(** A string without decimal point or exponent reads as an integer. *)
Lemma parse_number_int_syntax s d :
  int_syntax s = true -> parse_number s = Some d -> dec_exp d = 0.
Proof.
  unfold int_syntax, parse_number. intros Hs.
  assert (Hno : forall c, c ∈ strip_spaces (String.list_ascii_of_string s) ->
                          c <> "."%char /\ c <> "e"%char /\ c <> "E"%char).
  { intros c Hc%strip_spaces_sub. rewrite forallb_forall in Hs.
    apply list_elem_of_In, Hs, negb_true_iff, bool_decide_eq_false in Hc. set_solver. }
  destruct (read_sign _) as [sgn cs1] eqn:E1.
  pose proof (read_sign_suffix (strip_spaces (String.list_ascii_of_string s))) as S1.
  rewrite E1 in S1. cbn in S1.
  destruct (span_digits cs1) as [ip cs2] eqn:E2.
  pose proof (span_digits_suffix cs1) as S2. rewrite E2 in S2. cbn in S2.
  assert (Hcs2 : forall c, c ∈ cs2 -> c <> "."%char /\ c <> "e"%char /\ c <> "E"%char).
  { intros c Hc. apply Hno. by do 2 (eapply elem_of_suffix; [|done]). }
  destruct cs2 as [|c r].
  - case_bool_decide; [done|]. by intros [= <-].
  - assert (Hc := Hcs2 c ltac:(set_solver)).
    assert (Hd : (match c :: r with "."%char :: r' => span_digits r' | _ => ([], c :: r) end)
                 = ([], c :: r)) by (destruct c as [[] [] [] [] [] [] [] []]; naive_solver).
    rewrite Hd. case_bool_decide; [done|]. rewrite bool_decide_false; [done|naive_solver].
Qed.

(** [to_numeric] gives every element a cell of the column's dtype. *)
Lemma to_numeric_fits col v : v ∈ col -> cell_fits (numeric_dtype col) (to_numeric v) = true.
Proof.
  intros Hv. assert (Hs : seen_of v ∈ seen_of <$> col) by (by apply list_elem_of_fmap_2).
  unfold numeric_dtype. case_bool_decide as Hnf; [by destruct (to_numeric v)|].
  destruct v as [|b|z|d| |nb|str|l|kvs]; cbn in Hs |- *; try (exfalso; naive_solver).
  - case_bool_decide; cbn; [by rewrite bool_decide_true|].
    case_bool_decide; cbn; [|exfalso; naive_solver].
    rewrite bool_decide_true; [done|]. destruct b; auto.
  - case_bool_decide; cbn; [by rewrite bool_decide_true|exfalso; naive_solver].
  - unfold parse_float_str. destruct (parse_number str) as [d|] eqn:Hp;
      [|destruct (inf_literal str); exfalso; naive_solver].
    destruct (int_syntax str) eqn:Hsyn; [|exfalso; naive_solver].
    case_bool_decide; cbn; [|exfalso; naive_solver].
    rewrite bool_decide_true; [done|]. by eapply parse_number_int_syntax.
Qed.


(** The dtype of a column of JSON integers is [int64], of a non-empty
    column of JSON booleans [bool], and of a column holding a JSON float or
    a null [float64]. *)
Lemma numeric_dtype_ints col : Forall (fun v => exists z, v = JInt z) col -> numeric_dtype col = Int64.
Proof.
  intros Hc. unfold numeric_dtype.
  assert (Hs : forall x, x ∈ seen_of <$> col -> x = SeenInt).
  { intros x (v & -> & Hv)%list_elem_of_fmap. by destruct (proj1 (Forall_forall _ _) Hc v Hv) as [z ->]. }
  rewrite bool_decide_false by (intros [H|H]; by apply Hs in H).
  case_bool_decide; [done|]. rewrite bool_decide_false; [done|]. by intros ?%Hs.
Qed.

Lemma numeric_dtype_bools col :
  col <> [] -> Forall (fun v => exists b, v = JBool b) col -> numeric_dtype col = Bool.
Proof.
  intros Hne Hc. unfold numeric_dtype.
  assert (Hs : forall x, x ∈ seen_of <$> col -> x = SeenBool).
  { intros x (v & -> & Hv)%list_elem_of_fmap. by destruct (proj1 (Forall_forall _ _) Hc v Hv) as [b ->]. }
  rewrite bool_decide_false by (intros [H|H]; by apply Hs in H).
  rewrite bool_decide_false by (by intros ?%Hs).
  rewrite bool_decide_true; [done|].
  destruct col as [|v col]; [done|]. rewrite fmap_cons, elem_of_cons. left.
  apply Forall_cons_1 in Hc as [[b ->] _]. done.
Qed.

Lemma numeric_dtype_float col v :
  v ∈ col -> (v = JNull \/ exists d, v = JFloat d) -> numeric_dtype col = Float64.
Proof.
  intros Hv Hf. unfold numeric_dtype. rewrite bool_decide_true; [done|].
  destruct Hf as [->|[d ->]]; [left|right]; apply list_elem_of_fmap; eexists; (split; [|exact Hv]); done.
Qed.

(** ** The infinity spellings *)

Lemma ascii_lower_digit c z : digit_value c = Some z -> ascii_lower c = c.
Proof. intros H. destruct c as [[] [] [] [] [] [] [] []]; vm_compute in H |- *; congruence. Qed.

Lemma span_digits_none cs : (forall c, c ∈ cs -> digit_value c = None) -> span_digits cs = ([], cs).
Proof. destruct cs as [|c cs]; [done|]. intros H. cbn. by rewrite H by set_solver. Qed.

(** A string without a digit is not a number. *)
Lemma parse_number_no_digit s :
  (forall c, c ∈ String.list_ascii_of_string s -> digit_value c = None) -> parse_number s = None.
Proof.
  intros Hs. unfold parse_number.
  destruct (read_sign _) as [sgn cs1] eqn:E1.
  pose proof (read_sign_suffix (strip_spaces (String.list_ascii_of_string s))) as S1.
  rewrite E1 in S1. cbn in S1.
  assert (Hcs1 : forall c, c ∈ cs1 -> digit_value c = None).
  { intros c Hc. apply Hs, strip_spaces_sub. by eapply elem_of_suffix. }
  rewrite span_digits_none by done.
  destruct cs1 as [|c r]; [by rewrite bool_decide_true|].
  assert (Hr : forall c', c' ∈ r -> digit_value c' = None) by (intros; apply Hcs1; set_solver).
  assert (Hd : (match c :: r with "."%char :: r' => span_digits r' | _ => ([], c :: r) end)
               = ([], match c :: r with "."%char :: r' => r' | _ => c :: r end)).
  { destruct c as [[] [] [] [] [] [] [] []]; try reflexivity; by apply span_digits_none. }
  rewrite Hd. by rewrite bool_decide_true.
Qed.

(** The spellings [inf_literal] accepts have no digit. *)
Lemma inf_literal_no_digit s b c :
  inf_literal s = Some b -> c ∈ String.list_ascii_of_string s -> digit_value c = None.
Proof.
  intros H Hc. destruct (digit_value c) as [z|] eqn:Hz; [exfalso|done].
  assert (Hin : c ∈ String.list_ascii_of_string
                  (String.string_of_list_ascii (ascii_lower <$> String.list_ascii_of_string s))).
  { rewrite String.list_ascii_of_string_of_list_ascii, <- (ascii_lower_digit c z Hz).
    by apply list_elem_of_fmap_2. }
  unfold inf_literal in H.
  set (l := String.string_of_list_ascii _) in *.
  assert (Hw : l ∈ ["inf"; "+inf"; "infinity"; "+infinity"; "-inf"; "-infinity"]%string).
  { repeat case_bool_decide; simplify_eq; set_solver. }
  repeat (apply elem_of_cons in Hw as [Hw|Hw]; [rewrite Hw in Hin; cbn in Hin;
    repeat (apply elem_of_cons in Hin as [->|Hin]; [discriminate|]); by apply elem_of_nil in Hin|]).
  by apply elem_of_nil in Hw.
Qed.

(** C17 (infinity strings).  [pd.to_numeric] reads a string as an infinity
    exactly when, case aside, it is [inf] or [infinity] with an optional
    sign: [-] gives [-inf], [+] or no sign [+inf].  No other string, and no
    spelling with spaces around it, gives an infinity. *)
Theorem to_numeric_inf_string s neg :
  to_numeric (JStr s) = Some (Inf neg) <->
  String.string_of_list_ascii (ascii_lower <$> String.list_ascii_of_string s) ∈
    (if neg then ["-inf"; "-infinity"] else ["inf"; "+inf"; "infinity"; "+infinity"])%string.
Proof.
  assert (Hl : inf_literal s = Some neg <->
    String.string_of_list_ascii (ascii_lower <$> String.list_ascii_of_string s) ∈
      (if neg then ["-inf"; "-infinity"] else ["inf"; "+inf"; "infinity"; "+infinity"])%string).
  { unfold inf_literal.
    destruct neg; repeat case_bool_decide; rewrite ?list_elem_of_In in *; cbn in *;
      split; intros Hx; try congruence; try tauto; exfalso; destruct_or!; congruence. }
  rewrite <- Hl. cbn [to_numeric]. unfold parse_float_str.
  destruct (parse_number s) as [d|] eqn:Hp.
  - split; [done|]. intros H. rewrite parse_number_no_digit in Hp; [done|].
    intros c Hc. by eapply inf_literal_no_digit.
  - destruct (inf_literal s); cbn; split; congruence.
Qed.

Example to_numeric_inf_examples :
  to_numeric (JStr "-Infinity") = Some (Inf true) /\ to_numeric (JStr "INF") = Some (Inf false) /\
  to_numeric (JStr " inf") = None /\ to_numeric (JStr "1e5") = Some (Fin (Dec 1 5)).
Proof. vm_compute. repeat split. Qed.
