(* ===== verification/Timestamp.v ===== *)
(** * Timestamps: [pd.to_datetime] and [datetime.utcnow().strftime]

    [transform_weather_hourly] (src/functions.py, line 88) casts the [time]
    column with [pd.to_datetime(df["time"], errors="coerce")].  pandas (2.x)
    guesses one format from the first non-null string of the column and
    parses every string with that format; a string that does not match it,
    a non-string, or a date outside the [datetime64[ns]] range becomes NaT
    ([None]).  The ISO formats of the API are modelled: a date, or a date
    and [HH:MM] or [HH:MM:SS] after a [T] or a space.  When no format can be
    guessed, each string is tried against all of them.  A string is a
    time in at most one of these layouts ([parse_with_unique]), so an
    element keeps its time exactly when its own layout is the guessed one
    ([to_datetime_layout]).

    [archive_raw_json] (line 36) names the archive after
    [datetime.utcnow().strftime("%Y%m%d_%H%M%S")]; [ts_of_epoch] converts the
    clock (seconds since 1970-01-01 UTC) to the civil date and [strftime_stamp]
    prints it. *)

From Stdlib Require Import ZArith Ascii.
From stdpp Require Import base list strings.
From S2P Require Import Prelude Json Numeric.

Local Open Scope Z_scope.

Record timestamp := TS {
  ts_year : Z; ts_month : Z; ts_day : Z;
  ts_hour : Z; ts_minute : Z; ts_second : Z }.

#[export] Instance timestamp_eq_dec : EqDecision timestamp.
Proof. solve_decision. Defined.

(** ** The calendar *)

Definition is_leap (y : Z) : bool :=
  ((y mod 4 =? 0) && negb (y mod 100 =? 0)) || (y mod 400 =? 0).

Definition days_in_month (y m : Z) : Z :=
  if (m =? 2) then (if is_leap y then 29 else 28)
  else if (m =? 4) || (m =? 6) || (m =? 9) || (m =? 11) then 30
  else 31.

Definition valid_ts (t : timestamp) : bool :=
  (1 <=? ts_month t) && (ts_month t <=? 12) &&
  (1 <=? ts_day t) && (ts_day t <=? days_in_month (ts_year t) (ts_month t)) &&
  (0 <=? ts_hour t) && (ts_hour t <=? 23) &&
  (0 <=? ts_minute t) && (ts_minute t <=? 59) &&
  (0 <=? ts_second t) && (ts_second t <=? 59).

(** Chronological order: lexicographic on the fields. *)
Definition ts_key (t : timestamp) : list Z :=
  [ts_year t; ts_month t; ts_day t; ts_hour t; ts_minute t; ts_second t].

Fixpoint lex_le (a b : list Z) : bool :=
  match a, b with
  | x :: a', y :: b' => (x <? y) || ((x =? y) && lex_le a' b')
  | _, _ => true
  end.

Definition ts_le (a b : timestamp) : bool := lex_le (ts_key a) (ts_key b).

(** [datetime64[ns]] holds 1677-09-21 00:12:43.145224193 to
    2262-04-11 23:47:16.854775807; at whole seconds these are the bounds. *)
Definition ts_ns_min : timestamp := TS 1677 9 21 0 12 44.
Definition ts_ns_max : timestamp := TS 2262 4 11 23 47 16.

Definition in_ns_range (t : timestamp) : bool := ts_le ts_ns_min t && ts_le t ts_ns_max.

(** ** Formats *)

Inductive iso_format : Type :=
| FDate
| FMinute (sep : ascii)
| FSecond (sep : ascii).

#[export] Instance iso_format_eq_dec : EqDecision iso_format.
Proof. solve_decision. Defined.

Inductive fmt_item : Type :=
| FDigits (n : nat)
| FLit (c : ascii).

Definition date_items : list fmt_item :=
  [FDigits 4; FLit "-"; FDigits 2; FLit "-"; FDigits 2].

Definition fmt_items (f : iso_format) : list fmt_item :=
  match f with
  | FDate => date_items
  | FMinute sep => date_items ++ [FLit sep; FDigits 2; FLit ":"; FDigits 2]
  | FSecond sep =>
      date_items ++ [FLit sep; FDigits 2; FLit ":"; FDigits 2; FLit ":"; FDigits 2]
  end.

Definition is_digit (c : ascii) : bool := bool_decide (is_Some (digit_value c)).

(** Match a string against a format, returning the numeric fields. *)
Fixpoint match_items (items : list fmt_item) (cs : list ascii) : option (list Z) :=
  match items with
  | [] => match cs with [] => Some [] | _ => None end
  | FLit c :: its =>
      match cs with
      | c' :: cs' => if bool_decide (c = c') then match_items its cs' else None
      | [] => None
      end
  | FDigits n :: its =>
      let ds := take n cs in
      if bool_decide (length ds = n) && forallb is_digit ds then
        fs ← match_items its (drop n cs); Some (digits_to_Z ds :: fs)
      else None
  end.

Definition ts_of_fields (fs : list Z) : option timestamp :=
  match fs with
  | [y; m; d] => Some (TS y m d 0 0 0)
  | [y; m; d; h; mi] => Some (TS y m d h mi 0)
  | [y; m; d; h; mi; s] => Some (TS y m d h mi s)
  | _ => None
  end.

(** Parse with one format; an invalid or out-of-range date is NaT. *)
Definition parse_with (f : iso_format) (s : string) : option timestamp :=
  fs ← match_items (fmt_items f) (String.list_ascii_of_string s);
  t ← ts_of_fields fs;
  if valid_ts t && in_ns_range t then Some t else None.

Definition iso_formats : list iso_format :=
  [FSecond "T"; FSecond " "; FMinute "T"; FMinute " "; FDate].

Fixpoint first_parse (fs : list iso_format) (s : string) : option (iso_format * timestamp) :=
  match fs with
  | [] => None
  | f :: fs' =>
      match parse_with f s with
      | Some t => Some (f, t)
      | None => first_parse fs' s
      end
  end.

Definition guess_format (s : string) : option iso_format := fst <$> first_parse iso_formats s.

(** The strings pandas skips when it looks for the first value to guess from. *)
Definition nat_string (s : string) : bool :=
  bool_decide (s ∈ ["" ; "NaT"; "nat"; "NAT"; "nan"; "NaN"; "NAN"; "now"; "today"]%string).

Fixpoint first_non_null (l : list json) : option json :=
  match l with
  | [] => None
  | JNull :: l' | JNaN :: l' => first_non_null l'
  | JStr s :: l' => if nat_string s then first_non_null l' else Some (JStr s)
  | v :: _ => Some v
  end.

Definition to_datetime_elem (fmt : option iso_format) (v : json) : option timestamp :=
  match v with
  | JStr s =>
      match fmt with
      | Some f => parse_with f s
      | None => snd <$> first_parse iso_formats s
      end
  | _ => None
  end.

(** [pd.to_datetime(column, errors="coerce")]. *)
Definition to_datetime (col : list json) : list (option timestamp) :=
  let fmt := match first_non_null col with
             | Some (JStr s) => guess_format s
             | _ => None
             end in
  map (to_datetime_elem fmt) col.

(** ** Printing *)

Definition digit_char (d : Z) : ascii := ascii_of_nat (Z.to_nat (48 + d)).

(** The last [w] decimal digits of [n], zero-padded. *)
Fixpoint pad_digits (w : nat) (n : Z) : list ascii :=
  match w with
  | O => []
  | S w' => pad_digits w' (n / 10) ++ [digit_char (n mod 10)]
  end.

(** [t.isoformat()] at whole seconds: [YYYY-MM-DDTHH:MM:SS]. *)
Definition ts_isoformat (t : timestamp) : string :=
  String.string_of_list_ascii
    (pad_digits 4 (ts_year t) ++ ["-"%char] ++ pad_digits 2 (ts_month t) ++ ["-"%char] ++
     pad_digits 2 (ts_day t) ++ ["T"%char] ++ pad_digits 2 (ts_hour t) ++ [":"%char] ++
     pad_digits 2 (ts_minute t) ++ [":"%char] ++ pad_digits 2 (ts_second t)).

(** ** The UTC clock *)

(** Days since 1970-01-01 to the civil date (proleptic Gregorian). *)
Definition civil_from_days (days : Z) : Z * Z * Z :=
  let z := days + 719468 in
  let era := z / 146097 in
  let doe := z - era * 146097 in
  let yoe := (doe - doe / 1460 + doe / 36524 - doe / 146096) / 365 in
  let doy := doe - (365 * yoe + yoe / 4 - yoe / 100) in
  let mp := (5 * doy + 2) / 153 in
  let d := doy - (153 * mp + 2) / 5 + 1 in
  let m := if mp <? 10 then mp + 3 else mp - 9 in
  let y := yoe + era * 400 in
  ((if m <=? 2 then y + 1 else y), m, d).

Definition ts_of_epoch (secs : Z) : timestamp :=
  let '(y, m, d) := civil_from_days (secs / 86400) in
  let r := secs mod 86400 in
  TS y m d (r / 3600) ((r mod 3600) / 60) (r mod 60).

(** [strftime("%Y%m%d_%H%M%S")]. *)
Definition strftime_stamp (t : timestamp) : string :=
  String.string_of_list_ascii
    (pad_digits 4 (ts_year t) ++ pad_digits 2 (ts_month t) ++ pad_digits 2 (ts_day t) ++
     ["_"%char] ++ pad_digits 2 (ts_hour t) ++ pad_digits 2 (ts_minute t) ++
     pad_digits 2 (ts_second t)).

(** ** Lemmas *)

(** The number of characters a format matches. *)
Fixpoint items_len (its : list fmt_item) : nat :=
  match its with
  | [] => 0
  | FDigits n :: its' => n + items_len its'
  | FLit _ :: its' => S (items_len its')
  end.

Lemma match_items_length its cs fs : match_items its cs = Some fs -> length cs = items_len its.
Proof.
  revert cs fs. induction its as [|[n|c] its IH]; intros cs fs; cbn.
  - by destruct cs.
  - destruct (bool_decide _ && _) eqn:Hb; [|discriminate].
    apply andb_prop in Hb as [Hl%bool_decide_eq_true _].
    destruct (match_items its (drop n cs)) eqn:Hm; cbn; [|discriminate]. intros _.
    apply IH in Hm. rewrite length_drop in Hm. rewrite length_take in Hl. lia.
  - destruct cs as [|c' cs]; [discriminate|]. case_bool_decide; [|discriminate].
    intros Hl%IH. cbn. lia.
Qed.

Lemma match_items_lit_at its1 c its2 cs fs :
  match_items (its1 ++ FLit c :: its2) cs = Some fs -> cs !! items_len its1 = Some c.
Proof.
  revert cs fs. induction its1 as [|[n|c'] its IH]; intros cs fs; cbn.
  - destruct cs as [|c' cs]; [discriminate|]. by case_bool_decide; [intros _; subst|].
  - destruct (bool_decide _ && _); [|discriminate].
    destruct (match_items _ (drop n cs)) eqn:Hm; cbn; [|discriminate]. intros _.
    apply IH in Hm. by rewrite lookup_drop in Hm.
  - destruct cs as [|c'' cs]; [discriminate|]. case_bool_decide; [|discriminate]. apply IH.
Qed.

Lemma parse_with_fields f s t :
  parse_with f s = Some t -> exists fs, match_items (fmt_items f) (String.list_ascii_of_string s) = Some fs.
Proof. unfold parse_with. destruct (match_items _ _); cbn; [eauto|discriminate]. Qed.

(** A string is a time in at most one layout: the layouts differ in
    length or in the separator after the date. *)
Lemma parse_with_unique f g s t t' : parse_with f s = Some t -> parse_with g s = Some t' -> f = g.
Proof.
  intros (fs & Hf)%parse_with_fields (gs & Hg)%parse_with_fields.
  pose proof (match_items_length _ _ _ Hf) as Lf. pose proof (match_items_length _ _ _ Hg) as Lg.
  unfold fmt_items in Hf, Hg.
  destruct f as [|a|a], g as [|b|b]; cbn in Lf, Lg; try lia; try done; f_equal;
    apply match_items_lit_at in Hf; apply match_items_lit_at in Hg; congruence.
Qed.

Lemma first_parse_Some fs s g t : first_parse fs s = Some (g, t) -> g ∈ fs /\ parse_with g s = Some t.
Proof.
  induction fs as [|f fs IH]; cbn; [discriminate|].
  destruct (parse_with f s) eqn:Hp; [intros [= <- <-]; split; [left|done]|].
  intros [? ?]%IH. split; [by right|done].
Qed.

Lemma first_parse_None fs s f : first_parse fs s = None -> f ∈ fs -> parse_with f s = None.
Proof.
  induction fs as [|f' fs IH]; cbn; [by intros _ ?%elem_of_nil|].
  destruct (parse_with f' s) eqn:Hp; [discriminate|]. intros H [->|?]%elem_of_cons; auto.
Qed.

(** Parsing with a layout of [iso_formats] is inferring the string's own
    layout and keeping the time only when the two agree. *)
Lemma parse_with_first_parse f s :
  f ∈ iso_formats ->
  parse_with f s = match first_parse iso_formats s with
                   | Some (g, t) => if bool_decide (g = f) then Some t else None
                   | None => None
                   end.
Proof.
  intros Hf. destruct (first_parse iso_formats s) as [[g t]|] eqn:Hp; [|by eapply first_parse_None].
  apply first_parse_Some in Hp as [_ Hg]. case_bool_decide as Hgf; [by subst|].
  destruct (parse_with f s) eqn:Hfs; [|done]. exfalso. apply Hgf. by eapply parse_with_unique.
Qed.

(** ** Theorems *)

(** C21 (format inference).  pandas infers one layout from the first
    non-null string and parses every element with it: a string element
    becomes the time it denotes exactly when its own ISO layout (the first
    of [iso_formats] it is a time in) is that layout, and NaT otherwise,
    so a valid time written in another layout (a space instead of [T], a
    missing seconds field) is lost. *)
Theorem to_datetime_layout col s0 f i s :
  first_non_null col = Some (JStr s0) -> guess_format s0 = Some f -> col !! i = Some (JStr s) ->
  to_datetime col !! i =
    Some (match first_parse iso_formats s with
          | Some (g, t) => if bool_decide (g = f) then Some t else None
          | None => None
          end).
Proof.
  intros H1 H2 H3. unfold to_datetime. rewrite H1, H2.
  change (map ?g col) with (g <$> col). rewrite list_lookup_fmap, H3. cbn. f_equal.
  apply parse_with_first_parse. unfold guess_format in H2.
  destruct (first_parse iso_formats s0) as [[g t]|] eqn:Hp; [|done]. cbn in H2. simplify_eq.
  by apply first_parse_Some in Hp as [? _].
Qed.

(** A column whose first time is written [2024-01-01T00:00] and whose
    second is the valid time [2024-01-01 01:00]: the second becomes NaT. *)
Lemma to_datetime_layout_witness :
  to_datetime [JNull; JStr "2024-01-01T00:00"; JStr "2024-01-01 01:00"]%string !! 2%nat = Some None /\
  first_parse iso_formats "2024-01-01 01:00" = Some (FMinute " ", TS 2024 1 1 1 0 0).
Proof.
  split; [|vm_compute; reflexivity].
  rewrite (to_datetime_layout [JNull; JStr "2024-01-01T00:00"; JStr "2024-01-01 01:00"]%string
             "2024-01-01T00:00" (FMinute "T") 2 "2024-01-01 01:00"
             eq_refl ltac:(vm_compute; reflexivity) eq_refl).
  vm_compute. reflexivity.
Defined.
