(* ===== verification/JsonText.v ===== *)
(** * JSON text: [json.dump(..., ensure_ascii=False, indent=2)] and [json.loads]

    [archive_raw_json] (src/functions.py, lines 38-39) writes the payload
    with [json.dump(data, f, ensure_ascii=False, indent=2)], and [r.json()]
    (line 67) decodes the response body with [json.loads].  This file
    models both on Python strings of 8-bit characters:

    - [dump_at] is the encoder of Python's [json] module with an indent of
      two spaces and the separators [","] and [": "]: [None], [True],
      [False] print as [null], [true], [false]; an [int] as its decimal
      digits ([int_repr]); a [float] as [repr] does ([float_repr]: the
      shortest digits, fixed notation for decimal exponents [-4 < e <= 16],
      scientific notation otherwise); a [str] between quotes with the
      escapes of [py_encode_basestring] ([encode_str]); lists and dicts one
      item per line; NaN and the infinities as [NaN], [Infinity] and
      [-Infinity] ([allow_nan=True]).
    - [scan_value] is the scanner of [json.loads] on a string: white space,
      the literals, the constants [NaN], [Infinity] and [-Infinity] (read
      as floats, as [parse_constant] does), the number grammar of [NUMBER_RE] (an optional minus,
      [0] or a non-zero digit and digits, an optional fraction of a point
      and digits, an optional exponent of [e] or [E], a sign and digits),
      strings with their
      escapes (strict: raw control characters are refused), arrays and
      objects; an object becomes [dict(pairs)] ([dict_of_pairs]): a repeated
      key keeps its first position and its last value.  The scanner
      recurses on a fuel that [json_loads] sets to [3 * length + 1].

    A Python [float] is modelled by the decimal of its shortest repr:
    [dec_norm] removes trailing zeros of the mantissa, so [25.0], [25.00]
    and [2.5e1] are the same float.  Not modelled: rounding to binary64 (a
    literal with more than 15 significant digits or out of the double range
    is kept exact, where Python would round it or make it an infinity), and
    [\uXXXX] escapes of code points above 255 (the strings hold 8-bit
    characters). *)

From Stdlib Require Import ZArith Ascii.
From stdpp Require Import base list strings.
From S2P Require Import Prelude Json Numeric Timestamp.

Local Open Scope Z_scope.

(** ** Printing numbers *)

(** The decimal digits of [n >= 0], most significant first, with fuel. *)
Fixpoint digits_go (fuel : nat) (n : Z) : list ascii :=
  match fuel with
  | O => []
  | S f => if n <? 10 then [digit_char n] else digits_go f (n / 10) ++ [digit_char (n mod 10)]
  end.

(** [str(n)] for [n >= 0]: the number of bits of [n] is enough fuel. *)
Definition z_digits (n : Z) : list ascii := digits_go (S (Z.to_nat (Z.log2 n))) n.

(** [int.__repr__]. *)
Definition int_repr (z : Z) : list ascii :=
  if z <? 0 then "-"%char :: z_digits (- z) else z_digits z.

(** Remove the trailing zeros of a mantissa, raising the exponent. *)
Fixpoint strip_go (fuel : nat) (m e : Z) : Z * Z :=
  match fuel with
  | O => (m, e)
  | S f => if m mod 10 =? 0 then strip_go f (m / 10) (e + 1) else (m, e)
  end.

(** The decimal of a float: no trailing zero in the mantissa, and zero as
    [Dec 0 0]. *)
Definition dec_norm (d : decimal) : decimal :=
  if dec_mant d =? 0 then Dec 0 0
  else let '(m, e) := strip_go (S (Z.to_nat (Z.log2 (Z.abs (dec_mant d)))))
                               (dec_mant d) (dec_exp d) in Dec m e.

(** The exponent of the scientific notation: at least two digits. *)
Definition exp_digits (x : Z) : list ascii :=
  if x <? 10 then "0"%char :: z_digits x else z_digits x.

(** [float.__repr__] ([format_float_short] in mode ['r']): with the
    shortest digits [ds] and [decpt] the position of the decimal point,
    fixed notation when [-4 < decpt <= 16] and scientific otherwise. *)
Definition float_repr (d : decimal) : list ascii :=
  let n := dec_norm d in
  let m := dec_mant n in
  if m =? 0 then ["0"; "."; "0"]%char else
  let ds := z_digits (Z.abs m) in
  let nd := Z.of_nat (length ds) in
  let decpt := nd + dec_exp n in
  (if m <? 0 then ["-"%char] else []) ++
  (if (-4 <? decpt) && (decpt <=? 16) then
     if decpt <=? 0 then ["0"; "."]%char ++ replicate (Z.to_nat (- decpt)) "0"%char ++ ds
     else if decpt <? nd then take (Z.to_nat decpt) ds ++ "."%char :: drop (Z.to_nat decpt) ds
     else ds ++ replicate (Z.to_nat (decpt - nd)) "0"%char ++ ["."; "0"]%char
   else
     take 1 ds ++ (if nd =? 1 then [] else "."%char :: drop 1 ds) ++
     "e"%char :: (if decpt - 1 <? 0 then "-"%char else "+"%char) ::
     exp_digits (Z.abs (decpt - 1))).

(** ** Printing strings *)

Definition quote : ascii := "034"%char.
Definition backslash : ascii := "\"%char.

Definition hex_char (n : Z) : ascii :=
  if n <? 10 then digit_char n else ascii_of_nat (Z.to_nat (87 + n)).

(** The two-character escapes of [ESCAPE_DCT]. *)
Definition short_escape (c : ascii) : option ascii :=
  match c with
  | "008" => Some "b" | "012" => Some "f" | "010" => Some "n"
  | "013" => Some "r" | "009" => Some "t"
  | _ => None
  end%char.

(** [ESCAPE.sub(replace, s)] on one character, [ensure_ascii=False]: the
    quote, the backslash and the control characters are escaped, every
    other character is written as is. *)
Definition escape_char (c : ascii) : list ascii :=
  if bool_decide (c = quote) then [backslash; quote]
  else if bool_decide (c = backslash) then [backslash; backslash]
  else if (nat_of_ascii c <? 32)%nat then
    match short_escape c with
    | Some e => [backslash; e]
    | None => let n := Z.of_nat (nat_of_ascii c) in
              [backslash; "u"; "0"; "0"; hex_char (n / 16); hex_char (n mod 16)]%char
    end
  else [c].

(** [py_encode_basestring]. *)
Definition encode_str (s : string) : list ascii :=
  quote :: mjoin (escape_char <$> String.list_ascii_of_string s) ++ [quote].

(** ** Printing values *)

Definition newline_indent (lvl : nat) : list ascii := "010"%char :: replicate (2 * lvl) " "%char.

(** [_iterencode(o, lvl)] of [json.dump] with [indent=2]. *)
Fixpoint dump_at (lvl : nat) (j : json) {struct j} : list ascii :=
  match j with
  | JNull => String.list_ascii_of_string "null"
  | JBool true => String.list_ascii_of_string "true"
  | JBool false => String.list_ascii_of_string "false"
  | JInt z => int_repr z
  | JFloat d => float_repr d
  | JNaN => String.list_ascii_of_string "NaN"
  | JInf false => String.list_ascii_of_string "Infinity"
  | JInf true => String.list_ascii_of_string "-Infinity"
  | JStr s => encode_str s
  | JArr [] => ["["; "]"]%char
  | JArr (x :: xs) =>
      "["%char :: newline_indent (S lvl) ++ dump_at (S lvl) x ++
      (fix items (l : list json) : list ascii :=
         match l with
         | [] => []
         | y :: l' => ","%char :: newline_indent (S lvl) ++ dump_at (S lvl) y ++ items l'
         end) xs ++
      newline_indent lvl ++ ["]"%char]
  | JObj [] => ["{"; "}"]%char
  | JObj ((k, v) :: kvs) =>
      "{"%char :: newline_indent (S lvl) ++ encode_str k ++ [":"; " "]%char ++
      dump_at (S lvl) v ++
      (fix members (l : list (string * json)) : list ascii :=
         match l with
         | [] => []
         | (k', v') :: l' =>
             ","%char :: newline_indent (S lvl) ++ encode_str k' ++ [":"; " "]%char ++
             dump_at (S lvl) v' ++ members l'
         end) kvs ++
      newline_indent lvl ++ ["}"%char]
  end.

(** The text [json.dump(data, f, ensure_ascii=False, indent=2)] writes. *)
Definition json_dump (j : json) : string := String.string_of_list_ascii (dump_at 0 j).

(** ** Scanning *)

(** The white space of the decoder: space, tab, newline, carriage return. *)
Definition is_ws (c : ascii) : bool :=
  match c with " " | "009" | "010" | "013" => true | _ => false end%char.

Fixpoint skip_ws (cs : list ascii) : list ascii :=
  match cs with
  | c :: cs' => if is_ws c then skip_ws cs' else cs
  | [] => []
  end.

Definition hex_value (c : ascii) : option Z :=
  match digit_value c with
  | Some v => Some v
  | None =>
      let n := Z.of_nat (nat_of_ascii c) in
      if (97 <=? n) && (n <=? 102) then Some (n - 87)
      else if (65 <=? n) && (n <=? 70) then Some (n - 55)
      else None
  end.

(** The characters after a backslash other than [u]. *)
Definition unescape (e : ascii) : option ascii :=
  match e with
  | "034" => Some "034" | "\" => Some "\" | "/" => Some "/"
  | "b" => Some "008" | "f" => Some "012" | "n" => Some "010"
  | "r" => Some "013" | "t" => Some "009"
  | _ => None
  end%char.

(** [scanstring(s, end, strict=True)] after the opening quote: the
    characters up to the closing quote, and the rest. *)
Fixpoint scan_string (cs : list ascii) : option (list ascii * list ascii) :=
  match cs with
  | [] => None
  | c :: r =>
      if bool_decide (c = quote) then Some ([], r)
      else if bool_decide (c = backslash) then
        match r with
        | e :: r1 =>
            if bool_decide (e = "u"%char) then
              match r1 with
              | a :: b :: c' :: d :: r' =>
                  match hex_value a, hex_value b, hex_value c', hex_value d with
                  | Some va, Some vb, Some vc, Some vd =>
                      let code := ((va * 16 + vb) * 16 + vc) * 16 + vd in
                      if code <? 256 then
                        match scan_string r' with
                        | Some (x, r'') => Some (ascii_of_nat (Z.to_nat code) :: x, r'')
                        | None => None
                        end
                      else None
                  | _, _, _, _ => None
                  end
              | _ => None
              end
            else
              match unescape e, scan_string r1 with
              | Some ch, Some (x, r'') => Some (ch :: x, r'')
              | _, _ => None
              end
        | [] => None
        end
      else if (nat_of_ascii c <? 32)%nat then None
      else match scan_string r with
           | Some (x, r') => Some (c :: x, r')
           | None => None
           end
  end.

(** The integer part of a number: [0] or a non-zero digit and digits. *)
Definition scan_int_part (cs : list ascii) : option (list ascii * list ascii) :=
  match cs with
  | c :: r =>
      if bool_decide (c = "0"%char) then Some (["0"%char], r)
      else if is_digit c then Some (span_digits cs) else None
  | [] => None
  end.

(** The optional fraction [\.[0-9]+]: a point without digits after it is
    not part of the number. *)
Definition scan_frac (cs : list ascii) : list ascii * list ascii :=
  match cs with
  | "."%char :: r =>
      match span_digits r with
      | ([], _) => ([], cs)
      | (fd, r') => (fd, r')
      end
  | _ => ([], cs)
  end.

(** The optional exponent [[eE][-+]?[0-9]+]. *)
Definition scan_exp (cs : list ascii) : option Z * list ascii :=
  match cs with
  | e :: r =>
      if bool_decide (e = "e"%char \/ e = "E"%char) then
        let '(es, r1) := read_sign r in
        match span_digits r1 with
        | ([], _) => (None, cs)
        | (eds, r2) => (Some (es * digits_to_Z eds), r2)
        end
      else (None, cs)
  | [] => (None, cs)
  end.

(** The optional minus sign. *)
Definition scan_sign (cs : list ascii) : Z * list ascii :=
  match cs with
  | c :: r => if bool_decide (c = "-"%char) then (-1, r) else (1, cs)
  | [] => (1, cs)
  end.

(** [match_number]: an [int] when there is neither fraction nor exponent,
    a [float] otherwise. *)
Definition scan_number (cs : list ascii) : option (json * list ascii) :=
  let '(sgn, r0) := scan_sign cs in
  match scan_int_part r0 with
  | None => None
  | Some (ip, r1) =>
      let '(fp, r2) := scan_frac r1 in
      let '(ex, r3) := scan_exp r2 in
      match fp, ex with
      | [], None => Some (JInt (sgn * digits_to_Z ip), r3)
      | _, _ => Some (JFloat (dec_norm (Dec (sgn * digits_to_Z (ip ++ fp))
                                             (from_option id 0 ex - Z.of_nat (length fp)))),
                      r3)
      end
  end.

(** [dict(pairs)]: a new key is appended, a repeated key keeps its place
    and takes the new value. *)
Definition dict_insert (k : string) (v : json) (d : list (string * json)) : list (string * json) :=
  if bool_decide (k ∈ d.*1) then (fun kv => if bool_decide (kv.1 = k) then (k, v) else kv) <$> d
  else d ++ [(k, v)].

Definition dict_of_pairs (ps : list (string * json)) : list (string * json) :=
  foldl (fun d kv => dict_insert kv.1 kv.2 d) [] ps.

(** [string[idx:idx + len(lit)] == lit]. *)
Fixpoint starts_with (lit cs : list ascii) : bool :=
  match lit, cs with
  | [], _ => true
  | l :: lit', c :: cs' => bool_decide (l = c) && starts_with lit' cs'
  | _ :: _, [] => false
  end.

(** The end of [scan_once]: a number ([match_number]), else one of the
    constants [NaN], [Infinity] and [-Infinity] that [parse_constant]
    reads as floats. *)
Definition scan_number_or_constant (cs : list ascii) : option (json * list ascii) :=
  match scan_number cs with
  | Some res => Some res
  | None =>
      if starts_with (String.list_ascii_of_string "NaN") cs then Some (JNaN, drop 3 cs)
      else if starts_with (String.list_ascii_of_string "Infinity") cs then Some (JInf false, drop 8 cs)
      else if starts_with (String.list_ascii_of_string "-Infinity") cs then Some (JInf true, drop 9 cs)
      else None
  end.

(** [scan_once] and the array and object scanners it calls ([JSONArray],
    [JSONObject]), tried in the order of [scan_once]: a string, an object,
    an array, the three literals, a number, and the constants [NaN],
    [Infinity] and [-Infinity] that [parse_constant] reads as floats.  [scan_array] and
    [scan_object] start after the opening bracket and the white space that
    follows it. *)
Fixpoint scan_value (fuel : nat) (cs : list ascii) : option (json * list ascii) :=
  match fuel with
  | O => None
  | S f =>
      match cs with
      | [] => None
      | c :: r =>
          if bool_decide (c = quote) then
            match scan_string r with
            | Some (x, r') => Some (JStr (String.string_of_list_ascii x), r')
            | None => None
            end
          else if bool_decide (c = "{"%char) then scan_object f (skip_ws r)
          else if bool_decide (c = "["%char) then scan_array f (skip_ws r)
          else if starts_with (String.list_ascii_of_string "null") cs then Some (JNull, drop 4 cs)
          else if starts_with (String.list_ascii_of_string "true") cs then Some (JBool true, drop 4 cs)
          else if starts_with (String.list_ascii_of_string "false") cs then Some (JBool false, drop 5 cs)
          else scan_number_or_constant cs
      end
  end
with scan_array (fuel : nat) (cs : list ascii) : option (json * list ascii) :=
  match fuel with
  | O => None
  | S f =>
      match cs with
      | c :: r =>
          if bool_decide (c = "]"%char) then Some (JArr [], r)
          else match scan_elements f cs with
               | Some (xs, r) => Some (JArr xs, r)
               | None => None
               end
      | [] => None
      end
  end
with scan_elements (fuel : nat) (cs : list ascii) : option (list json * list ascii) :=
  match fuel with
  | O => None
  | S f =>
      match scan_value f cs with
      | Some (v, r) =>
          match skip_ws r with
          | c :: r' =>
              if bool_decide (c = ","%char) then
                match scan_elements f (skip_ws r') with
                | Some (vs, r'') => Some (v :: vs, r'')
                | None => None
                end
              else if bool_decide (c = "]"%char) then Some ([v], r')
              else None
          | [] => None
          end
      | None => None
      end
  end
with scan_object (fuel : nat) (cs : list ascii) : option (json * list ascii) :=
  match fuel with
  | O => None
  | S f =>
      match cs with
      | c :: r =>
          if bool_decide (c = "}"%char) then Some (JObj [], r)
          else if bool_decide (c = quote) then
            match scan_members f r with
            | Some (ps, r') => Some (JObj (dict_of_pairs ps), r')
            | None => None
            end
          else None
      | [] => None
      end
  end
with scan_members (fuel : nat) (cs : list ascii) : option (list (string * json) * list ascii) :=
  match fuel with
  | O => None
  | S f =>
      match scan_string cs with
      | Some (k, r) =>
          match skip_ws r with
          | c :: r1 =>
              if bool_decide (c = ":"%char) then
                match scan_value f (skip_ws r1) with
                | Some (v, r2) =>
                    match skip_ws r2 with
                    | c' :: r3 =>
                        if bool_decide (c' = ","%char) then
                          match skip_ws r3 with
                          | c'' :: r4 =>
                              if bool_decide (c'' = quote) then
                                match scan_members f r4 with
                                | Some (ps, r5) => Some ((String.string_of_list_ascii k, v) :: ps, r5)
                                | None => None
                                end
                              else None
                          | [] => None
                          end
                        else if bool_decide (c' = "}"%char) then
                          Some ([(String.string_of_list_ascii k, v)], r3)
                        else None
                    | [] => None
                    end
                | None => None
                end
              else None
          | [] => None
          end
      | None => None
      end
  end.

(** [json.loads(s)] with a given fuel: white space around one value and
    nothing else. *)
Definition json_loads_with (fuel : nat) (s : string) : option json :=
  let cs := String.list_ascii_of_string s in
  match scan_value fuel (skip_ws cs) with
  | Some (j, r) => match skip_ws r with [] => Some j | _ => None end
  | None => None
  end.

(** [json.loads(s)]: three units of fuel per character are enough
    ([json_loads_fuel]). *)
Definition json_loads (s : string) : option json :=
  json_loads_with (3 * length (String.list_ascii_of_string s) + 1) s.

(** ** Number texts, normal values and the measure of the scanner

    The vocabulary of the round-trip proof: [num_text] is the shape of a
    printed number, [json_norm] the value [json.loads] gives back,
    [wf_json] the dicts without repeated key, [json_size] the fuel a value
    needs. *)

(** The text of a number: sign, integer part, fraction, exponent. *)
Definition frac_text (fp : list ascii) : list ascii :=
  match fp with [] => [] | _ => "."%char :: fp end.

Definition exp_text (ex : option (bool * list ascii)) : list ascii :=
  match ex with
  | None => []
  | Some (eneg, eds) => "e"%char :: (if eneg then "-"%char else "+"%char) :: eds
  end.

Definition sign_text (neg : bool) : list ascii := if neg then ["-"%char] else [].

Definition num_text (neg : bool) (ip fp : list ascii) (ex : option (bool * list ascii)) : list ascii :=
  sign_text neg ++ ip ++ frac_text fp ++ exp_text ex.

Definition exp_value (ex : option (bool * list ascii)) : option Z :=
  match ex with
  | None => None
  | Some (eneg, eds) => Some ((if eneg then -1 else 1) * digits_to_Z eds)
  end.

(** The value [match_number] gives such a text. *)
Definition num_value (neg : bool) (ip fp : list ascii) (ex : option (bool * list ascii)) : json :=
  let sgn := if neg then -1 else 1 in
  match fp, exp_value ex with
  | [], None => JInt (sgn * digits_to_Z ip)
  | _, _ => JFloat (dec_norm (Dec (sgn * digits_to_Z (ip ++ fp))
                                  (from_option id 0 (exp_value ex) - Z.of_nat (length fp))))
  end.

Definition num_stop (r : list ascii) : Prop :=
  match r with [] => True | c :: _ => c = ","%char \/ c = "010"%char end.

Definition all_digits (ds : list ascii) : Prop := Forall (fun c => is_digit c = true) ds.

(** An integer part [NUMBER_RE] reads whole: [0] alone, or digits that do not
    start with [0]. *)
Definition int_part_ok (ip : list ascii) : Prop :=
  all_digits ip /\ exists c cs, ip = c :: cs /\ (c = "0"%char -> cs = []).

Definition no_digit_head (r : list ascii) : Prop :=
  match r with [] => True | c :: _ => digit_value c = None end.

Definition exp_ok (ex : option (bool * list ascii)) : Prop :=
  match ex with None => True | Some (_, eds) => eds <> [] /\ all_digits eds end.

Fixpoint json_norm (j : json) : json :=
  match j with
  | JFloat d => JFloat (dec_norm d)
  | JArr l =>
      JArr ((fix go (l : list json) : list json :=
               match l with [] => [] | x :: l' => json_norm x :: go l' end) l)
  | JObj kvs =>
      JObj ((fix go (kvs : list (string * json)) : list (string * json) :=
               match kvs with [] => [] | (k, v) :: kvs' => (k, json_norm v) :: go kvs' end) kvs)
  | _ => j
  end.

Fixpoint wf_json (j : json) : bool :=
  match j with
  | JArr l =>
      (fix go (l : list json) : bool :=
         match l with [] => true | x :: l' => wf_json x && go l' end) l
  | JObj kvs =>
      bool_decide (NoDup kvs.*1) &&
      (fix go (kvs : list (string * json)) : bool :=
         match kvs with [] => true | (_, v) :: kvs' => wf_json v && go kvs' end) kvs
  | _ => true
  end.

Fixpoint json_size (j : json) : nat :=
  match j with
  | JArr l =>
      2 + (fix go (l : list json) : nat :=
             match l with [] => 0 | x :: l' => S (json_size x) + go l' end) l
  | JObj kvs =>
      2 + (fix go (kvs : list (string * json)) : nat :=
             match kvs with [] => 0 | (_, v) :: kvs' => S (json_size v) + go kvs' end) kvs
  | _ => 1
  end%nat.

Definition norm_kv (kv : string * json) : string * json := (kv.1, json_norm kv.2).

Definition dump_items (lvl : nat) (xs : list json) : list ascii :=
  mjoin ((fun y => ","%char :: newline_indent lvl ++ dump_at lvl y) <$> xs).

Definition dump_members (lvl : nat) (kvs : list (string * json)) : list ascii :=
  mjoin ((fun kv => ","%char :: newline_indent lvl ++ encode_str kv.1 ++ [":"; " "]%char ++
                    dump_at lvl kv.2) <$> kvs).

Definition num_head (c : ascii) : Prop := is_digit c = true \/ c = "-"%char.

Definition scans_back (j : json) : Prop :=
  forall lvl f r, wf_json j = true -> (json_size j <= f)%nat -> num_stop r ->
  scan_value f (dump_at lvl j ++ r) = Some (json_norm j, r).

Definition norm_ok (j : json) : Prop := wf_json j = true /\ json_norm j = j.

(** A payload with every kind of value: nested dicts, a list, an [int], a
    float written [25.0] by the server (the decimal [250 * 10^-1]), NaN and
    both infinities, [None]
    and a string with a quote, a backslash and a control character. *)
Definition archive_sample : json :=
  JObj [("hourly", JObj [("time", JArr [JStr "2024-01-01T00:00"; JNull]);
                         ("temperature_2m", JArr [JFloat (Dec 250 (-1)); JInt (-3); JNaN;
                                                  JInf true; JInf false]);
                         ("flags", JArr [JBool true; JBool false; JObj []; JArr []])]);
        ("note", JStr (String quote (String backslash (String "001" EmptyString))))]%string.

(** ** Lemmas *)

Lemma digit_value_digit_char d : 0 <= d <= 9 -> digit_value (digit_char d) = Some d.
Proof.
  intros Hd. unfold digit_value, digit_char.
  rewrite nat_ascii_embedding by lia. rewrite Z2Nat.id by lia.
  replace (48 + d - 48) with d by lia.
  destruct (Z.leb_spec 0 d), (Z.leb_spec d 9); simpl; done || lia.
Qed.

Lemma digits_to_Z_app ds es :
  digits_to_Z (ds ++ es) = digits_to_Z ds * 10 ^ Z.of_nat (length es) + digits_to_Z es.
Proof.
  unfold digits_to_Z. rewrite fold_left_app.
  generalize (fold_left (fun acc c => acc * 10 + from_option id 0 (digit_value c)) ds 0) as a.
  induction es as [|c es IH]; intros a; cbn [fold_left length]; [lia|].
  rewrite (IH (a * 10 + _)), (IH (0 * 10 + _)). rewrite Nat2Z.inj_succ, Z.pow_succ_r by lia. lia.
Qed.

Lemma digits_go_spec f n :
  0 <= n < 2 ^ Z.of_nat f -> (0 < f)%nat ->
  Forall (fun c => is_digit c = true) (digits_go f n) /\
  digits_to_Z (digits_go f n) = n /\
  exists c cs, digits_go f n = c :: cs /\ (0 < n -> c <> "0"%char).
Proof.
  revert n. induction f as [|f IH]; intros n Hn Hf; [lia|].
  rewrite Nat2Z.inj_succ, Z.pow_succ_r in Hn by lia. cbn [digits_go].
  destruct (Z.ltb_spec n 10).
  - assert (Hv := digit_value_digit_char n ltac:(lia)).
    split_and!; [repeat constructor; unfold is_digit; by rewrite Hv| |].
    + unfold digits_to_Z. cbn [fold_left]. rewrite digit_value_digit_char by lia. done.
    + eexists _, []. split; [done|]. intros Hp Heq. rewrite Heq in Hv. vm_compute in Hv. injection Hv. lia.
  - assert (Hf' : (0 < f)%nat).
    { destruct f; [|lia]. cbn in Hn. lia. }
    destruct (IH (n / 10)) as (Hd & Hz & c & cs & Heq & Hc); [|done|].
    { split; [apply Z.div_pos; lia|]. apply Z.div_lt_upper_bound; lia. }
    assert (Hv := digit_value_digit_char (n mod 10) ltac:(pose proof (Z.mod_pos_bound n 10); lia)).
    split_and!.
    + apply Forall_app; split; [done|]. constructor; [|done]. unfold is_digit. by rewrite Hv.
    + rewrite digits_to_Z_app, Hz. unfold digits_to_Z. cbn [fold_left length]. rewrite Hv.
      change (10 ^ Z.of_nat 1) with 10. pose proof (Z.div_mod n 10). cbn [from_option id]. lia.
    + rewrite Heq. eexists _, _. split; [done|]. intros _. apply Hc.
      apply Z.div_str_pos. lia.
Qed.

Lemma z_digits_spec n : 0 <= n ->
  Forall (fun c => is_digit c = true) (z_digits n) /\ digits_to_Z (z_digits n) = n /\
  exists c cs, z_digits n = c :: cs /\ (0 < n -> c <> "0"%char).
Proof.
  intros Hn. apply digits_go_spec; [|lia].
  rewrite Nat2Z.inj_succ, Z2Nat.id by apply Z.log2_nonneg.
  destruct (Z.eq_dec n 0) as [->|Hn0]; [done|].
  pose proof (Z.log2_spec n ltac:(lia)). lia.
Qed.

Lemma digit_value_char c v : digit_value c = Some v -> c = digit_char v /\ 0 <= v <= 9.
Proof.
  unfold digit_value, digit_char. intros H.
  destruct (Z.leb_spec 0 (Z.of_nat (nat_of_ascii c) - 48)),
           (Z.leb_spec (Z.of_nat (nat_of_ascii c) - 48) 9); simplify_eq/=; split; [|lia].
  replace (48 + _) with (Z.of_nat (nat_of_ascii c)) by lia.
  by rewrite Nat2Z.id, ascii_nat_embedding.
Qed.

Lemma is_digit_cases c : is_digit c = true ->
  c = "0"%char \/ c = "1"%char \/ c = "2"%char \/ c = "3"%char \/ c = "4"%char \/
  c = "5"%char \/ c = "6"%char \/ c = "7"%char \/ c = "8"%char \/ c = "9"%char.
Proof.
  unfold is_digit. case_bool_decide as H; [|done]. intros _.
  destruct H as [v (-> & Hv)%digit_value_char].
  assert (v = 0 \/ v = 1 \/ v = 2 \/ v = 3 \/ v = 4 \/ v = 5 \/ v = 6 \/ v = 7 \/ v = 8 \/ v = 9)
    as Hv' by lia.
  destruct_or! Hv'; subst v; [left|do 1 right; left|do 2 right; left|do 3 right; left|
    do 4 right; left|do 5 right; left|do 6 right; left|do 7 right; left|do 8 right; left|
    do 9 right]; reflexivity.
Qed.

Lemma span_digits_app ds r :
  all_digits ds -> no_digit_head r -> span_digits (ds ++ r) = (ds, r).
Proof.
  intros Hds Hr. induction Hds as [|c ds Hc _ IH]; cbn [app span_digits].
  - destruct r as [|c r]; [done|]. unfold no_digit_head in Hr. cbn [span_digits]. by rewrite Hr.
  - unfold is_digit in Hc. case_bool_decide as H; [|done]. destruct H as [v Hv].
    by rewrite Hv, IH.
Qed.

Lemma num_stop_no_digit r : num_stop r -> no_digit_head r.
Proof. destruct r; [done|]. by intros [-> | ->]. Qed.

Lemma scan_frac_stop r : num_stop r -> scan_frac r = ([], r).
Proof. destruct r; [done|]. by intros [-> | ->]. Qed.

Lemma scan_exp_stop r : num_stop r -> scan_exp r = (None, r).
Proof. destruct r; [done|]. by intros [-> | ->]. Qed.

Lemma no_digit_head_text fp ex r :
  num_stop r -> no_digit_head (frac_text fp ++ exp_text ex ++ r).
Proof. intros Hr. destruct fp; [|reflexivity]. destruct ex as [[]|]; [reflexivity|]. by apply num_stop_no_digit. Qed.

Lemma scan_exp_text ex r : exp_ok ex -> num_stop r -> scan_exp (exp_text ex ++ r) = (exp_value ex, r).
Proof.
  intros Hex Hr. destruct ex as [[eneg eds]|]; [|by apply scan_exp_stop].
  destruct Hex as [Hne Hd]. cbn [exp_text app scan_exp].
  rewrite bool_decide_true by (left; done).
  assert (Hs : read_sign ((if eneg then "-"%char else "+"%char) :: eds ++ r) =
               (if eneg then -1 else 1, eds ++ r)) by (by destruct eneg).
  rewrite Hs, span_digits_app by (done || by apply num_stop_no_digit).
  by destruct eds.
Qed.

Lemma scan_frac_text fp ex r :
  all_digits fp -> num_stop r -> scan_frac (frac_text fp ++ exp_text ex ++ r) = (fp, exp_text ex ++ r).
Proof.
  intros Hfp Hr. destruct fp as [|c cs].
  - destruct ex as [[]|]; [done|]. by apply scan_frac_stop.
  - cbn [frac_text app scan_frac].
    change (c :: cs ++ exp_text ex ++ r) with ((c :: cs) ++ exp_text ex ++ r).
    rewrite (span_digits_app (c :: cs)); [done|done|].
    destruct ex as [[]|]; [reflexivity|]. by apply num_stop_no_digit.
Qed.

Lemma scan_int_part_ok ip t : int_part_ok ip -> no_digit_head t -> scan_int_part (ip ++ t) = Some (ip, t).
Proof.
  intros [Hd (c & cs & -> & Hc)] Ht. cbn [app scan_int_part].
  case_bool_decide as H0; [by rewrite (Hc H0), H0|].
  inversion Hd as [|? ? Hc0 Hcs]; subst. rewrite Hc0. f_equal.
  exact (span_digits_app (c :: cs) t Hd Ht).
Qed.

Lemma scan_sign_text neg ip t :
  int_part_ok ip -> scan_sign (sign_text neg ++ ip ++ t) = (if neg then -1 else 1, ip ++ t).
Proof.
  intros [Hd (c & cs & -> & _)]. destruct neg; [done|]. cbn.
  rewrite bool_decide_false; [done|]. intros ->. inversion Hd. done.
Qed.

(** [match_number] reads a well-formed number text whole. *)
Lemma scan_number_text neg ip fp ex r :
  int_part_ok ip -> all_digits fp -> exp_ok ex -> num_stop r ->
  scan_number (num_text neg ip fp ex ++ r) = Some (num_value neg ip fp ex, r).
Proof.
  intros Hip Hfp Hex Hr. unfold scan_number, num_text. rewrite <- !app_assoc.
  rewrite scan_sign_text, scan_int_part_ok by (done || by apply no_digit_head_text).
  rewrite scan_frac_text, scan_exp_text by done. unfold num_value. by destruct fp, (exp_value ex).
Qed.

Lemma int_part_ok_z_digits n : 0 <= n -> int_part_ok (z_digits n).
Proof.
  intros Hn. destruct (z_digits_spec n Hn) as (Hd & _ & c & cs & Heq & Hc).
  split; [done|]. exists c, cs. split; [done|]. intros ->.
  destruct (Z.eq_dec n 0) as [->|Hn0]; [by vm_compute in Heq; simplify_eq|].
  exfalso. by apply Hc; [lia|].
Qed.

Lemma int_repr_text z : int_repr z = num_text (z <? 0) (z_digits (Z.abs z)) [] None.
Proof.
  unfold int_repr, num_text. cbn [frac_text exp_text]. rewrite !app_nil_r.
  destruct (Z.ltb_spec z 0); cbn [sign_text app]; repeat f_equal; lia.
Qed.

(** [int.__repr__] reads back as the same [int]. *)
Lemma scan_number_int z r : num_stop r -> scan_number (int_repr z ++ r) = Some (JInt z, r).
Proof.
  intros Hr. rewrite int_repr_text, scan_number_text by
    (done || (apply int_part_ok_z_digits; lia) || constructor).
  unfold num_value. cbn [exp_value].
  destruct (z_digits_spec (Z.abs z)) as (_ & -> & _); [lia|].
  destruct (Z.ltb_spec z 0); repeat f_equal; lia.
Qed.

(** ** Normal decimals *)

Lemma strip_go_stop f m e : m mod 10 <> 0 -> strip_go (S f) m e = (m, e).
Proof. intros H. cbn. by destruct (Z.eqb_spec (m mod 10) 0). Qed.

Lemma strip_go_scale f k m e : m mod 10 <> 0 -> (k < f)%nat ->
  strip_go f (m * 10 ^ Z.of_nat k) e = (m, e + Z.of_nat k).
Proof.
  revert f e. induction k as [|k IH]; intros f e Hm Hk.
  - destruct f; [lia|]. rewrite Z.mul_1_r, Z.add_0_r. by apply strip_go_stop.
  - destruct f as [|f]; [lia|]. cbn [strip_go].
    rewrite Nat2Z.inj_succ, Z.pow_succ_r by lia.
    replace (m * (10 * 10 ^ Z.of_nat k)) with ((m * 10 ^ Z.of_nat k) * 10) by ring.
    rewrite Z.mod_mul, Z.div_mul by lia. cbn [Z.eqb].
    rewrite IH by lia. f_equal. lia.
Qed.

(** Every non-zero mantissa is a mantissa without trailing zero times a
    power of ten. *)
Lemma mant_decomp m : m <> 0 -> exists m' k, m = m' * 10 ^ Z.of_nat k /\ m' mod 10 <> 0.
Proof.
  intros Hm. remember (Z.to_nat (Z.abs m)) as n eqn:Hn.
  assert (Hb : Z.abs m <= Z.of_nat n) by lia. clear Hn. revert m Hm Hb.
  induction n as [|n IH]; intros m Hm Hb; [lia|].
  destruct (Z.eq_dec (m mod 10) 0) as [H10|H10]; [|by exists m, 0%nat; rewrite Z.mul_1_r].
  assert (Hq : m = 10 * (m / 10)) by (apply Z.div_exact; lia).
  destruct (IH (m / 10)) as (m' & k & Hk & Hm'); [lia|lia|].
  exists m', (S k). rewrite Nat2Z.inj_succ, Z.pow_succ_r by lia. lia.
Qed.

Lemma dec_norm_scale m e k : m mod 10 <> 0 ->
  dec_norm (Dec (m * 10 ^ Z.of_nat k) e) = Dec m (e + Z.of_nat k).
Proof.
  intros Hm. unfold dec_norm. cbn [dec_mant dec_exp].
  assert (Hm0 : m <> 0) by (intros ->; done).
  assert (Hp : 0 < 10 ^ Z.of_nat k) by (apply Z.pow_pos_nonneg; lia).
  destruct (Z.eqb_spec (m * 10 ^ Z.of_nat k) 0); [nia|].
  rewrite strip_go_scale; [done|done|].
  assert (H2 : 2 ^ Z.of_nat k <= Z.abs (m * 10 ^ Z.of_nat k)).
  { rewrite Z.abs_mul, (Z.abs_eq (10 ^ _)) by lia.
    assert (2 ^ Z.of_nat k <= 10 ^ Z.of_nat k) by (apply Z.pow_le_mono_l; lia). nia. }
  apply Z.log2_le_mono in H2. rewrite Z.log2_pow2 in H2 by lia. lia.
Qed.

Lemma dec_norm_fixed m e : m mod 10 <> 0 -> dec_norm (Dec m e) = Dec m e.
Proof. intros Hm. pose proof (dec_norm_scale m e 0 Hm) as H. by rewrite Z.mul_1_r, Z.add_0_r in H. Qed.

Lemma dec_norm_zero e : dec_norm (Dec 0 e) = Dec 0 0.
Proof. done. Qed.

(** A normal decimal has no trailing zero, and is zero only as [Dec 0 0]. *)
Lemma dec_norm_shape d :
  (dec_mant d = 0 /\ dec_norm d = Dec 0 0) \/
  (dec_mant d <> 0 /\ dec_mant (dec_norm d) mod 10 <> 0 /\
   exists k, dec_mant d = dec_mant (dec_norm d) * 10 ^ Z.of_nat k /\
             dec_exp (dec_norm d) = dec_exp d + Z.of_nat k).
Proof.
  destruct d as [m e]. destruct (Z.eq_dec m 0) as [->|Hm]; [by left|right].
  destruct (mant_decomp m Hm) as (m' & k & -> & Hm'). rewrite dec_norm_scale by done.
  cbn. split_and!; [done|done|]. by exists k.
Qed.

Lemma dec_norm_idem d : dec_norm (dec_norm d) = dec_norm d.
Proof.
  destruct (dec_norm_shape d) as [[_ ->]|(_ & Hm & _)]; [done|].
  destruct (dec_norm d) as [m e]. by apply dec_norm_fixed.
Qed.

(** Normalising keeps the number. *)
Lemma dec_norm_value d : dec_compare (dec_norm d) d = Eq.
Proof.
  destruct (dec_norm_shape d) as [[Hm ->]|(_ & _ & k & Hm & He)].
  - destruct d as [m e]. cbn in Hm. subst. unfold dec_compare. cbn. by rewrite !Z.mul_0_l.
  - destruct d as [m e], (dec_norm (Dec m e)) as [m' e']. cbn in *. subst.
    rewrite (dec_compare_at _ _ e) by (cbn; lia). cbn.
    replace (e + Z.of_nat k - e) with (Z.of_nat k) by lia.
    rewrite Z.sub_diag, Z.pow_0_r, Z.mul_1_r. apply Z.compare_refl.
Qed.

(** ** Floats *)

Lemma digits_to_Z_zeros k : digits_to_Z (replicate k "0"%char) = 0.
Proof. unfold digits_to_Z. induction k as [|k IH]; [done|]. exact IH. Qed.

Lemma all_digits_zeros k : all_digits (replicate k "0"%char).
Proof. apply Forall_replicate. done. Qed.

Lemma frac_text_cons fp : fp <> [] -> frac_text fp = "."%char :: fp.
Proof. by destruct fp. Qed.

Lemma exp_digits_spec x : 0 <= x ->
  exp_digits x <> [] /\ all_digits (exp_digits x) /\ digits_to_Z (exp_digits x) = x.
Proof.
  intros Hx. destruct (z_digits_spec x Hx) as (Hd & Hv & c & cs & Heq & _).
  unfold exp_digits. destruct (Z.ltb_spec x 10); [|split_and!; [by rewrite Heq|done|done]].
  split_and!; [done|by constructor|].
  change ("0"%char :: z_digits x) with (["0"%char] ++ z_digits x).
  rewrite digits_to_Z_app, Hv. done.
Qed.

Lemma num_value_float neg ip fp ex :
  fp <> [] \/ ex <> None ->
  num_value neg ip fp ex =
  JFloat (dec_norm (Dec ((if neg then -1 else 1) * digits_to_Z (ip ++ fp))
                        (from_option id 0 (exp_value ex) - Z.of_nat (length fp)))).
Proof. intros H. unfold num_value. destruct fp, ex as [[]|]; [done|by destruct H|done|done]. Qed.

(** [float.__repr__] is a number text whose value, once normalised, is
    the float: its digits are those of the mantissa followed by [j] zeros. *)
(** What the proofs need of the digits printed for a decimal [m * 10^e]
    with [m <> 0]: an integer part, a fraction and an exponent that
    [NUMBER_RE] reads whole, whose digits read [|m| * 10^j] and whose
    exponent, less the length of the fraction, plus [j] is [e]. *)
Definition digits_shape (m e : Z) (t : list ascii) : Prop :=
  exists ip fp ex j,
    t = ip ++ frac_text fp ++ exp_text ex /\
    int_part_ok ip /\ all_digits fp /\ exp_ok ex /\ (fp <> [] \/ ex <> None) /\
    digits_to_Z (ip ++ fp) = Z.abs m * 10 ^ Z.of_nat j /\
    from_option id 0 (exp_value ex) - Z.of_nat (length fp) + Z.of_nat j = e.

(** The four layouts of [float_repr], for the digits [c :: cs] of [|m|]. *)
Section FloatLayouts.
  Context (m e : Z) (c : ascii) (cs : list ascii).
  Hypothesis Hd : all_digits (c :: cs).
  Hypothesis Hv : digits_to_Z (c :: cs) = Z.abs m.
  Hypothesis Hc0 : c <> "0"%char.

Let nd : Z := Z.of_nat (length (c :: cs)).

  (** [0.000ddd] *)
Lemma layout_small :
    nd + e <= 0 ->
    digits_shape m e (["0"; "."]%char ++ replicate (Z.to_nat (- (nd + e))) "0"%char ++ c :: cs).
  Proof.
    intros Hneg. exists ["0"%char], (replicate (Z.to_nat (- (nd + e))) "0"%char ++ c :: cs), None, 0%nat.
    rewrite frac_text_cons by (by destruct (replicate _ _)).
    split_and!; [by rewrite app_nil_r|split; [by repeat constructor|by eexists _, []]
      |apply Forall_app; split; [apply all_digits_zeros|done]|done|by left; destruct (replicate _ _)| |].
    - change (["0"%char] ++ ?l) with (replicate 1 "0"%char ++ l).
      rewrite app_assoc, <- replicate_add, digits_to_Z_app, digits_to_Z_zeros, Hv. lia.
    - rewrite length_app, length_replicate. cbn [exp_value from_option id]. unfold nd in *; cbn [length] in *; lia.
  Qed.

  (** [dd.ddd] *)
Lemma layout_point :
    0 < nd + e < nd ->
    digits_shape m e (take (Z.to_nat (nd + e)) (c :: cs) ++ "."%char :: drop (Z.to_nat (nd + e)) (c :: cs)).
  Proof.
    intros Hlt. set (k := Z.to_nat (nd + e)).
    exists (take k (c :: cs)), (drop k (c :: cs)), None, 0%nat.
    assert (Hdrop : drop k (c :: cs) <> []).
    { intros Hnil. apply (f_equal length) in Hnil. rewrite length_drop in Hnil. unfold nd, k in *; cbn [length] in *; lia. }
    rewrite frac_text_cons by done.
    split_and!; [by rewrite app_nil_r| |by apply Forall_drop|done|by left| |].
    - split; [by apply Forall_take|].
      assert (Hk : (0 < k)%nat) by (unfold k, nd in *; cbn [length] in *; lia).
      destruct k as [|k']; [lia|]. eexists _, _. split; [done|]. done.
    - rewrite take_drop, Hv. lia.
    - rewrite length_drop. cbn [exp_value from_option id]. unfold nd, k in *; cbn [length] in *; lia.
  Qed.

  (** [ddd000.0] *)
Lemma layout_whole :
    nd <= nd + e ->
    digits_shape m e ((c :: cs) ++ replicate (Z.to_nat (nd + e - nd)) "0"%char ++ ["."; "0"]%char).
  Proof.
    intros Hge. set (k := Z.to_nat (nd + e - nd)).
    exists ((c :: cs) ++ replicate k "0"%char), ["0"%char], None, (S k).
    split_and!; [cbn [frac_text exp_text]; by rewrite !app_nil_r, <- !app_assoc| | |done|by left| |].
    - split; [apply Forall_app; split; [done|apply all_digits_zeros]|]. eexists _, _. split; [done|]. done.
    - by repeat constructor.
    - rewrite <- app_assoc. change ["0"%char] with (replicate 1 "0"%char).
      rewrite <- replicate_add, digits_to_Z_app, digits_to_Z_zeros, Hv, length_replicate.
      replace (k + 1)%nat with (S k) by lia. lia.
    - cbn [exp_value from_option id length]. unfold k, nd in *; cbn [length] in *; lia.
  Qed.

  (** [d.ddde+xx] *)
Lemma layout_scientific :
    digits_shape m e
      (take 1 (c :: cs) ++ (if nd =? 1 then [] else "."%char :: drop 1 (c :: cs)) ++
       "e"%char :: (if nd + e - 1 <? 0 then "-"%char else "+"%char) ::
       exp_digits (Z.abs (nd + e - 1))).
  Proof.
    destruct (exp_digits_spec (Z.abs (nd + e - 1))) as (Hne & Hed & Hev); [lia|].
    exists [c], cs, (Some (nd + e - 1 <? 0, exp_digits (Z.abs (nd + e - 1)))), 0%nat.
    split_and!; [| |by inversion Hd|done|by right| |].
    - cbn [take drop exp_text app]. rewrite take_0, drop_0. f_equal.
      destruct cs as [|c' cs']; [reflexivity|]. cbn [frac_text]. unfold nd.
      rewrite (proj2 (Z.eqb_neq _ 1)); [done|cbn [length]; lia].
    - split; [inversion Hd; by repeat constructor|]. by eexists _, [].
    - change ([c] ++ cs) with (c :: cs). rewrite Hv. cbn [Z.of_nat]. rewrite Z.pow_0_r. lia.
    - cbn [exp_value from_option id]. rewrite Hev. unfold nd in *.
      destruct (Z.ltb_spec (Z.of_nat (length (c :: cs)) + e - 1) 0); cbn [length] in *; lia.
  Qed.
End FloatLayouts.

Lemma float_repr_text d :
  dec_mant (dec_norm d) <> 0 ->
  exists ip fp ex j,
    float_repr d = num_text (dec_mant (dec_norm d) <? 0) ip fp ex /\
    int_part_ok ip /\ all_digits fp /\ exp_ok ex /\ (fp <> [] \/ ex <> None) /\
    digits_to_Z (ip ++ fp) = Z.abs (dec_mant (dec_norm d)) * 10 ^ Z.of_nat j /\
    from_option id 0 (exp_value ex) - Z.of_nat (length fp) + Z.of_nat j = dec_exp (dec_norm d).
Proof.
  intros Hm0. unfold float_repr. cbv zeta.
  set (m := dec_mant (dec_norm d)) in *. set (e := dec_exp (dec_norm d)) in *.
  rewrite (proj2 (Z.eqb_neq m 0) Hm0).
  destruct (z_digits_spec (Z.abs m)) as (Hd & Hv & c & cs & Hds & Hc); [lia|].
  assert (Hc0 : c <> "0"%char) by (apply Hc; lia).
  rewrite Hds in *.
  destruct (_ && _) eqn:Hfix;
    [destruct (Z.leb_spec (Z.of_nat (length (c :: cs)) + e) 0);
     [|destruct (Z.ltb_spec (Z.of_nat (length (c :: cs)) + e) (Z.of_nat (length (c :: cs))))]|].
  all: match goal with
       | |- exists _ _ _ _, _ ++ ?t = _ /\ _ =>
           assert (Hs : digits_shape m e t)
             by (first [apply layout_small | apply layout_point | apply layout_whole
                       | apply layout_scientific]; auto; lia)
       end.
  all: destruct Hs as (ip & fp & ex & j & Ht & Hrest); exists ip, fp, ex, j;
    split; [unfold num_text, sign_text; rewrite Ht; by destruct (m <? 0)|exact Hrest].
Qed.

(** [float.__repr__] reads back as the same float. *)
Lemma scan_number_float d r : num_stop r ->
  scan_number (float_repr d ++ r) = Some (JFloat (dec_norm d), r).
Proof.
  intros Hr. destruct (dec_norm_shape d) as [[_ Hz]|(_ & Hm10 & _)].
  - unfold float_repr. rewrite Hz. cbn -[scan_number].
    change ("0"%char :: "."%char :: "0"%char :: r) with (num_text false ["0"%char] ["0"%char] None ++ r).
    rewrite scan_number_text; [reflexivity|by split; [repeat constructor|by eexists _, []]
      |by repeat constructor|done|done].
  - assert (Hm0 : dec_mant (dec_norm d) <> 0) by (intros H; rewrite H in Hm10; done).
    destruct (float_repr_text d Hm0) as (ip & fp & ex & j & -> & Hip & Hfp & Hex & Hfe & Hdig & Hexp).
    rewrite scan_number_text, num_value_float by done. rewrite Hdig.
    destruct (dec_norm d) as [m e]. cbn [dec_mant dec_exp] in *.
    rewrite Z.mul_assoc.
    replace ((if m <? 0 then -1 else 1) * Z.abs m) with m by (destruct (Z.ltb_spec m 0); lia).
    rewrite dec_norm_scale by done. repeat f_equal. lia.
Qed.

Lemma scan_string_escape c s :
  scan_string (escape_char c ++ s) =
  match scan_string s with Some (x, r) => Some (c :: x, r) | None => None end.
Proof. destruct c as [[] [] [] [] [] [] [] []]; reflexivity. Qed.

Lemma scan_string_escaped cs r :
  scan_string (mjoin (escape_char <$> cs) ++ quote :: r) = Some (cs, r).
Proof.
  induction cs as [|c cs IH]; [reflexivity|].
  rewrite fmap_cons. change (mjoin (escape_char c :: ?l)) with (escape_char c ++ mjoin l).
  rewrite <- app_assoc, scan_string_escape, IH. done.
Qed.

Lemma encode_str_app s r :
  encode_str s ++ r = quote :: mjoin (escape_char <$> String.list_ascii_of_string s) ++ quote :: r.
Proof. unfold encode_str. cbn [app]. by rewrite <- app_assoc. Qed.

(** ** Structure *)

Lemma json_norm_arr l : json_norm (JArr l) = JArr (json_norm <$> l).
Proof. reflexivity. Qed.

Lemma json_norm_obj kvs : json_norm (JObj kvs) = JObj (norm_kv <$> kvs).
Proof. cbn [json_norm]. f_equal. induction kvs as [|[k v] kvs IH]; [done|]. cbn. by f_equal. Qed.

Lemma wf_json_arr l : wf_json (JArr l) = true <-> Forall (fun x => wf_json x = true) l.
Proof.
  cbn [wf_json]. induction l as [|x l IH]; [split; by constructor|].
  rewrite andb_true_iff, Forall_cons, IH. done.
Qed.

Lemma wf_json_obj kvs :
  wf_json (JObj kvs) = true <-> NoDup kvs.*1 /\ Forall (fun kv => wf_json kv.2 = true) kvs.
Proof.
  cbn [wf_json]. rewrite andb_true_iff, bool_decide_eq_true. f_equiv.
  induction kvs as [|[k v] kvs IH]; [split; by constructor|].
  rewrite andb_true_iff, Forall_cons, IH. done.
Qed.

Lemma json_size_arr l : json_size (JArr l) = (2 + sum_list ((fun x => S (json_size x)) <$> l))%nat.
Proof. cbn [json_size]. f_equal. induction l as [|x l IH]; [done|]. cbn [fmap list_fmap sum_list]. rewrite <- IH. done. Qed.

Lemma json_size_obj kvs :
  json_size (JObj kvs) = (2 + sum_list ((fun kv => S (json_size kv.2)) <$> kvs))%nat.
Proof. cbn [json_size]. f_equal. induction kvs as [|[k v] kvs IH]; [done|]. cbn [fmap list_fmap sum_list]. rewrite <- IH. done. Qed.

Lemma dump_items_cons lvl y xs :
  dump_items lvl (y :: xs) = ","%char :: newline_indent lvl ++ dump_at lvl y ++ dump_items lvl xs.
Proof. unfold dump_items. cbn [fmap list_fmap mjoin list_join app]. by rewrite <- !app_assoc. Qed.

Lemma dump_members_cons lvl k v kvs :
  dump_members lvl ((k, v) :: kvs) =
  ","%char :: newline_indent lvl ++ encode_str k ++ [":"; " "]%char ++ dump_at lvl v ++ dump_members lvl kvs.
Proof. unfold dump_members. cbn [fmap list_fmap mjoin list_join app fst snd]. by rewrite <- !app_assoc. Qed.

Lemma dump_at_arr lvl x xs :
  dump_at lvl (JArr (x :: xs)) =
  "["%char :: newline_indent (S lvl) ++ dump_at (S lvl) x ++ dump_items (S lvl) xs ++
  newline_indent lvl ++ ["]"%char].
Proof.
  cbn [dump_at]. do 3 f_equal. f_equal.
  induction xs as [|y xs IH]; [done|]. rewrite dump_items_cons, <- IH. done.
Qed.

Lemma dump_at_obj lvl k v kvs :
  dump_at lvl (JObj ((k, v) :: kvs)) =
  "{"%char :: newline_indent (S lvl) ++ encode_str k ++ [":"; " "]%char ++ dump_at (S lvl) v ++
  dump_members (S lvl) kvs ++ newline_indent lvl ++ ["}"%char].
Proof.
  cbn [dump_at]. do 5 f_equal. f_equal.
  induction kvs as [|[k' v'] kvs IH]; [done|]. rewrite dump_members_cons, <- IH. done.
Qed.

(** ** The first character of a printed value *)

Lemma num_head_not c : num_head c -> is_ws c = false /\ c <> "]"%char.
Proof.
  intros [Hd| ->]; [|done].
  destruct (is_digit_cases c Hd) as [->|[->|[->|[->|[->|[->|[->|[->|[->| ->]]]]]]]]]; done.
Qed.

Lemma num_text_head neg ip fp ex r :
  int_part_ok ip -> exists c t, num_text neg ip fp ex ++ r = c :: t /\ num_head c.
Proof.
  intros [Hd (c & cs & -> & _)]. destruct neg; [by eexists _, _; split; [|right]|].
  inversion Hd; subst. eexists _, _. split; [done|]. by left.
Qed.

Lemma scan_value_num f c t res :
  num_head c -> scan_number (c :: t) = Some res -> scan_value (S f) (c :: t) = Some res.
Proof.
  intros Hc Hn. transitivity (scan_number_or_constant (c :: t));
    [|by unfold scan_number_or_constant; rewrite Hn].
  destruct Hc as [Hd| ->]; [|reflexivity].
  destruct (is_digit_cases c Hd) as [->|[->|[->|[->|[->|[->|[->|[->|[->| ->]]]]]]]]]; reflexivity.
Qed.

(** The reduction rules of the scanner on the characters that start a
    string, an object or an array, and after an element or a member. *)
Lemma scan_value_str f r :
  scan_value (S f) (quote :: r) =
  match scan_string r with Some (x, r') => Some (JStr (String.string_of_list_ascii x), r') | None => None end.
Proof. reflexivity. Qed.

Lemma scan_value_obj f r : scan_value (S f) ("{"%char :: r) = scan_object f (skip_ws r).
Proof. reflexivity. Qed.

Lemma scan_value_arr f r : scan_value (S f) ("["%char :: r) = scan_array f (skip_ws r).
Proof. reflexivity. Qed.

Lemma scan_object_str f r :
  scan_object (S f) (quote :: r) =
  match scan_members f r with Some (ps, r') => Some (JObj (dict_of_pairs ps), r') | None => None end.
Proof. reflexivity. Qed.

Lemma scan_elements_comma f cs v r t :
  scan_value f cs = Some (v, r) -> skip_ws r = ","%char :: t ->
  scan_elements (S f) cs =
  match scan_elements f (skip_ws t) with Some (vs, r'') => Some (v :: vs, r'') | None => None end.
Proof. intros H1 H2. cbn [scan_elements]. by rewrite H1, H2. Qed.

Lemma scan_elements_close f cs v r t :
  scan_value f cs = Some (v, r) -> skip_ws r = "]"%char :: t -> scan_elements (S f) cs = Some ([v], t).
Proof. intros H1 H2. cbn [scan_elements]. by rewrite H1, H2. Qed.

Lemma scan_members_comma f cs k r r1 v r2 r3 r4 :
  scan_string cs = Some (k, r) -> skip_ws r = ":"%char :: r1 ->
  scan_value f (skip_ws r1) = Some (v, r2) -> skip_ws r2 = ","%char :: r3 ->
  skip_ws r3 = quote :: r4 ->
  scan_members (S f) cs =
  match scan_members f r4 with
  | Some (ps, r5) => Some ((String.string_of_list_ascii k, v) :: ps, r5)
  | None => None
  end.
Proof. intros H1 H2 H3 H4 H5. cbn [scan_members]. by rewrite H1, H2, H3, H4, H5. Qed.

Lemma scan_members_close f cs k r r1 v r2 r3 :
  scan_string cs = Some (k, r) -> skip_ws r = ":"%char :: r1 ->
  scan_value f (skip_ws r1) = Some (v, r2) -> skip_ws r2 = "}"%char :: r3 ->
  scan_members (S f) cs = Some ([(String.string_of_list_ascii k, v)], r3).
Proof. intros H1 H2 H3 H4. cbn [scan_members]. by rewrite H1, H2, H3, H4. Qed.

Lemma dump_number_head lvl j r :
  (exists z, j = JInt z) \/ (exists d, j = JFloat d) ->
  exists c t, dump_at lvl j ++ r = c :: t /\ num_head c.
Proof.
  intros [[z ->]|[d ->]]; cbn [dump_at].
  - rewrite int_repr_text. apply num_text_head, int_part_ok_z_digits. lia.
  - destruct (dec_norm_shape d) as [[_ Hz]|(_ & Hm10 & _)].
    + unfold float_repr. rewrite Hz. cbn -[is_digit]. eexists _, _. split; [done|]. by left.
    + assert (Hm0 : dec_mant (dec_norm d) <> 0) by (intros H; rewrite H in Hm10; done).
      destruct (float_repr_text d Hm0) as (ip & fp & ex & j & -> & Hip & _). by apply num_text_head.
Qed.

Lemma dump_at_head lvl j r :
  exists c t, dump_at lvl j ++ r = c :: t /\ is_ws c = false /\ c <> "]"%char.
Proof.
  destruct j as [| [] | z | d | | [] | s | [|x xs] | [|[k v] kvs]];
    try (eexists _, _; split; [reflexivity|done]).
  - destruct (dump_number_head lvl (JInt z) r) as (c & t & Heq & Hc); [by left; eexists|].
    exists c, t. split; [done|]. by apply num_head_not.
  - destruct (dump_number_head lvl (JFloat d) r) as (c & t & Heq & Hc); [by right; eexists|].
    exists c, t. split; [done|]. by apply num_head_not.
Qed.

Lemma skip_ws_nl lvl t : skip_ws (newline_indent lvl ++ t) = skip_ws t.
Proof. unfold newline_indent. cbn [app skip_ws is_ws]. by induction (2 * lvl)%nat. Qed.

Lemma skip_ws_dump lvl j r : skip_ws (dump_at lvl j ++ r) = dump_at lvl j ++ r.
Proof. destruct (dump_at_head lvl j r) as (c & t & -> & Hws & _). cbn. by rewrite Hws. Qed.

Lemma scan_elements_dump lvl xs : forall x f r,
  Forall scans_back (x :: xs) -> Forall (fun y => wf_json y = true) (x :: xs) ->
  (sum_list ((fun y => S (json_size y)) <$> (x :: xs)) <= f)%nat ->
  scan_elements f (dump_at (S lvl) x ++ dump_items (S lvl) xs ++ newline_indent lvl ++ "]"%char :: r) =
  Some (json_norm <$> (x :: xs), r).
Proof.
  induction xs as [|y xs IH]; intros x f r HP Hwf Hf;
    apply Forall_cons in HP as [Hx HP]; apply Forall_cons in Hwf as [Hwx Hwf];
    (destruct f as [|f]; [cbn in Hf; lia|]).
  - erewrite scan_elements_close; [done|apply Hx; [done|cbn in Hf |- *; lia|by right]|].
    change (dump_items (S lvl) []) with (@nil ascii). cbn [app]. by rewrite skip_ws_nl.
  - rewrite dump_items_cons. cbn [app]. rewrite <- !app_assoc.
    erewrite scan_elements_comma; [|apply Hx; [done|cbn in Hf |- *; lia|by left]|done].
    rewrite skip_ws_nl, skip_ws_dump, IH; [done|done|done|cbn in Hf |- *; lia].
Qed.

Lemma scan_members_dump lvl kvs : forall k v f r,
  Forall (fun kv => scans_back kv.2) ((k, v) :: kvs) ->
  Forall (fun kv => wf_json kv.2 = true) ((k, v) :: kvs) ->
  (sum_list ((fun kv => S (json_size kv.2)) <$> ((k, v) :: kvs)) <= f)%nat ->
  scan_members f (mjoin (escape_char <$> String.list_ascii_of_string k) ++ quote :: ":"%char ::
                  " "%char :: dump_at (S lvl) v ++ dump_members (S lvl) kvs ++
                  newline_indent lvl ++ "}"%char :: r) =
  Some (norm_kv <$> ((k, v) :: kvs), r).
Proof.
  induction kvs as [|[k' v'] kvs IH]; intros k v f r HP Hwf Hf;
    apply Forall_cons in HP as [Hx HP]; apply Forall_cons in Hwf as [Hwx Hwf];
    (destruct f as [|f]; [cbn in Hf; lia|]).
  - erewrite scan_members_close;
      [|apply scan_string_escaped|reflexivity
       |cbn [skip_ws is_ws]; rewrite skip_ws_dump; apply Hx; [done|cbn in Hf |- *; lia|by right]|].
    + cbn. by rewrite String.string_of_list_ascii_of_string.
    + change (dump_members (S lvl) []) with (@nil ascii). cbn [app]. by rewrite skip_ws_nl.
  - rewrite dump_members_cons. cbn [app]. rewrite <- !app_assoc.
    erewrite scan_members_comma;
      [|apply scan_string_escaped|reflexivity
       |cbn [skip_ws is_ws]; rewrite skip_ws_dump; apply Hx; [done|cbn in Hf |- *; lia|by left]
       |reflexivity|].
    + rewrite IH; [|done|done|cbn in Hf |- *; lia].
      cbn. by rewrite String.string_of_list_ascii_of_string.
    + rewrite skip_ws_nl, encode_str_app. cbn [app]. rewrite <- !app_assoc. reflexivity.
Qed.

Lemma dict_of_pairs_nodup ps : NoDup ps.*1 -> dict_of_pairs ps = ps.
Proof.
  unfold dict_of_pairs. intros Hnd.
  cut (forall d, NoDup (d.*1 ++ ps.*1) ->
         foldl (fun d kv => dict_insert kv.1 kv.2 d) d ps = d ++ ps); [intros H; by apply (H [])|].
  clear Hnd. induction ps as [|[k v] ps IH]; intros d Hnd; cbn [foldl]; [by rewrite app_nil_r|].
  cbn [fmap list_fmap fst] in Hnd. apply NoDup_app in Hnd as (Hd & Hdis & Hps).
  unfold dict_insert. cbn [fst snd]. rewrite bool_decide_false by (intros Hk; by apply (Hdis k); [|left]).
  rewrite IH, <- app_assoc; [done|]. rewrite fmap_app, <- app_assoc. cbn.
  apply NoDup_app. split_and!; [done| |done]. intros x Hx Hx'. by apply (Hdis x).
Qed.

Lemma norm_kv_keys kvs : (norm_kv <$> kvs).*1 = kvs.*1.
Proof. induction kvs as [|[k v] kvs IH]; [done|]. cbn. by rewrite IH. Qed.

(** Every value the printer writes scans back as its normal form. *)
Lemma scan_dump j : scans_back j.
Proof.
  induction j as [| b | z | d | | nb | s | l IH | kvs IH] using json_ind'; intros lvl f r Hwf Hf Hr;
    (destruct f as [|f]; [cbn in Hf; lia|]).
  - reflexivity.
  - destruct b; reflexivity.
  - destruct (dump_number_head lvl (JInt z) r) as (c & t & Heq & Hc); [by left; eexists|].
    rewrite Heq. apply scan_value_num; [done|]. rewrite <- Heq. by apply scan_number_int.
  - destruct (dump_number_head lvl (JFloat d) r) as (c & t & Heq & Hc); [by right; eexists|].
    rewrite Heq. apply scan_value_num; [done|]. rewrite <- Heq. by apply scan_number_float.
  - reflexivity.
  - destruct nb; reflexivity.
  - cbn [dump_at]. rewrite encode_str_app, scan_value_str, scan_string_escaped.
    by rewrite String.string_of_list_ascii_of_string.
  - destruct l as [|x xs]; [destruct f; [cbn in Hf; lia|reflexivity]|].
    rewrite json_size_arr in Hf. apply wf_json_arr in Hwf.
    rewrite dump_at_arr. cbn [app]. rewrite scan_value_arr, <- !app_assoc. cbn [app].
    rewrite skip_ws_nl, skip_ws_dump.
    destruct f as [|f]; [cbn in Hf; lia|].
    destruct (dump_at_head (S lvl) x (dump_items (S lvl) xs ++ newline_indent lvl ++ "]"%char :: r))
      as (c & t & Heq & _ & Hc).
    cbn [scan_array]. rewrite Heq, bool_decide_false, <- Heq by done.
    rewrite scan_elements_dump; [|done|done|cbn in Hf |- *; lia].
    by rewrite json_norm_arr.
  - destruct kvs as [|[k v] kvs]; [destruct f; [cbn in Hf; lia|reflexivity]|].
    rewrite json_size_obj in Hf. apply wf_json_obj in Hwf as [Hnd Hwf].
    rewrite dump_at_obj. cbn [app]. rewrite scan_value_obj, <- !app_assoc. cbn [app].
    rewrite skip_ws_nl, encode_str_app.
    destruct f as [|f]; [cbn in Hf; lia|].
    change (skip_ws (quote :: ?t)) with (quote :: t). rewrite scan_object_str, <- !app_assoc. cbn [app].
    rewrite scan_members_dump; [|done|done|cbn in Hf |- *; lia].
    rewrite json_norm_obj, dict_of_pairs_nodup; [done|]. by rewrite norm_kv_keys.
Qed.

Lemma length_newline_indent lvl : (1 <= length (newline_indent lvl))%nat.
Proof. cbn. lia. Qed.

(** A value prints to at least [json_size] characters: the fuel of
    [json_loads] is enough for the text [json.dump] writes. *)
Lemma json_size_le_dump j : forall lvl, (json_size j <= length (dump_at lvl j))%nat.
Proof.
  induction j as [| b | z | d | | nb | s | l IH | kvs IH] using json_ind'; intros lvl.
  - cbn. lia.
  - destruct b; cbn; lia.
  - destruct (dump_number_head lvl (JInt z) []) as (c & t & Heq & _); [by left; eexists|].
    rewrite app_nil_r in Heq. rewrite Heq. cbn. lia.
  - destruct (dump_number_head lvl (JFloat d) []) as (c & t & Heq & _); [by right; eexists|].
    rewrite app_nil_r in Heq. rewrite Heq. cbn. lia.
  - cbn. lia.
  - destruct nb; cbn; lia.
  - cbn [dump_at json_size]. unfold encode_str. cbn [length]. lia.
  - destruct l as [|x xs]; [cbn; lia|]. rewrite json_size_arr, dump_at_arr.
    apply Forall_cons in IH as [Hx IH].
    assert (Hitems : (sum_list ((fun y => S (json_size y)) <$> xs) <= length (dump_items (S lvl) xs))%nat).
    { induction xs as [|y xs IHxs]; [done|]. apply Forall_cons in IH as [Hy IH].
      rewrite dump_items_cons, fmap_cons. change (sum_list (?a :: ?l)) with (a + sum_list l)%nat.
      cbn [length]. rewrite !length_app.
      specialize (Hy (S lvl)). pose proof (length_newline_indent (S lvl)). specialize (IHxs IH). lia. }
    rewrite fmap_cons. change (sum_list (?a :: ?l)) with (a + sum_list l)%nat.
    cbn [length]. rewrite !length_app. cbn [length].
    specialize (Hx (S lvl)). pose proof (length_newline_indent lvl). lia.
  - destruct kvs as [|[k v] kvs]; [cbn; lia|]. rewrite json_size_obj, dump_at_obj.
    apply Forall_cons in IH as [Hx IH].
    assert (Hmem : (sum_list ((fun kv => S (json_size kv.2)) <$> kvs) <= length (dump_members (S lvl) kvs))%nat).
    { induction kvs as [|[k' v'] kvs IHkvs]; [done|]. apply Forall_cons in IH as [Hy IH].
      rewrite dump_members_cons, fmap_cons. change (sum_list (?a :: ?l)) with (a + sum_list l)%nat.
      cbn [length snd]. rewrite !length_app.
      specialize (Hy (S lvl)). pose proof (length_newline_indent (S lvl)). specialize (IHkvs IH).
      cbn in Hy. unfold encode_str. cbn [length]. lia. }
    rewrite fmap_cons. change (sum_list (?a :: ?l)) with (a + sum_list l)%nat.
    cbn [length snd]. rewrite !length_app. cbn [length].
    specialize (Hx (S lvl)). pose proof (length_newline_indent lvl). cbn in Hx. lia.
Qed.

(** The archive round trip: the text [json.dump] writes reads back with
    [json.loads] as the payload, its floats normalised. *)
Lemma json_loads_dump_wf j : wf_json j = true -> json_loads (json_dump j) = Some (json_norm j).
Proof.
  intros Hwf. unfold json_loads, json_loads_with, json_dump. rewrite String.list_ascii_of_string_of_list_ascii.
  pose proof (json_size_le_dump j 0).
  rewrite <- (app_nil_r (dump_at 0 j)), skip_ws_dump, scan_dump; [done|done| |done].
  rewrite app_nil_r. lia.
Qed.

Lemma float_repr_norm d : float_repr (dec_norm d) = float_repr d.
Proof. unfold float_repr. by rewrite dec_norm_idem. Qed.

(** Normalising does not change the text. *)
Lemma dump_at_norm j : forall lvl, dump_at lvl (json_norm j) = dump_at lvl j.
Proof.
  induction j as [| b | z | d | | nb | s | l IH | kvs IH] using json_ind'; intros lvl; try done.
  - apply float_repr_norm.
  - rewrite json_norm_arr. destruct l as [|x xs]; [done|].
    apply Forall_cons in IH as [Hx IH]. rewrite fmap_cons, !dump_at_arr, Hx. do 4 f_equal.
    induction IH as [|y ys Hy _ IHys]; [done|]. by rewrite fmap_cons, !dump_items_cons, Hy, IHys.
  - rewrite json_norm_obj. destruct kvs as [|[k v] kvs]; [done|].
    apply Forall_cons in IH as [Hx IH]. rewrite fmap_cons. unfold norm_kv at 1. cbn [fst snd].
    rewrite !dump_at_obj, Hx. do 6 f_equal.
    induction IH as [|[k' v'] ys Hy _ IHys]; [done|].
    rewrite fmap_cons. unfold norm_kv at 1. cbn [fst snd] in *. by rewrite !dump_members_cons, Hy, IHys.
Qed.

(** ** What [json.loads] returns *)

Lemma fmap_id_Forall {A} (f : A -> A) (l : list A) : f <$> l = l <-> Forall (fun x => f x = x) l.
Proof.
  induction l as [|x l IH]; [split; by constructor|].
  rewrite fmap_cons, Forall_cons, <- IH. split; [by intros [= -> ->]|by intros [-> ->]].
Qed.

Lemma norm_ok_arr l : norm_ok (JArr l) <-> Forall norm_ok l.
Proof.
  unfold norm_ok. rewrite wf_json_arr, json_norm_arr.
  split; [intros [Hw [= Hn]%(f_equal id)]|intros Hl].
  - apply fmap_id_Forall in Hn. apply Forall_and. by split.
  - apply Forall_and in Hl as [Hw Hn]. split; [done|]. by apply fmap_id_Forall in Hn as ->.
Qed.

Lemma norm_kv_id_Forall kvs : norm_kv <$> kvs = kvs <-> Forall (fun kv => json_norm kv.2 = kv.2) kvs.
Proof.
  rewrite fmap_id_Forall. apply Forall_iff. intros [k v]. unfold norm_kv. cbn.
  split; [by intros [=]|by intros ->].
Qed.

Lemma norm_ok_obj kvs : norm_ok (JObj kvs) <-> NoDup kvs.*1 /\ Forall (fun kv => norm_ok kv.2) kvs.
Proof.
  unfold norm_ok. rewrite wf_json_obj, json_norm_obj.
  split; [intros [[Hnd Hw] [= Hn]]|intros [Hnd Hl]].
  - apply norm_kv_id_Forall in Hn. split; [done|]. apply Forall_and. by split.
  - apply Forall_and in Hl as [Hw Hn]. split; [done|]. by apply norm_kv_id_Forall in Hn as ->.
Qed.

Lemma dict_insert_keys k v d : NoDup d.*1 -> NoDup (dict_insert k v d).*1.
Proof.
  intros Hnd. unfold dict_insert. case_bool_decide as Hk.
  - rewrite <- list_fmap_compose.
    erewrite list_fmap_ext; [done|]. intros i [k' v'] _. cbn. by case_bool_decide; subst.
  - rewrite fmap_app. apply NoDup_app. split_and!; [done| |by apply NoDup_singleton].
    intros x Hx ->%list_elem_of_singleton. done.
Qed.

Lemma dict_insert_values (P : json -> Prop) k v d :
  P v -> Forall (fun kv => P kv.2) d -> Forall (fun kv => P kv.2) (dict_insert k v d).
Proof.
  intros Hv Hd. unfold dict_insert. case_bool_decide.
  - apply Forall_fmap, (Forall_impl _ _ _ Hd). intros [k' v'] Hkv. cbn. by case_bool_decide.
  - apply Forall_app. split; [done|]. by constructor.
Qed.

(** [dict(pairs)] has no repeated key and only values of the pairs. *)
Lemma dict_of_pairs_ok (P : json -> Prop) ps :
  Forall (fun kv => P kv.2) ps ->
  NoDup (dict_of_pairs ps).*1 /\ Forall (fun kv => P kv.2) (dict_of_pairs ps).
Proof.
  unfold dict_of_pairs. intros Hps.
  cut (forall d, NoDup d.*1 -> Forall (fun kv => P kv.2) d ->
         NoDup (foldl (fun d kv => dict_insert kv.1 kv.2 d) d ps).*1 /\
         Forall (fun kv => P kv.2) (foldl (fun d kv => dict_insert kv.1 kv.2 d) d ps));
    [intros H; apply H; [constructor|done]|].
  induction Hps as [|[k v] ps Hv _ IH]; intros d Hnd Hd; [done|].
  cbn [foldl]. apply IH; [by apply dict_insert_keys|by apply dict_insert_values].
Qed.

Lemma scan_number_ok cs j r : scan_number cs = Some (j, r) -> norm_ok j.
Proof.
  unfold scan_number. destruct (scan_sign cs) as [sgn r0].
  destruct (scan_int_part r0) as [[ip r1]|]; [|done].
  destruct (scan_frac r1) as [fp r2]. destruct (scan_exp r2) as [ex r3].
  destruct fp, ex; intros [= <- _]; split; try done; cbn; by rewrite dec_norm_idem.
Qed.

Lemma scan_number_or_constant_ok cs j r : scan_number_or_constant cs = Some (j, r) -> norm_ok j.
Proof.
  unfold scan_number_or_constant.
  destruct (scan_number cs) as [[j' r']|] eqn:Hn; [intros [= <- _]; by eapply scan_number_ok|].
  repeat (destruct (starts_with _ _); [intros [= <- _]; by split|]). done.
Qed.

(** Every value the scanner returns is normal and has no repeated key. *)
Lemma scan_ok f :
  (forall cs j r, scan_value f cs = Some (j, r) -> norm_ok j) /\
  (forall cs j r, scan_array f cs = Some (j, r) -> norm_ok j) /\
  (forall cs vs r, scan_elements f cs = Some (vs, r) -> Forall norm_ok vs) /\
  (forall cs j r, scan_object f cs = Some (j, r) -> norm_ok j) /\
  (forall cs ps r, scan_members f cs = Some (ps, r) -> Forall (fun kv => norm_ok kv.2) ps).
Proof.
  induction f as [|f (IHv & IHa & IHe & IHo & IHm)]; [done|]. split_and!.
  - intros [|c cs] j r; cbn [scan_value]; [done|].
    case_bool_decide; [by destruct (scan_string cs) as [[x r']|]; intros; simplify_eq|].
    case_bool_decide; [apply IHo|]. case_bool_decide; [apply IHa|].
    destruct (starts_with (String.list_ascii_of_string "null") (c :: cs)); [by intros; simplify_eq|].
    destruct (starts_with (String.list_ascii_of_string "true") (c :: cs)); [by intros; simplify_eq|].
    destruct (starts_with (String.list_ascii_of_string "false") (c :: cs)); [by intros; simplify_eq|].
    apply scan_number_or_constant_ok.
  - intros [|c cs] j r; cbn [scan_array]; [done|].
    case_bool_decide; [by intros; simplify_eq|].
    destruct (scan_elements f (c :: cs)) as [[xs r']|] eqn:He; [|done]. intros [= <- _].
    apply norm_ok_arr. by eapply IHe.
  - intros cs vs r. cbn [scan_elements].
    destruct (scan_value f cs) as [[v r1]|] eqn:Hv; [|done].
    destruct (skip_ws r1) as [|c r2]; [done|].
    case_bool_decide.
    + destruct (scan_elements f (skip_ws r2)) as [[vs' r3]|] eqn:He; [|done]. intros [= <- _].
      constructor; [by eapply IHv|by eapply IHe].
    + case_bool_decide; [|done]. intros [= <- _]. constructor; [by eapply IHv|done].
  - intros [|c cs] j r; cbn [scan_object]; [done|].
    case_bool_decide; [by intros; simplify_eq; apply norm_ok_obj; split; constructor|].
    case_bool_decide; [|done].
    destruct (scan_members f cs) as [[ps r']|] eqn:Hm; [|done]. intros [= <- _].
    apply norm_ok_obj, dict_of_pairs_ok. by eapply IHm.
  - intros cs ps r. cbn [scan_members].
    destruct (scan_string cs) as [[k r0]|]; [|done].
    destruct (skip_ws r0) as [|c r1]; [done|]. case_bool_decide; [|done].
    destruct (scan_value f (skip_ws r1)) as [[v r2]|] eqn:Hv; [|done].
    destruct (skip_ws r2) as [|c' r3]; [done|]. case_bool_decide.
    + destruct (skip_ws r3) as [|c'' r4]; [done|]. case_bool_decide; [|done].
      destruct (scan_members f r4) as [[ps' r5]|] eqn:Hm; [|done]. intros [= <- _].
      constructor; [by eapply IHv|by eapply IHm].
    + case_bool_decide; [|done]. intros [= <- _]. constructor; [by eapply IHv|done].
Qed.

Lemma json_loads_normal s j : json_loads s = Some j -> wf_json j = true /\ json_norm j = j.
Proof.
  unfold json_loads, json_loads_with. destruct (scan_value _ _) as [[j' r]|] eqn:Hs; [|done].
  destruct (skip_ws r); [|done]. intros [= <-]. exact (proj1 (scan_ok _) _ _ _ Hs).
Qed.

(** ** The fuel of [json_loads] is never exhausted *)

Lemma skip_ws_length cs : (length (skip_ws cs) <= length cs)%nat.
Proof. induction cs as [|c cs IH]; cbn; [lia|]. destruct (is_ws c); cbn; lia. Qed.

Lemma span_digits_length cs ds r : span_digits cs = (ds, r) -> (length r <= length cs)%nat.
Proof.
  revert ds. induction cs as [|c cs IH]; intros ds; cbn [span_digits].
  - intros [= _ <-]. lia.
  - destruct (digit_value c).
    + destruct (span_digits cs) as [ds' r'] eqn:Hs. intros [= _ <-]. specialize (IH _ eq_refl). cbn. lia.
    + intros [= _ <-]. cbn. lia.
Qed.

Lemma scan_string_length cs : forall x r, scan_string cs = Some (x, r) -> (length r < length cs)%nat.
Proof.
  remember (length cs) as n eqn:Hn. revert cs Hn.
  induction n as [n IH] using lt_wf_ind. intros cs Hn x r. subst n.
  destruct cs as [|c r0]; [done|]. cbn [scan_string].
  case_bool_decide; [intros [= _ <-]; cbn; lia|].
  case_bool_decide.
  - destruct r0 as [|e r1]; [done|]. case_bool_decide.
    + destruct r1 as [|a [|b [|c' [|d r']]]]; try done.
      destruct (hex_value a), (hex_value b), (hex_value c'), (hex_value d); try done.
      case_match; [|done].
      destruct (scan_string r') as [[x' r'']|] eqn:Hs; [|done]. intros [= _ <-].
      apply (IH (length r') ltac:(cbn; lia) r' eq_refl) in Hs; cbn in *; lia.
    + destruct (unescape e); [|done].
      destruct (scan_string r1) as [[x' r'']|] eqn:Hs; [|done]. intros [= _ <-].
      apply (IH (length r1) ltac:(cbn; lia) r1 eq_refl) in Hs; cbn in *; lia.
  - case_match; [done|].
    destruct (scan_string r0) as [[x' r'']|] eqn:Hs; [|done]. intros [= _ <-].
    apply (IH (length r0) ltac:(cbn; lia) r0 eq_refl) in Hs; cbn in *; lia.
Qed.

Lemma scan_sign_length cs s r0 : scan_sign cs = (s, r0) -> (length r0 <= length cs)%nat.
Proof. unfold scan_sign. destruct cs; [by intros [= _ <-]|]. case_bool_decide; intros [= _ <-]; cbn; lia. Qed.

Lemma scan_int_part_length r0 ip r1 : scan_int_part r0 = Some (ip, r1) -> (length r1 < length r0)%nat.
Proof.
  unfold scan_int_part. destruct r0 as [|c r0']; [done|].
  case_bool_decide; [intros [= _ <-]; cbn; lia|].
  destruct (is_digit c) eqn:Hd; [|done]. intros [= Hsp].
  cbn [span_digits] in Hsp. unfold is_digit in Hd. case_bool_decide as Hv; [|done].
  destruct Hv as [v Hv]. rewrite Hv in Hsp.
  destruct (span_digits r0') as [ds r2] eqn:Hsp'. injection Hsp as _ <-.
  apply span_digits_length in Hsp'. cbn. lia.
Qed.

Lemma scan_frac_length r1 fp r2 : scan_frac r1 = (fp, r2) -> (length r2 <= length r1)%nat.
Proof.
  unfold scan_frac. destruct r1 as [|c r1']; [by intros [= _ <-]|].
  destruct (span_digits r1') as [fd r'] eqn:Hsp. apply span_digits_length in Hsp.
  destruct c as [[] [] [] [] [] [] [] []]; try (intros [= _ <-]; lia).
  destruct fd; intros [= _ <-]; cbn; lia.
Qed.

Lemma read_sign_length r es r4 : read_sign r = (es, r4) -> (length r4 <= length r)%nat.
Proof.
  unfold read_sign. destruct r as [|c r]; [by intros [= _ <-]|].
  destruct c as [[] [] [] [] [] [] [] []]; intros [= _ <-]; cbn; lia.
Qed.

Lemma scan_exp_length r2 ex r3 : scan_exp r2 = (ex, r3) -> (length r3 <= length r2)%nat.
Proof.
  unfold scan_exp. destruct r2 as [|c r2']; [by intros [= _ <-]|].
  case_bool_decide; [|intros [= _ <-]; lia].
  destruct (read_sign r2') as [es r4] eqn:Hrs. apply read_sign_length in Hrs.
  destruct (span_digits r4) as [eds r5] eqn:Hsp. apply span_digits_length in Hsp.
  destruct eds; intros [= _ <-]; cbn; lia.
Qed.

Lemma scan_number_length cs j r : scan_number cs = Some (j, r) -> (length r < length cs)%nat.
Proof.
  unfold scan_number.
  destruct (scan_sign cs) as [sgn r0] eqn:Hs. apply scan_sign_length in Hs.
  destruct (scan_int_part r0) as [[ip r1]|] eqn:Hi; [|done]. apply scan_int_part_length in Hi.
  destruct (scan_frac r1) as [fp r2] eqn:Hf. apply scan_frac_length in Hf.
  destruct (scan_exp r2) as [ex r3] eqn:He. apply scan_exp_length in He.
  destruct fp, ex; intros [= _ <-]; lia.
Qed.

Lemma starts_with_length lit cs : starts_with lit cs = true -> (length lit <= length cs)%nat.
Proof.
  revert cs. induction lit as [|l lit IH]; intros [|c cs]; cbn; try done; [lia|].
  rewrite andb_true_iff. intros [_ H]. apply IH in H. lia.
Qed.

(** Every scanner that succeeds consumes input. *)
(** A branch of the scanner that returns a literal and the text after it. *)
Ltac literal_consumed :=
  match goal with
  | |- (if starts_with ?lit ?cs then _ else _) = Some _ -> _ =>
      let Hk := fresh "Hk" in
      destruct (starts_with lit cs) eqn:Hk;
      [intros [= _ <-]; apply starts_with_length in Hk; cbn in *; rewrite length_drop; lia|]
  end.

Lemma scan_number_or_constant_length cs j r :
  scan_number_or_constant cs = Some (j, r) -> (length r < length cs)%nat.
Proof.
  unfold scan_number_or_constant.
  destruct (scan_number cs) as [[j' r']|] eqn:Hnum; [intros [= _ <-]; by eapply scan_number_length|].
  do 3 literal_consumed. done.
Qed.

Lemma scan_consumes f :
  (forall cs j r, scan_value f cs = Some (j, r) -> (length r < length cs)%nat) /\
  (forall cs j r, scan_array f cs = Some (j, r) -> (length r < length cs)%nat) /\
  (forall cs vs r, scan_elements f cs = Some (vs, r) -> (length r < length cs)%nat) /\
  (forall cs j r, scan_object f cs = Some (j, r) -> (length r < length cs)%nat) /\
  (forall cs ps r, scan_members f cs = Some (ps, r) -> (length r < length cs)%nat).
Proof.
  induction f as [|f (IHv & IHa & IHe & IHo & IHm)]; [done|]. split_and!.
  - intros [|c cs] j r; cbn [scan_value]; [done|].
    pose proof (skip_ws_length cs).
    case_bool_decide.
    { destruct (scan_string cs) as [[x r']|] eqn:Hs; [|done]. intros [= _ <-].
      apply scan_string_length in Hs. cbn. lia. }
    case_bool_decide; [intros Ho%IHo; cbn; lia|].
    case_bool_decide; [intros Ha%IHa; cbn; lia|].
    do 3 literal_consumed. apply scan_number_or_constant_length.
  - intros [|c cs] j r; cbn [scan_array]; [done|].
    case_bool_decide; [intros [= _ <-]; cbn; lia|].
    destruct (scan_elements f (c :: cs)) as [[xs r']|] eqn:He; [|done]. intros [= _ <-]. by apply IHe in He.
  - intros cs vs r. cbn [scan_elements].
    destruct (scan_value f cs) as [[v r1]|] eqn:Hv; [|done]. apply IHv in Hv.
    pose proof (skip_ws_length r1).
    destruct (skip_ws r1) as [|c r2]; [done|]. cbn in *. pose proof (skip_ws_length r2).
    case_bool_decide.
    + destruct (scan_elements f (skip_ws r2)) as [[vs' r3]|] eqn:He; [|done]. intros [= _ <-].
      apply IHe in He. lia.
    + case_bool_decide; [|done]. intros [= _ <-]. lia.
  - intros [|c cs] j r; cbn [scan_object]; [done|].
    case_bool_decide; [intros [= _ <-]; cbn; lia|]. case_bool_decide; [|done].
    destruct (scan_members f cs) as [[ps r']|] eqn:Hm; [|done]. intros [= _ <-].
    apply IHm in Hm. cbn. lia.
  - intros cs ps r. cbn [scan_members].
    destruct (scan_string cs) as [[k r0]|] eqn:Hs; [|done]. apply scan_string_length in Hs.
    pose proof (skip_ws_length r0).
    destruct (skip_ws r0) as [|c r1]; [done|]. cbn in *. case_bool_decide; [|done].
    pose proof (skip_ws_length r1).
    destruct (scan_value f (skip_ws r1)) as [[v r2]|] eqn:Hv; [|done]. apply IHv in Hv.
    pose proof (skip_ws_length r2).
    destruct (skip_ws r2) as [|c' r3]; [done|]. cbn in *. case_bool_decide.
    + pose proof (skip_ws_length r3).
      destruct (skip_ws r3) as [|c'' r4]; [done|]. cbn in *. case_bool_decide; [|done].
      destruct (scan_members f r4) as [[ps' r5]|] eqn:Hm; [|done]. intros [= _ <-].
      apply IHm in Hm. lia.
    + case_bool_decide; [|done]. intros [= _ <-]. lia.
Qed.

(** With fuel [3 * length + 1] or more the scanners give the same result:
    the fuel [json_loads] gives is never exhausted. *)
Lemma scan_fuel_stable f :
  (forall cs, (3 * length cs + 1 <= f)%nat -> forall f', (f <= f')%nat -> scan_value f' cs = scan_value f cs) /\
  (forall cs, (3 * length cs + 3 <= f)%nat -> forall f', (f <= f')%nat -> scan_array f' cs = scan_array f cs) /\
  (forall cs, (3 * length cs + 2 <= f)%nat -> forall f', (f <= f')%nat -> scan_elements f' cs = scan_elements f cs) /\
  (forall cs, (3 * length cs + 3 <= f)%nat -> forall f', (f <= f')%nat -> scan_object f' cs = scan_object f cs) /\
  (forall cs, (3 * length cs + 2 <= f)%nat -> forall f', (f <= f')%nat -> scan_members f' cs = scan_members f cs).
Proof.
  induction f as [|f (IHv & IHa & IHe & IHo & IHm)]; [split_and!; intros; lia|].
  destruct (scan_consumes f) as (Cv & _ & _ & _ & _).
  split_and!; intros cs Hf [|f'] Hf'; try lia.
  - destruct cs as [|c r]; [done|]. cbn [scan_value]. pose proof (skip_ws_length r). cbn in Hf.
    case_bool_decide; [done|].
    case_bool_decide; [apply IHo; lia|]. case_bool_decide; [apply IHa; lia|]. done.
  - destruct cs as [|c r]; [done|]. cbn [scan_array]. case_bool_decide; [done|].
    rewrite (IHe (c :: r)); [done|lia|lia].
  - cbn [scan_elements]. rewrite (IHv cs) by lia.
    destruct (scan_value f cs) as [[v r]|] eqn:Hv; [|done]. apply Cv in Hv.
    pose proof (skip_ws_length r).
    destruct (skip_ws r) as [|c r']; [done|]. cbn in *. pose proof (skip_ws_length r').
    case_bool_decide; [|done]. rewrite (IHe (skip_ws r')); [done|lia|lia].
  - destruct cs as [|c r]; [done|]. cbn [scan_object]. cbn in Hf.
    case_bool_decide; [done|]. case_bool_decide; [|done].
    rewrite (IHm r); [done|lia|lia].
  - cbn [scan_members].
    destruct (scan_string cs) as [[k r]|] eqn:Hs; [|done]. apply scan_string_length in Hs.
    pose proof (skip_ws_length r).
    destruct (skip_ws r) as [|c r1]; [done|]. cbn in *. case_bool_decide; [|done].
    pose proof (skip_ws_length r1).
    rewrite (IHv (skip_ws r1)) by lia.
    destruct (scan_value f (skip_ws r1)) as [[v r2]|] eqn:Hv; [|done]. apply Cv in Hv.
    pose proof (skip_ws_length r2).
    destruct (skip_ws r2) as [|c' r3]; [done|]. cbn in *. case_bool_decide; [|done].
    pose proof (skip_ws_length r3).
    destruct (skip_ws r3) as [|c'' r4]; [done|]. cbn in *. case_bool_decide; [|done].
    rewrite (IHm r4); [done|lia|lia].
Qed.

(** Fuel adequacy of the model.  The recursive-descent reader needs at
    most [3 * length + 1] steps of fuel: with that much or more it gives
    the same answer, so the fuel bound never cuts a parse short.  (CPython's
    reader recurses on the C stack and raises [RecursionError] on a deep
    enough nesting; that limit is not modelled.) *)
Lemma json_loads_fuel s f :
  (3 * length (String.list_ascii_of_string s) + 1 <= f)%nat -> json_loads_with f s = json_loads s.
Proof.
  intros Hf. unfold json_loads, json_loads_with.
  pose proof (skip_ws_length (String.list_ascii_of_string s)).
  rewrite (proj1 (scan_fuel_stable (3 * length (String.list_ascii_of_string s) + 1))
             (skip_ws (String.list_ascii_of_string s)) ltac:(lia) f Hf). done.
Qed.

(** C14 (round trip).  The archive round trip: the text [json.dump] writes
    reads back with [json.loads] as the payload with its floats normalised,
    and the normalised payload prints to the same text. *)
Theorem json_loads_dump j :
  wf_json j = true ->
  json_loads (json_dump j) = Some (json_norm j) /\ json_dump (json_norm j) = json_dump j.
Proof.
  intros Hwf. split; [by apply json_loads_dump_wf|].
  unfold json_dump. by rewrite dump_at_norm.
Qed.

Lemma json_loads_dump_witness :
  wf_json archive_sample = true /\
  (json_loads (json_dump archive_sample) = Some (json_norm archive_sample) /\
   json_dump (json_norm archive_sample) = json_dump archive_sample).
Proof.
  assert (H : wf_json archive_sample = true) by (vm_compute; reflexivity).
  split; [exact H|exact (json_loads_dump archive_sample H)].
Defined.

Lemma json_loads_fuel_witness :
  json_loads_with 1000 (json_dump archive_sample) = json_loads (json_dump archive_sample).
Proof.
  assert (H : (3 * length (String.list_ascii_of_string (json_dump archive_sample)) + 1 <= 1000)%nat)
    by (vm_compute; lia).
  exact (json_loads_fuel _ 1000 H).
Defined.

(** [json.loads] reads the constants as floats and refuses other
    spellings. *)
Example json_loads_constants :
  json_loads "[NaN, -Infinity, Infinity]" = Some (JArr [JNaN; JInf true; JInf false]) /\
  json_loads "nan" = None /\ json_loads "-Inf" = None.
Proof. vm_compute. repeat split. Qed.
