(* ===== verification/Schema.v ===== *)
(** * The schema descriptor of src/schema.py

    [WEATHER_HOURLY_SCHEMA] is a Python dict with five keys; here it is a
    record with one field per key.  [main] (src/etl.py) reads
    [required_columns] and [table_name]; [quality_checks] does not read the
    schema at all but hard-codes the humidity range (see [Quality]). *)

From Stdlib Require Import ZArith.
From stdpp Require Import base list strings.
From S2P Require Import Prelude.

Record schema := Schema {
  table_name : string;
  primary_key : string;
  required_columns : list string;
  numeric_columns : list string;
  valid_ranges : list (string * (Z * Z)) }.

Definition WEATHER_HOURLY_SCHEMA : schema := {|
  table_name := "weather_hourly";
  primary_key := "time";
  required_columns := ["time"; "temperature_2m"; "relative_humidity_2m"];
  numeric_columns := ["temperature_2m"; "relative_humidity_2m"];
  valid_ranges := [("relative_humidity_2m", (0, 100)%Z)] |}%string.
