(* ===== verification/Frame.v ===== *)
(** * DataFrames of the transformed data

    The frame built by [transform_weather_hourly] (src/functions.py, lines
    81-90) has the columns [time], [temperature_2m] and
    [relative_humidity_2m]; after the casts a [row] holds a timestamp or NaT
    and two numbers (finite or infinite) or NaN ([None]).  A [frame] keeps its column list, which
    [main] inspects (src/etl.py, lines 42-46), the dtypes of its numeric
    columns, which [to_csv] prints by, and its rows in index order;
    [frame_wf] says that the cells are values of those dtypes.

    [dataframe_length] and [column_cells] model the constructor
    [pd.DataFrame({name: value, ...})] on the values read from the payload:
    a list is a column; a scalar ([None], a bool, a number, a string) is
    broadcast to the length of the lists; lists of different lengths raise
    [ValueError("All arrays must be of the same length")]; scalars only
    raise [ValueError("If using all scalar values, you must pass an
    index")].  A dict value is modelled as the [ValueError] pandas raises
    when it is mixed with lists. *)

From Stdlib Require Import ZArith.
From stdpp Require Import base list sets strings.
From S2P Require Import Prelude Json Numeric Timestamp.

Record row := Row {
  time : option timestamp;
  temperature_2m : option num;
  relative_humidity_2m : option num }.

#[export] Instance row_eq_dec : EqDecision row.
Proof. solve_decision. Defined.

(** [dtypes] are the dtypes of [temperature_2m] and [relative_humidity_2m];
    [time] is always [datetime64[ns]]. *)
Record frame := Frame {
  columns : list string;
  dtypes : num_dtype * num_dtype;
  rows : list row }.

(** A cell of the [time] column: NaT, or a valid date in the
    [datetime64[ns]] range. *)
Definition time_fits (o : option timestamp) : bool :=
  match o with
  | Some t => valid_ts t && in_ns_range t
  | None => true
  end.

Definition row_fits (dts : num_dtype * num_dtype) (r : row) : bool :=
  time_fits (time r) && cell_fits dts.1 (temperature_2m r) &&
  cell_fits dts.2 (relative_humidity_2m r).

(** Every row's cells are values of the columns' dtypes. *)
Definition frame_wf (df : frame) : bool := forallb (row_fits (dtypes df)) (rows df).

(** The length of the frame built from these column values. *)
Definition dataframe_length (vals : list json) : result py_error nat :=
  if existsb (fun v => match v with JObj _ => true | _ => false end) vals
  then Err (ValueError "Mixing dicts with non-Series may lead to ambiguous ordering.")
  else
    let lens := omap (fun v => match v with JArr l => Some (length l) | _ => None end) vals in
    match lens with
    | [] => Err (ValueError "If using all scalar values, you must pass an index")
    | n :: ns =>
        if forallb (fun m => bool_decide (m = n)) ns then Ok n
        else Err (ValueError "All arrays must be of the same length")
    end.

(** The cells of one column of a frame of [n] rows. *)
Definition column_cells (n : nat) (v : json) : list json :=
  match v with
  | JArr l => l
  | _ => replicate n v
  end.

Fixpoint zip3 {A B C} (xs : list A) (ys : list B) (zs : list C) : list (A * B * C) :=
  match xs, ys, zs with
  | x :: xs', y :: ys', z :: zs' => (x, y, z) :: zip3 xs' ys' zs'
  | _, _, _ => []
  end.

(** ** Lemmas *)

Lemma length_zip3 {A B C} (xs : list A) (ys : list B) (zs : list C) :
  length xs = length ys -> length ys = length zs -> length (zip3 xs ys zs) = length xs.
Proof.
  revert ys zs. induction xs as [|x xs IH]; intros [|y ys] [|z zs]; simpl; try lia.
  intros. f_equal. apply IH; lia.
Qed.

Lemma length_column_cells n v :
  (forall l, v = JArr l -> length l = n) -> length (column_cells n v) = n.
Proof. destruct v; simpl; intros H; rewrite ?length_replicate; auto. Qed.

(** The length the constructor accepts is the length of every list. *)
Lemma dataframe_length_arrays vals n :
  dataframe_length vals = Ok n -> forall l, JArr l ∈ vals -> length l = n.
Proof.
  unfold dataframe_length. destruct (existsb _ vals); [done|].
  destruct (omap _ vals) as [|m ms] eqn:Hl; [done|].
  destruct (forallb _ ms) eqn:Hall; [|done]. intros [= <-] l Hin.
  assert (Hm : length l ∈ m :: ms).
  { rewrite <- Hl. apply list_elem_of_omap. by exists (JArr l). }
  apply elem_of_cons in Hm as [->|Hm]; [done|].
  rewrite forallb_forall in Hall.
  apply list_elem_of_In, Hall in Hm. by apply bool_decide_eq_true in Hm.
Qed.

Lemma elem_of_zip3 {A B C} (xs : list A) (ys : list B) (zs : list C) x y z :
  (x, y, z) ∈ zip3 xs ys zs -> x ∈ xs /\ y ∈ ys /\ z ∈ zs.
Proof.
  revert ys zs. induction xs as [|x' xs IH]; intros [|y' ys] [|z' zs]; cbn; try set_solver.
Qed.

(** The times [to_datetime] produces are valid and in range. *)
Lemma parse_with_fits f s t : parse_with f s = Some t -> time_fits (Some t) = true.
Proof.
  unfold parse_with. destruct (match_items _ _) as [fs|]; [|done]. cbn.
  destruct (ts_of_fields fs) as [t'|]; [|done]. cbn.
  destruct (valid_ts t' && in_ns_range t') eqn:E; [by intros [= <-]|done].
Qed.

Lemma first_parse_fits fs s f t : first_parse fs s = Some (f, t) -> time_fits (Some t) = true.
Proof.
  induction fs as [|f' fs IH]; cbn; [done|].
  destruct (parse_with f' s) eqn:E; [intros [= _ <-]; by eapply parse_with_fits|exact IH].
Qed.

Lemma to_datetime_fits col o : o ∈ to_datetime col -> time_fits o = true.
Proof.
  unfold to_datetime. change (map ?g col) with (g <$> col).
  intros (v & -> & _)%list_elem_of_fmap.
  generalize (match first_non_null col with Some (JStr s) => guess_format s | _ => None end).
  intros fmt. destruct v as [| | | | | |s| |]; unfold to_datetime_elem; try done.
  destruct fmt as [f|]; [destruct (parse_with f s) eqn:E; [by eapply parse_with_fits|done]|].
  destruct (first_parse iso_formats s) as [[f t]|] eqn:E; [by eapply first_parse_fits|done].
Qed.

