(* ===== verification/World.v ===== *)
(** * The world the ETL stages act on, and its primitive effects

    Every stage of src/functions.py is a computation [etl A] on a [world]:
    - [w_log]: the lines written through the [etl] logger, in order (the
      logger's handlers only copy them to the console and to a file);
    - [w_sleeps]: the durations passed to [time.sleep], in order, and
      [w_clock], the UTC clock in seconds, which sleeping advances;
    - [w_net] and [w_requests]: the network, as the answer to the [n]-th
      [requests.get] of the run ([NetFailure]: the call raised; [Response]:
      a status and the text of the body);
    - [w_dirs], [w_files]: the directories and files under the working
      directory, by relative path;
    - [w_dbs]: the SQLite database files, each a map from table names to
      tables.
    The effects are those the code calls: [log_info]/[log_warning]
    ([logger.info]/[logger.warning]), [sleep] ([time.sleep]), [http_get]
    ([requests.get]), [raise_for_status], [response_json] ([r.json()], that
    is [json.loads] of the body, JsonText.v), [makedirs]
    ([os.makedirs(path, exist_ok=True)]) and [write_file] ([open(path, "w")]
    and a write), and [open_append] ([open(path, "a")], the log file's
    handler).  A file holds the text written to it ([FText]): the
    [json.dump] text of the archive (JsonText.v) or the [to_csv] text of
    the rejected rows (Csv.v). *)

From Stdlib Require Import ZArith Ascii.
From stdpp Require Import base list gmap sets strings.
From S2P Require Import Prelude Json Numeric Timestamp JsonText Frame.

(** ** Log messages, one constructor per logging call of the code *)
Inductive message : Type :=
| MsgGet (url : string) (attempt : Z) (params : list (string * json))
| MsgFailed (attempt : Z) (e : py_error)
| MsgArchived (path : string)
| MsgTransform (nrows : nat) (cols : list string)
| MsgQuality (accepted rejected dedup_removed : nat)
| MsgRejectedSaved (path : string)
| MsgLoad (nrows : nat) (table db : string)
| MsgCompleted.

Inductive log_line : Type :=
| Info (m : message)
| Warning (m : message).

Inductive http_outcome : Type :=
| NetFailure (e : py_error)
| Response (status : Z) (body : string).

Inductive file_content : Type :=
| FText (text : string).

Record table := Table {
  table_columns : list string;
  table_rows : list row }.

Record world := World {
  w_log : list log_line;
  w_sleeps : list Z;
  w_clock : Z;
  w_net : nat -> http_outcome;
  w_requests : nat;
  w_dirs : gset string;
  w_files : gmap string file_content;
  w_dbs : gmap string (gmap string table) }.

(** Computations of the ETL job. *)
Abbreviation etl A := (st world py_error A).

(** ** Paths, as [os.path] computes them *)

Definition slash : ascii := "/"%char.

Definition is_slash (c : ascii) : bool := bool_decide (c = slash).

Fixpoint drop_non_slash (cs : list ascii) : list ascii :=
  match cs with
  | c :: cs' => if is_slash c then cs else drop_non_slash cs'
  | [] => []
  end.

Fixpoint drop_slash (cs : list ascii) : list ascii :=
  match cs with
  | c :: cs' => if is_slash c then drop_slash cs' else cs
  | [] => []
  end.

(** [os.path.dirname]: the part up to the last slash, without its trailing
    slashes unless it is made of slashes only. *)
Definition dirname (p : string) : string :=
  let head := reverse (drop_non_slash (reverse (String.list_ascii_of_string p))) in
  String.string_of_list_ascii
    (if forallb is_slash head then head else reverse (drop_slash (reverse head))).

(** [os.path.join(a, b)]. *)
Definition path_join (a b : string) : string :=
  match String.list_ascii_of_string b, reverse (String.list_ascii_of_string a) with
  | c :: _, _ => if is_slash c then b else
                 match reverse (String.list_ascii_of_string a) with
                 | [] => b
                 | c' :: _ => if is_slash c' then (a +:+ b)%string else (a +:+ "/" +:+ b)%string
                 end
  | [], [] => b
  | [], c' :: _ => if is_slash c' then a else (a +:+ "/")%string
  end.

(** The non-empty prefixes of a path that end just before one of its
    slashes: the directories [os.makedirs] creates before the last one. *)
Fixpoint slash_prefixes (acc : list ascii) (cs : list ascii) : list string :=
  match cs with
  | [] => []
  | c :: cs' =>
      let rest := slash_prefixes (c :: acc) cs' in
      if is_slash c && negb (bool_decide (acc = [])) then
        String.string_of_list_ascii (reverse acc) :: rest
      else rest
  end.

Definition path_ancestors (p : string) : list string :=
  slash_prefixes [] (String.list_ascii_of_string p).

(** ** Updates of the world *)

Definition add_log (l : log_line) (w : world) : world :=
  World (w_log w ++ [l]) (w_sleeps w) (w_clock w) (w_net w) (w_requests w)
        (w_dirs w) (w_files w) (w_dbs w).

Definition add_sleep (secs : Z) (w : world) : world :=
  World (w_log w) (w_sleeps w ++ [secs]) (w_clock w + secs) (w_net w) (w_requests w)
        (w_dirs w) (w_files w) (w_dbs w).

Definition next_request (w : world) : world :=
  World (w_log w) (w_sleeps w) (w_clock w) (w_net w) (S (w_requests w))
        (w_dirs w) (w_files w) (w_dbs w).

Definition set_dirs (ds : gset string) (w : world) : world :=
  World (w_log w) (w_sleeps w) (w_clock w) (w_net w) (w_requests w)
        ds (w_files w) (w_dbs w).

Definition set_files (fs : gmap string file_content) (w : world) : world :=
  World (w_log w) (w_sleeps w) (w_clock w) (w_net w) (w_requests w)
        (w_dirs w) fs (w_dbs w).

Definition set_dbs (dbs : gmap string (gmap string table)) (w : world) : world :=
  World (w_log w) (w_sleeps w) (w_clock w) (w_net w) (w_requests w)
        (w_dirs w) (w_files w) dbs.

(** ** Primitive effects *)

Definition log_info (m : message) : etl unit := smodify (add_log (Info m)).
Definition log_warning (m : message) : etl unit := smodify (add_log (Warning m)).

(** [time.sleep(secs)]. *)
Definition sleep (secs : Z) : etl unit :=
  if (secs <? 0)%Z then raise (ValueError "sleep length must be non-negative")
  else smodify (add_sleep secs).

(** [requests.get(url, params=params, timeout=timeout)]: the next answer of
    the network, or the exception the call raised. *)
Definition http_get (url : string) (params : list (string * json)) (timeout : Z)
  : etl (Z * string) :=
  fun w =>
    let w' := next_request w in
    match w_net w (w_requests w) with
    | NetFailure e => (Err e, w')
    | Response status body => (Ok (status, body), w')
    end.

(** [r.raise_for_status()]: client and server errors only. *)
Definition raise_for_status (status : Z) : etl unit :=
  if (400 <=? status)%Z && (status <? 600)%Z then raise (HTTPError status) else sret tt.

(** [r.json()]. *)
Definition response_json (body : string) : etl json :=
  match json_loads body with
  | Some j => sret j
  | None => raise JSONDecodeError
  end.

(** [os.makedirs(p, exist_ok=True)]. *)
Definition makedirs (p : string) : etl unit :=
  fun w =>
    if bool_decide (p = ""%string) then (Err (FileNotFoundError p), w)
    else if bool_decide (p ∈ dom (w_files w)) then (Err (FileExistsError p), w)
    else if existsb (fun a => bool_decide (a ∈ dom (w_files w))) (path_ancestors p)
    then (Err (NotADirectoryError p), w)
    else (Ok tt, set_dirs (list_to_set (path_ancestors p ++ [p]) ∪ w_dirs w) w).

(** [with open(p, "w") as f: f.write(...)]. *)
Definition write_file (p : string) (c : file_content) : etl unit :=
  fun w =>
    let d := dirname p in
    if bool_decide (p ∈ w_dirs w) then (Err (IsADirectoryError p), w)
    else if bool_decide (d ∈ dom (w_files w)) then (Err (NotADirectoryError p), w)
    else if negb (bool_decide (d = ""%string)) && negb (bool_decide (d ∈ w_dirs w))
    then (Err (FileNotFoundError p), w)
    else (Ok tt, set_files (<[p := c]> (w_files w)) w).

(** [open(p, "a")], as [logging.FileHandler(p)] opens its file: the same
    failures as [write_file]; an existing file is kept as it is and a
    missing one is created empty. *)
Definition open_append (p : string) : etl unit :=
  fun w =>
    let d := dirname p in
    if bool_decide (p ∈ w_dirs w) then (Err (IsADirectoryError p), w)
    else if bool_decide (d ∈ dom (w_files w)) then (Err (NotADirectoryError p), w)
    else if negb (bool_decide (d = ""%string)) && negb (bool_decide (d ∈ w_dirs w))
    then (Err (FileNotFoundError p), w)
    else match w_files w !! p with
         | Some _ => (Ok tt, w)
         | None => (Ok tt, set_files (<[p := FText ""]> (w_files w)) w)
         end.

(** A world at the start of a run: nothing logged or slept, no request made,
    an empty working directory. *)
Definition start_world (net : nat -> http_outcome) (clock : Z) : world :=
  World [] [] clock net 0 ∅ ∅ ∅.
