(* ===== verification/Quality.v ===== *)
(** * The quality gate: [quality_checks] (src/functions.py, lines 98-115)

    [row_ok] is the mask of line 106, [time] not NaT and humidity in
    [[0, 100]] (the rule is written in the code, not read from the schema).
    Line 108 keeps the rows that fail it, line 109 those that pass, and
    line 112 removes from the latter every row whose [time] was already met
    ([drop_duplicates(subset=["time"], keep="first")]): pandas hashes the
    keys in row order and keeps a row when its key is new, which is
    [dedup_seen] with the list of keys met so far.  [first_occurrences] is
    the reference definition: row [i] stays iff no row before [i] has its
    key.  [quality_checks] logs the three counts and returns both frames. *)

From Stdlib Require Import ZArith Permutation.
From stdpp Require Import base list sets strings.
From S2P Require Import Prelude Json Numeric Timestamp Schema Frame World.

(** ** Dropping duplicate keys, keeping the first *)

Section DropDuplicates.
  Context {A K : Type} `{EqDecision K} (key : A -> K).

Fixpoint dedup_seen (seen : list K) (l : list A) : list A :=
    match l with
    | [] => []
    | x :: l' =>
        if bool_decide (key x ∈ seen) then dedup_seen seen l'
        else x :: dedup_seen (key x :: seen) l'
    end.

Definition drop_duplicates (l : list A) : list A := dedup_seen [] l.

  (** Row [i] stays iff no earlier row has the same key. *)
Definition first_occurrences (l : list A) : list A :=
    omap (fun i => x ← l !! i;
                   if bool_decide (key x ∈ key <$> take i l) then None else Some x)
         (seq 0 (length l)).

Lemma dedup_seen_sublist seen l : sublist (dedup_seen seen l) l.
  Proof.
    revert seen. induction l as [|x l IH]; intros seen; simpl; [constructor|].
    case_bool_decide; [by apply sublist_cons|by apply sublist_skip].
  Qed.

  (** The kept keys are new and pairwise distinct. *)
Lemma dedup_seen_keys seen l :
    NoDup (key <$> dedup_seen seen l) /\
    forall y, y ∈ dedup_seen seen l -> key y ∉ seen.
  Proof.
    revert seen. induction l as [|x l IH]; intros seen; simpl.
    { split; [constructor|set_solver]. }
    case_bool_decide as Hx; [apply IH|].
    destruct (IH (key x :: seen)) as [Hnd Hnew]. split.
    - rewrite fmap_cons. constructor; [|done].
      intros (y & Hy & Hin)%list_elem_of_fmap. apply (Hnew y Hin). set_solver.
    - intros y [->|Hy]%elem_of_cons; [done|]. specialize (Hnew y Hy). set_solver.
  Qed.

  (** A list with distinct keys, none already seen, is kept whole. *)
Lemma dedup_seen_id seen l :
    NoDup (key <$> l) -> (forall x, x ∈ l -> key x ∉ seen) -> dedup_seen seen l = l.
  Proof.
    revert seen. induction l as [|x l IH]; intros seen Hnd Hnew; simpl; [done|].
    rewrite fmap_cons in Hnd. apply NoDup_cons in Hnd as [Hx Hnd].
    rewrite bool_decide_false by set_solver. f_equal. apply IH; [done|].
    intros y Hy. apply not_elem_of_cons. split; [|set_solver].
    intros Heq. apply Hx. rewrite <- Heq. by apply list_elem_of_fmap_2.
  Qed.

  (** Every key of the input is either already seen or kept. *)
Lemma dedup_seen_covers seen l x :
    x ∈ l -> key x ∈ seen \/ key x ∈ key <$> dedup_seen seen l.
  Proof.
    revert seen. induction l as [|y l IH]; intros seen Hx; [set_solver|].
    simpl. apply elem_of_cons in Hx as [->|Hx].
    - case_bool_decide; [by left|right; set_solver].
    - case_bool_decide; [by apply IH|].
      destruct (IH (key y :: seen) Hx) as [Hin|Hin]; [|right; set_solver].
      apply elem_of_cons in Hin as [->|Hin]; [right; set_solver|by left].
  Qed.

  (** Mapping a function that keeps the keys commutes with the loop. *)
Lemma dedup_seen_fmap (g : A -> A) seen l :
    (forall x, key (g x) = key x) -> dedup_seen seen (g <$> l) = g <$> dedup_seen seen l.
  Proof.
    intros Hg. revert seen. induction l as [|x l IH]; intros seen; [done|]. cbn.
    rewrite Hg. case_bool_decide; [apply IH|]. cbn. by rewrite IH.
  Qed.

Lemma omap_seq_S {B} (f : nat -> option B) s n :
    omap f (seq (S s) n) = omap (fun i => f (S i)) (seq s n).
  Proof.
    revert s. induction n as [|n IH]; intros s; [done|].
    simpl. rewrite IH. done.
  Qed.

Lemma omap_ext_pointwise {B C} (f g : B -> option C) (l : list B) :
    (forall x, f x = g x) -> omap f l = omap g l.
  Proof.
    intros Hfg. induction l as [|x l IH]; [done|]. simpl. rewrite Hfg.
    destruct (g x); [f_equal|]; exact IH.
  Qed.

  (** The seen-set loop against a prefix [p] whose keys it has recorded. *)
Lemma dedup_seen_first_occurrences p seen l :
    (forall k, k ∈ seen <-> k ∈ key <$> p) ->
    dedup_seen seen l =
    omap (fun i => x ← l !! i;
                   if bool_decide (key x ∈ key <$> (p ++ take i l)) then None else Some x)
         (seq 0 (length l)).
  Proof.
    revert p seen. induction l as [|x l IH]; intros p seen Hseen; [done|].
    cbn [length seq omap list_omap]. rewrite omap_seq_S. simpl.
    rewrite app_nil_r.
    assert (Htail : forall i, (y ← l !! i;
               if bool_decide (key y ∈ key <$> ((p ++ [x]) ++ take i l)) then None else Some y)
             = (y ← l !! i;
               if bool_decide (key y ∈ key <$> (p ++ x :: take i l)) then None else Some y)).
    { intros i. by rewrite <- app_assoc. }
    case_bool_decide as H1.
    - rewrite (IH (p ++ [x]) seen), (omap_ext_pointwise _ _ _ Htail)
        by (intros k; rewrite fmap_app; set_solver).
      case_bool_decide; [done|set_solver].
    - rewrite (IH (p ++ [x]) (key x :: seen)), (omap_ext_pointwise _ _ _ Htail)
        by (intros k; rewrite fmap_app; set_solver).
      case_bool_decide; [set_solver|done].
  Qed.

  (** The loop of pandas computes the reference definition. *)
Lemma drop_duplicates_first_occurrences l :
    drop_duplicates l = first_occurrences l.
  Proof.
    unfold drop_duplicates, first_occurrences.
    rewrite (dedup_seen_first_occurrences [] []) by set_solver. done.
  Qed.
End DropDuplicates.

Arguments dedup_seen {A K _} key seen l.
Arguments drop_duplicates {A K _} key l.
Arguments first_occurrences {A K _} key l.

(** ** The validation rule and [quality_checks] *)

Definition humidity_lo : decimal := Dec 0 0.
Definition humidity_hi : decimal := Dec 100 0.

(** [df["time"].notna() & df["relative_humidity_2m"].between(0, 100, inclusive="both")]
    on one row. *)
Definition row_ok (r : row) : bool :=
  bool_decide (is_Some (time r)) &&
  between_both humidity_lo humidity_hi (relative_humidity_2m r).

Definition quality_checks (df : frame) : etl (frame * frame) :=
  let rejected := List.filter (fun r => negb (row_ok r)) (rows df) in
  let clean := List.filter row_ok (rows df) in
  let before := length clean in
  let clean' := drop_duplicates time clean in
  log_info (MsgQuality (length clean') (length rejected) (before - length clean')) ;;;
  sret (Frame (columns df) (dtypes df) clean', Frame (columns df) (dtypes df) rejected).

(** ** The rule the spec states, from the schema descriptor *)

(** The numeric cell of a row under a column name. *)
Definition numeric_cell (c : string) (r : row) : option (option num) :=
  if bool_decide (c = "temperature_2m"%string) then Some (temperature_2m r)
  else if bool_decide (c = "relative_humidity_2m"%string) then Some (relative_humidity_2m r)
  else None.

(** A row is valid for a schema when its primary key [time] is set and
    every ranged column lies in its inclusive range. *)
Definition schema_row_valid (s : schema) (r : row) : bool :=
  bool_decide (is_Some (time r)) &&
  forallb (fun '(c, (lo, hi)) =>
             match numeric_cell c r with
             | Some v => between_both (Dec lo 0) (Dec hi 0) v
             | None => false
             end) (valid_ranges s).

(** A frame that exercises the gate: an out-of-range humidity, a duplicate
    time at the upper bound, a NaN humidity, a NaT time and the lower bound. *)
Definition gate_sample : frame :=
  Frame ["time"; "temperature_2m"; "relative_humidity_2m"]%string (Float64, Float64)
    [Row (Some (TS 2024 1 1 0 0 0)) (Some (Fin (Dec 25 0))) (Some (Fin (Dec 150 0)));
     Row (Some (TS 2024 1 1 0 0 0)) (Some (Fin (Dec 25 0))) (Some (Fin (Dec 60 0)));
     Row (Some (TS 2024 1 1 0 0 0)) None (Some (Fin (Dec 1000 (-1))));
     Row (Some (TS 2024 1 1 1 0 0)) None None;
     Row None (Some (Fin (Dec 20 0))) (Some (Fin (Dec 50 0)));
     Row (Some (TS 2024 1 1 2 0 0)) (Some (Fin (Dec 21 0))) (Some (Fin (Dec 0 0)))].

(** What the gate makes of it: the first 00:00 row at 60 % and the 02:00 row
    at 0 % are kept, the 00:00 row at 100 % is a dropped duplicate, and the
    rows with 150 %, NaN humidity and NaT time are rejected. *)
Definition gate_clean : frame :=
  Frame (columns gate_sample) (dtypes gate_sample)
    [Row (Some (TS 2024 1 1 0 0 0)) (Some (Fin (Dec 25 0))) (Some (Fin (Dec 60 0)));
     Row (Some (TS 2024 1 1 2 0 0)) (Some (Fin (Dec 21 0))) (Some (Fin (Dec 0 0)))].

Definition gate_rejected : frame :=
  Frame (columns gate_sample) (dtypes gate_sample)
    [Row (Some (TS 2024 1 1 0 0 0)) (Some (Fin (Dec 25 0))) (Some (Fin (Dec 150 0)));
     Row (Some (TS 2024 1 1 1 0 0)) None None;
     Row None (Some (Fin (Dec 20 0))) (Some (Fin (Dec 50 0)))].

(** The third sample row: valid, and a duplicate of the kept 00:00 row. *)
Definition gate_dup_row : row := Row (Some (TS 2024 1 1 0 0 0)) None (Some (Fin (Dec 1000 (-1)))).

Definition gate_world : world := start_world (fun _ => NetFailure ReadTimeout) 0.

(** Every temperature of a row made [+inf], as [Infinity] in the payload
    or the string ["inf"] gives. *)
Definition infinite_temperature (r : row) : row :=
  Row (time r) (Some (Inf false)) (relative_humidity_2m r).

(** ** Lemmas *)

Lemma quality_checks_run df w :
  quality_checks df w =
  (Ok (Frame (columns df) (dtypes df) (drop_duplicates time (List.filter row_ok (rows df))),
       Frame (columns df) (dtypes df) (List.filter (fun r => negb (row_ok r)) (rows df))),
   add_log (Info (MsgQuality
     (length (drop_duplicates time (List.filter row_ok (rows df))))
     (length (List.filter (fun r => negb (row_ok r)) (rows df)))
     (length (List.filter row_ok (rows df)) -
      length (drop_duplicates time (List.filter row_ok (rows df)))))) w).
Proof. reflexivity. Qed.

(** The gate keeps the dtypes and selects rows: both frames it returns are
    well formed when its input is. *)
Lemma quality_checks_wf df w clean rej w' :
  quality_checks df w = (Ok (clean, rej), w') -> frame_wf df = true ->
  frame_wf clean = true /\ frame_wf rej = true /\ dtypes clean = dtypes df /\
  dtypes rej = dtypes df /\ columns clean = columns df /\ columns rej = columns df.
Proof.
  rewrite quality_checks_run. intros [= <- <- _]. unfold frame_wf. cbn.
  rewrite !forallb_Forall_true. intros Hall.
  split_and!; try done; eapply Forall_sublist_of; try exact Hall.
  - etrans; [apply dedup_seen_sublist|apply filter_sublist].
  - apply filter_sublist.
Qed.

(** ** Theorems *)

(** C1 (partition).  Every row of the input frame is accounted for: it is
    rejected (it fails the rule and is in the rejected frame), or it passes
    the rule and the accepted frame has a row with its time. *)
Theorem quality_checks_partition df w clean rej w' :
  quality_checks df w = (Ok (clean, rej), w') ->
  forall r, r ∈ rows df ->
  (row_ok r = false /\ r ∈ rows rej) \/
  (row_ok r = true /\ exists r', r' ∈ rows clean /\ time r' = time r).
Proof.
  rewrite quality_checks_run. intros [= <- <- _] r Hr. simpl.
  destruct (row_ok r) eqn:Hok; [right|left]; split; try done.
  - destruct (dedup_seen_covers time [] (List.filter row_ok (rows df)) r)
      as [Hin|(r' & Hr' & Hin)%list_elem_of_fmap]; [|set_solver|by exists r'].
    apply list_elem_of_In, filter_In. split; [by apply list_elem_of_In|done].
  - apply list_elem_of_In, filter_In. split; [by apply list_elem_of_In|by rewrite Hok].
Qed.

(** C2 (soundness).  The accepted rows pass the rule, the rejected rows fail
    it, and both frames keep the input rows unmodified, in input order. *)
Theorem quality_checks_sound df w clean rej w' :
  quality_checks df w = (Ok (clean, rej), w') ->
  Forall (fun r => row_ok r = true) (rows clean) /\
  Forall (fun r => row_ok r = false) (rows rej) /\
  sublist (rows clean) (rows df) /\ sublist (rows rej) (rows df) /\
  columns clean = columns df /\ columns rej = columns df.
Proof.
  rewrite quality_checks_run. intros [= <- <- _]. simpl.
  pose proof (dedup_seen_sublist time [] (List.filter row_ok (rows df))) as Hsub.
  split_and!; try done; eauto with etl.
  - eapply Forall_sublist_of; [exact Hsub|]. eauto with etl.
  - by etrans; [exact Hsub|apply filter_sublist].
Qed.

(** C3 (primary key).  No two accepted rows share a time. *)
Theorem quality_checks_unique_time df w clean rej w' :
  quality_checks df w = (Ok (clean, rej), w') -> NoDup (time <$> rows clean).
Proof.
  rewrite quality_checks_run. intros [= <- _ _]. apply dedup_seen_keys.
Qed.

(** C4 (equivalence with the reference).  The accepted rows are the valid
    rows [i] such that no valid row before [i] has the same time. *)
Theorem quality_checks_first_occurrence df w clean rej w' :
  quality_checks df w = (Ok (clean, rej), w') ->
  rows clean = first_occurrences time (List.filter row_ok (rows df)).
Proof.
  rewrite quality_checks_run. intros [= <- _ _]. apply drop_duplicates_first_occurrences.
Qed.

(** C5 (counts).  The gate logs one line whose accepted, rejected and
    dedup-removed counts are the sizes of the outputs and add up to the
    number of input rows. *)
Theorem quality_checks_counts df w clean rej w' :
  quality_checks df w = (Ok (clean, rej), w') ->
  exists removed,
    w' = add_log (Info (MsgQuality (length (rows clean)) (length (rows rej)) removed)) w /\
    length (rows clean) + removed + length (rows rej) = length (rows df).
Proof.
  rewrite quality_checks_run. intros [= <- <- <-]. eexists. split; [done|]. simpl.
  pose proof (sublist_length _ _ (dedup_seen_sublist time [] (List.filter row_ok (rows df)))).
  pose proof (filter_negb_length row_ok (rows df)). unfold drop_duplicates. lia.
Qed.

(** C8 (refinement of the schema rule).  The rule hard-coded in
    [quality_checks] is the rule the schema descriptor states: time set and
    every column of [valid_ranges] within its inclusive range. *)
Theorem row_ok_schema r : row_ok r = schema_row_valid WEATHER_HOURLY_SCHEMA r.
Proof.
  unfold row_ok, schema_row_valid, numeric_cell. simpl.
  rewrite andb_true_r. done.
Qed.

(** C9 (bounds).  A row with a time and a humidity written with [k]
    decimals is accepted exactly when its humidity lies in [[0, 100]]: both
    bounds are included, NaN is not. *)
Theorem row_ok_humidity_bounds t temp m k :
  (0 <= k)%Z ->
  row_ok (Row (Some t) temp (Some (Fin (Dec m (- k))))) = true <->
  (0 <= m <= 100 * 10 ^ k)%Z.
Proof.
  intros Hk. unfold row_ok. cbn [time relative_humidity_2m].
  rewrite bool_decide_true by done. apply between_0_100_spec. done.
Qed.

(** C6 (the temperature is never checked).  Giving the rows other
    temperatures, NaN and infinities included, and keeping their times and
    humidities, gives the same partition row for row and the same logged
    counts: an infinite or missing temperature passes the gate. *)
Theorem quality_checks_temperature_blind df (f : row -> row) w clean rej w' :
  (forall r, time (f r) = time r /\ relative_humidity_2m (f r) = relative_humidity_2m r) ->
  quality_checks df w = (Ok (clean, rej), w') ->
  quality_checks (Frame (columns df) (dtypes df) (f <$> rows df)) w =
  (Ok (Frame (columns clean) (dtypes clean) (f <$> rows clean),
       Frame (columns rej) (dtypes rej) (f <$> rows rej)), w').
Proof.
  intros Hf. rewrite !quality_checks_run. intros [= <- <- <-]. cbn [rows columns dtypes].
  assert (Hok : forall r, row_ok (f r) = row_ok r).
  { intros r. unfold row_ok. by destruct (Hf r) as [-> ->]. }
  rewrite !filter_fmap_invariant by (intros r; by rewrite Hok).
  unfold drop_duplicates. rewrite dedup_seen_fmap by (intros r; apply Hf). by rewrite !length_fmap.
Qed.

(** C7 (idempotence).  The gate run again on the frame it accepted accepts
    every row, rejects none and removes no duplicate: its output is already
    clean. *)
Theorem quality_checks_idempotent df w clean rej w' w2 :
  quality_checks df w = (Ok (clean, rej), w') ->
  quality_checks clean w2 =
  (Ok (clean, Frame (columns clean) (dtypes clean) []),
   add_log (Info (MsgQuality (length (rows clean)) 0 0)) w2).
Proof.
  rewrite !quality_checks_run. intros [= <- _ _]. simpl.
  set (l := drop_duplicates time (List.filter row_ok (rows df))).
  destruct (filter_all_true row_ok l) as [-> ->].
  { eapply Forall_sublist_of; [apply dedup_seen_sublist|auto with etl]. }
  assert (drop_duplicates time l = l) as ->.
  { apply dedup_seen_id; [apply dedup_seen_keys|set_solver]. }
  by rewrite Nat.sub_diag.
Qed.

Lemma row_ok_nan t temp : row_ok (Row t temp None) = false.
Proof. unfold row_ok. simpl. by rewrite andb_false_r. Qed.

(** ** Witnesses *)

Lemma gate_sample_run :
  quality_checks gate_sample gate_world =
  (Ok (gate_clean, gate_rejected), add_log (Info (MsgQuality 2 3 1)) gate_world).
Proof. vm_compute. reflexivity. Qed.

Lemma quality_checks_partition_witness :
  (row_ok gate_dup_row = false /\ gate_dup_row ∈ rows gate_rejected) \/
  (row_ok gate_dup_row = true /\
   exists r', r' ∈ rows gate_clean /\ time r' = time gate_dup_row).
Proof.
  apply (quality_checks_partition _ _ _ _ _ gate_sample_run).
  apply list_elem_of_In. cbn. tauto.
Defined.

Lemma quality_checks_sound_witness :
  Forall (fun r => row_ok r = true) (rows gate_clean) /\
  Forall (fun r => row_ok r = false) (rows gate_rejected) /\
  sublist (rows gate_clean) (rows gate_sample) /\ sublist (rows gate_rejected) (rows gate_sample) /\
  columns gate_clean = columns gate_sample /\ columns gate_rejected = columns gate_sample.
Proof. exact (quality_checks_sound _ _ _ _ _ gate_sample_run). Defined.

Lemma quality_checks_unique_time_witness : NoDup (time <$> rows gate_clean).
Proof. exact (quality_checks_unique_time _ _ _ _ _ gate_sample_run). Defined.

Lemma quality_checks_first_occurrence_witness :
  rows gate_clean = first_occurrences time (List.filter row_ok (rows gate_sample)).
Proof. exact (quality_checks_first_occurrence _ _ _ _ _ gate_sample_run). Defined.

Lemma quality_checks_counts_witness :
  exists removed,
    add_log (Info (MsgQuality 2 3 1)) gate_world =
      add_log (Info (MsgQuality (length (rows gate_clean)) (length (rows gate_rejected)) removed))
        gate_world /\
    length (rows gate_clean) + removed + length (rows gate_rejected) = length (rows gate_sample).
Proof. exact (quality_checks_counts _ _ _ _ _ gate_sample_run). Defined.

Lemma row_ok_humidity_bounds_witness :
  row_ok (Row (Some (TS 2024 1 1 0 0 0)) None (Some (Fin (Dec 1000 (- 1))))) = true <->
  (0 <= 1000 <= 100 * 10 ^ 1)%Z.
Proof. apply (row_ok_humidity_bounds _ _ 1000 1). lia. Defined.

Lemma quality_checks_idempotent_witness :
  quality_checks gate_clean gate_world =
  (Ok (gate_clean, Frame (columns gate_clean) (dtypes gate_clean) []),
   add_log (Info (MsgQuality 2 0 0)) gate_world).
Proof. exact (quality_checks_idempotent _ _ _ _ _ gate_world gate_sample_run). Defined.

Lemma quality_checks_temperature_blind_witness :
  quality_checks (Frame (columns gate_sample) (dtypes gate_sample)
                   (infinite_temperature <$> rows gate_sample)) gate_world =
  (Ok (Frame (columns gate_clean) (dtypes gate_clean) (infinite_temperature <$> rows gate_clean),
       Frame (columns gate_rejected) (dtypes gate_rejected)
         (infinite_temperature <$> rows gate_rejected)),
   add_log (Info (MsgQuality 2 3 1)) gate_world).
Proof.
  apply quality_checks_temperature_blind; [intros r; split; reflexivity|].
  exact gate_sample_run.
Defined.
