(* ===== verification/Extract.v ===== *)
(** * The extractor: [extract_weather_api] (src/functions.py, lines 52-72)

    The loop runs [for attempt in range(1, retries + 1)]; one attempt
    ([attempt_get], lines 64-67) logs the GET, calls [requests.get], then
    [raise_for_status()] and returns [r.json()].  Any exception of the
    attempt is caught (lines 68-72): a warning is logged, the exception is
    re-raised on the last attempt, and otherwise the loop sleeps [2 * attempt]
    seconds and goes on.  When the range is empty ([retries <= 0]) the loop
    body never runs and the function falls off its end: it returns [None],
    which is [JNull] here.

    [attempt_outcome] is what one request yields once [raise_for_status] and
    [r.json()] have run; the theorems are stated on the outcomes of the
    requests the network answers: exact runs for a given sequence of
    outcomes, and [extract_weather_api_budget], the requests and sleeps of
    a run whatever the outcomes. *)

From Stdlib Require Import ZArith.
From stdpp Require Import base list sets strings.
From S2P Require Import Prelude Json JsonText World.

Local Open Scope Z_scope.

(** [range(a, b)]. *)
Definition py_range (a b : Z) : list Z :=
  map (fun i => a + Z.of_nat i) (seq 0 (Z.to_nat (b - a))).

(** Lines 64-67: one attempt. *)
Definition attempt_get (base_url : string) (params : list (string * json))
    (timeout attempt : Z) : etl json :=
  log_info (MsgGet base_url attempt params) ;;;
  sbind (http_get base_url params timeout) (fun '(status, body) =>
  raise_for_status status ;;;
  response_json body).

(** Lines 62-72, from the given attempts on. *)
Fixpoint extract_loop (base_url : string) (params : list (string * json))
    (timeout retries : Z) (attempts : list Z) : etl json :=
  match attempts with
  | [] => sret JNull
  | attempt :: rest =>
      scatch (attempt_get base_url params timeout attempt) (fun e =>
        log_warning (MsgFailed attempt e) ;;;
        if attempt =? retries then raise e
        else sleep (2 * attempt) ;;; extract_loop base_url params timeout retries rest)
  end.

Definition extract_weather_api (base_url : string) (params : list (string * json))
    (timeout retries : Z) : etl json :=
  extract_loop base_url params timeout retries (py_range 1 (retries + 1)).

(** The value or exception one request leads to in [attempt_get]. *)
Definition attempt_outcome (o : http_outcome) : result py_error json :=
  match o with
  | NetFailure e => Err e
  | Response status body =>
      if (400 <=? status) && (status <? 600) then Err (HTTPError status)
      else match json_loads body with Some j => Ok j | None => Err JSONDecodeError end
  end.

(** The outcome of the [i]-th request from now. *)
Definition outcome_at (w : world) (i : nat) : result py_error json :=
  attempt_outcome (w_net w (w_requests w + i)).

(** The log lines of failed attempts [1 .. length errs]. *)
Definition failed_attempts_log (url : string) (params : list (string * json))
    (errs : list py_error) : list log_line :=
  concat (imap (fun i e => [Info (MsgGet url (Z.of_nat i + 1) params);
                            Warning (MsgFailed (Z.of_nat i + 1) e)]) errs).

(** The back-off sleeps after attempts [1 .. k]. *)
Definition backoff (k : nat) : list Z := map (fun i => 2 * (Z.of_nat i + 1)) (seq 0 k).

(** The same, from attempt [s + 1] on. *)
Definition failed_log_from (url : string) (params : list (string * json))
    (s : nat) (errs : list py_error) : list log_line :=
  concat (imap (fun i e => [Info (MsgGet url (Z.of_nat (s + i) + 1) params);
                            Warning (MsgFailed (Z.of_nat (s + i) + 1) e)]) errs).

Definition backoff_from (s k : nat) : list Z :=
  map (fun i => 2 * (Z.of_nat (s + i) + 1)) (seq 0 k).

(** ** One attempt *)

Definition after_get (url : string) (params : list (string * json)) (a : Z) (w : world) : world :=
  next_request (add_log (Info (MsgGet url a params)) w).

Lemma attempt_get_run url params timeout a w :
  attempt_get url params timeout a w = (outcome_at w 0, after_get url params a w).
Proof.
  unfold attempt_get, sbind, smodify, log_info, http_get, outcome_at, after_get,
    attempt_outcome. cbn. rewrite Nat.add_0_r.
  destruct (w_net w (w_requests w)) as [e|status body]; [done|].
  unfold raise_for_status, response_json. destruct (_ && _); [done|].
  by destruct (json_loads body).
Qed.

Lemma outcome_at_after_get url params a w i :
  outcome_at (after_get url params a w) i = outcome_at w (S i).
Proof. unfold outcome_at. cbn. by rewrite Nat.add_succ_r. Qed.

Lemma outcome_at_add_log l w i : outcome_at (add_log l w) i = outcome_at w i.
Proof. done. Qed.

Lemma outcome_at_add_sleep d w i : outcome_at (add_sleep d w) i = outcome_at w i.
Proof. done. Qed.

#[export] Hint Rewrite outcome_at_add_log outcome_at_add_sleep outcome_at_after_get : etl_rw.

Lemma extract_loop_ok url params timeout retries a rest w j :
  outcome_at w 0 = Ok j ->
  extract_loop url params timeout retries (a :: rest) w = (Ok j, after_get url params a w).
Proof. intros H. cbn. unfold scatch. by rewrite attempt_get_run, H. Qed.

Lemma extract_loop_retry url params timeout retries a rest w e :
  outcome_at w 0 = Err e -> a <> retries -> 0 <= a ->
  extract_loop url params timeout retries (a :: rest) w =
  extract_loop url params timeout retries rest
    (add_sleep (2 * a) (add_log (Warning (MsgFailed a e)) (after_get url params a w))).
Proof.
  intros H Hne Ha. cbn. unfold scatch. rewrite attempt_get_run, H.
  cbn. rewrite (proj2 (Z.eqb_neq a retries) Hne).
  unfold sleep. rewrite (proj2 (Z.ltb_ge _ 0)) by lia. done.
Qed.

Lemma extract_loop_last url params timeout a rest w e :
  outcome_at w 0 = Err e ->
  extract_loop url params timeout a (a :: rest) w =
  (Err e, add_log (Warning (MsgFailed a e)) (after_get url params a w)).
Proof.
  intros H. cbn. unfold scatch. rewrite attempt_get_run, H. cbn.
  by rewrite Z.eqb_refl.
Qed.

(** ** The loop *)

Definition Zsum (l : list Z) : Z := fold_right Z.add 0 l.

Lemma failed_log_from_cons url params s e errs :
  failed_log_from url params s (e :: errs) =
  [Info (MsgGet url (Z.of_nat s + 1) params); Warning (MsgFailed (Z.of_nat s + 1) e)] ++
  failed_log_from url params (S s) errs.
Proof.
  unfold failed_log_from. rewrite imap_cons. cbn [concat]. rewrite Nat.add_0_r.
  f_equal. f_equal. apply imap_ext. intros i x _. cbn. by rewrite Nat.add_succ_r.
Qed.

Lemma backoff_from_cons s k :
  backoff_from s (S k) = 2 * (Z.of_nat s + 1) :: backoff_from (S s) k.
Proof.
  unfold backoff_from. cbn [seq map]. rewrite Nat.add_0_r. f_equal.
  rewrite <- seq_shift, map_map. apply map_ext. intros i. by rewrite Nat.add_succ_r.
Qed.

(** The attempts of [range(s + 1, s + m + 1)]. *)
Definition attempts_from (s m : nat) : list Z := map (fun i => Z.of_nat i + 1) (seq s m).

Lemma attempts_from_S s m : attempts_from s (S m) = (Z.of_nat s + 1) :: attempts_from (S s) m.
Proof. done. Qed.

Lemma py_range_attempts n : py_range 1 (Z.of_nat n + 1) = attempts_from 0 n.
Proof.
  unfold py_range, attempts_from. replace (Z.of_nat n + 1 - 1) with (Z.of_nat n) by lia.
  rewrite Nat2Z.id. apply map_ext. intros i. lia.
Qed.

(** Failures on attempts [s+1 .. s+k], then success on attempt [s+k+1]. *)
Lemma extract_loop_success url params timeout errs s m w j :
  (length errs < m)%nat ->
  (forall i e, errs !! i = Some e -> outcome_at w i = Err e) ->
  outcome_at w (length errs) = Ok j ->
  extract_loop url params timeout (Z.of_nat (s + m)%nat) (attempts_from s m) w =
  (Ok j, World (w_log w ++ failed_log_from url params s errs ++
                [Info (MsgGet url (Z.of_nat (s + length errs) + 1) params)])
               (w_sleeps w ++ backoff_from s (length errs))
               (w_clock w + Zsum (backoff_from s (length errs)))
               (w_net w) (w_requests w + S (length errs))%nat
               (w_dirs w) (w_files w) (w_dbs w)).
Proof.
  revert s m w. induction errs as [|e errs IH]; intros s m w Hlen Herr Hok.
  - destruct m as [|m]; [simpl in Hlen; lia|]. rewrite attempts_from_S.
    rewrite (extract_loop_ok _ _ _ _ _ _ _ j) by done. cbn.
    rewrite !app_nil_r, Z.add_0_r, !Nat.add_0_r.
    unfold after_get, next_request, add_log. cbn. by rewrite Nat.add_1_r.
  - destruct m as [|m]; [simpl in Hlen; lia|]. simpl in Hlen.
    rewrite attempts_from_S, (extract_loop_retry _ _ _ _ _ _ _ e);
      [| by apply (Herr 0%nat) | lia | lia].
    replace (s + S m)%nat with (S s + m)%nat by lia.
    rewrite IH; [|lia|..].
    2:{ intros i e' Hi. autorewrite with etl_rw. by apply (Herr (S i)). }
    2:{ autorewrite with etl_rw. exact Hok. }
    cbn [length]. rewrite failed_log_from_cons, backoff_from_cons.
    unfold add_sleep, after_get, next_request, add_log, Zsum. cbn.
    rewrite <- !app_assoc, !Z.add_assoc. cbn. repeat f_equal; lia.
Qed.

(** Failures on all of attempts [s+1 .. s+m]. *)
Lemma extract_loop_failure url params timeout errs s w e_last :
  (forall i e, (errs ++ [e_last]) !! i = Some e -> outcome_at w i = Err e) ->
  extract_loop url params timeout (Z.of_nat (s + S (length errs))%nat)
    (attempts_from s (S (length errs))) w =
  (Err e_last, World (w_log w ++ failed_log_from url params s (errs ++ [e_last]))
                     (w_sleeps w ++ backoff_from s (length errs))
                     (w_clock w + Zsum (backoff_from s (length errs)))
                     (w_net w) (w_requests w + S (length errs))%nat
                     (w_dirs w) (w_files w) (w_dbs w)).
Proof.
  revert s w. induction errs as [|e errs IH]; intros s w Herr.
  - cbn [length]. rewrite attempts_from_S.
    replace (Z.of_nat (s + 1)%nat) with (Z.of_nat s + 1) by lia.
    rewrite (extract_loop_last _ _ _ _ _ _ e_last) by (by apply (Herr 0%nat)).
    unfold failed_log_from, after_get, next_request, add_log. cbn.
    rewrite !app_nil_r, Z.add_0_r, !Nat.add_0_r, <- app_assoc, Nat.add_1_r. done.
  - cbn [length]. rewrite attempts_from_S, (extract_loop_retry _ _ _ _ _ _ _ e);
      [| by apply (Herr 0%nat) | lia | lia].
    replace (s + S (S (length errs)))%nat with (S s + S (length errs))%nat by lia.
    rewrite IH.
    2:{ intros i e' Hi. autorewrite with etl_rw. by apply (Herr (S i)). }
    rewrite <- app_comm_cons, failed_log_from_cons, backoff_from_cons.
    unfold add_sleep, after_get, next_request, add_log, Zsum. cbn.
    rewrite <- !app_assoc, !Z.add_assoc. cbn. repeat f_equal; lia.
Qed.

(** Whatever the network answers, a loop of [m + 1] attempts makes
    [k + 1] requests and sleeps the [k] back-offs [2 (s + 1), ...], for some
    [k <= m]. *)
Lemma extract_loop_budget url params timeout s m w r w' :
  extract_loop url params timeout (Z.of_nat (s + S m)) (attempts_from s (S m)) w = (r, w') ->
  exists k, (k <= m)%nat /\ w_requests w' = (w_requests w + S k)%nat /\
    w_sleeps w' = w_sleeps w ++ backoff_from s k /\
    w_clock w' = w_clock w + Zsum (backoff_from s k).
Proof.
  revert s w. induction m as [|m IH]; intros s w; rewrite attempts_from_S;
    destruct (outcome_at w 0) as [j|e] eqn:Ho.
  1, 3: rewrite (extract_loop_ok _ _ _ _ _ _ _ j) by done; intros [= _ <-]; exists 0%nat;
    cbn; split_and!; [lia|lia|by rewrite app_nil_r|lia].
  - replace (Z.of_nat (s + 1)) with (Z.of_nat s + 1) by lia.
    rewrite (extract_loop_last _ _ _ _ _ _ e) by done. intros [= _ <-]. exists 0%nat.
    cbn. split_and!; [lia|lia|by rewrite app_nil_r|lia].
  - rewrite (extract_loop_retry _ _ _ _ _ _ _ e) by (done || lia).
    replace (s + S (S m))%nat with (S s + S m)%nat by lia.
    intros (k & Hk & Hr & Hs & Hc)%IH. exists (S k).
    rewrite backoff_from_cons. unfold Zsum in *. cbn in Hr, Hs, Hc |- *.
    rewrite Hs, <- app_assoc. split_and!; [lia|lia|done|lia].
Qed.

Lemma Zsum_backoff_from s k :
  Zsum (backoff_from s k) = Z.of_nat k * (Z.of_nat k + 1) + 2 * Z.of_nat s * Z.of_nat k.
Proof.
  revert s. induction k as [|k IH]; intros s; [cbn; lia|].
  rewrite backoff_from_cons. cbn [Zsum fold_right]. unfold Zsum in IH. rewrite IH.
  rewrite !Nat2Z.inj_succ. ring.
Qed.

Lemma failed_log_from_0 url params errs :
  failed_log_from url params 0 errs = failed_attempts_log url params errs.
Proof. done. Qed.

Lemma backoff_from_0 k : backoff_from 0 k = backoff k.
Proof. done. Qed.

(** ** Theorems *)

(** C10 (retry, success).  If the first [k] requests fail with [errs] and the
    next one succeeds, with [k < retries], the extractor returns that
    payload after exactly [k + 1] requests; it logs a GET line for each
    attempt and a warning for each failure; it sleeps [2, 4, ..., 2k]
    seconds, [k (k + 1)] in all; nothing else changes. *)
Theorem extract_weather_api_success url params timeout (n : nat) errs w j :
  (length errs < n)%nat ->
  (forall i e, errs !! i = Some e -> outcome_at w i = Err e) ->
  outcome_at w (length errs) = Ok j ->
  extract_weather_api url params timeout (Z.of_nat n) w =
  (Ok j, World (w_log w ++ failed_attempts_log url params errs ++
                [Info (MsgGet url (Z.of_nat (length errs) + 1) params)])
               (w_sleeps w ++ backoff (length errs))
               (w_clock w + Z.of_nat (length errs) * (Z.of_nat (length errs) + 1))
               (w_net w) (w_requests w + S (length errs))%nat
               (w_dirs w) (w_files w) (w_dbs w)).
Proof.
  intros Hlen Herr Hok. unfold extract_weather_api.
  rewrite py_range_attempts, <- (Nat.add_0_l n).
  rewrite (extract_loop_success _ _ _ _ _ _ _ j) by done.
  by rewrite Zsum_backoff_from, Z.mul_0_r, Z.add_0_r.
Qed.

(** C11 (retry, exhaustion).  If all [retries] requests fail, the extractor
    re-raises the exception of the last attempt, after [retries] GET lines
    and warnings and [retries - 1] sleeps of [2, 4, ...] seconds. *)
Theorem extract_weather_api_exhausted url params timeout errs e_last w :
  (forall i e, (errs ++ [e_last]) !! i = Some e -> outcome_at w i = Err e) ->
  extract_weather_api url params timeout (Z.of_nat (S (length errs))) w =
  (Err e_last, World (w_log w ++ failed_attempts_log url params (errs ++ [e_last]))
                     (w_sleeps w ++ backoff (length errs))
                     (w_clock w + Z.of_nat (length errs) * (Z.of_nat (length errs) + 1))
                     (w_net w) (w_requests w + S (length errs))%nat
                     (w_dirs w) (w_files w) (w_dbs w)).
Proof.
  intros Herr. unfold extract_weather_api.
  pose proof (extract_loop_failure url params timeout errs 0 w e_last Herr) as H.
  rewrite !Nat.add_0_l in H. rewrite py_range_attempts, H.
  by rewrite Zsum_backoff_from, Z.mul_0_r, Z.add_0_r.
Qed.

(** C12 (no attempt).  With [retries <= 0] the loop body never runs: the
    function returns [None] without any request, log line or sleep. *)
Theorem extract_weather_api_no_attempt url params timeout retries w :
  retries <= 0 ->
  extract_weather_api url params timeout retries w = (Ok JNull, w).
Proof.
  intros H. unfold extract_weather_api, py_range.
  by replace (Z.to_nat (retries + 1 - 1)) with 0%nat by lia.
Qed.

(** C13 (retry budget).  Whatever the network answers, a run with
    [retries = n] makes no request when [n = 0], and otherwise [k + 1]
    requests for some [k < n], sleeping exactly the back-offs
    [2, 4, ..., 2k] in this order: at most [n] requests and [n (n - 1)]
    seconds of sleep, and no sleep after the last attempt. *)
Theorem extract_weather_api_budget url params timeout (n : nat) w r w' :
  extract_weather_api url params timeout (Z.of_nat n) w = (r, w') ->
  (n = 0%nat /\ w' = w) \/
  exists k, (k < n)%nat /\ w_requests w' = (w_requests w + S k)%nat /\
    w_sleeps w' = w_sleeps w ++ backoff k /\
    w_clock w' = w_clock w + Z.of_nat k * (Z.of_nat k + 1).
Proof.
  unfold extract_weather_api. rewrite py_range_attempts. destruct n as [|m].
  - intros [= _ <-]. by left.
  - change (Z.of_nat (S m)) with (Z.of_nat (0 + S m)).
    intros (k & Hk & Hr & Hs & Hc)%extract_loop_budget. right. exists k.
    rewrite Zsum_backoff_from in Hc. split_and!; [lia|done|done|lia].
Qed.

(** Against a network that always times out, three attempts: three
    requests and the sleeps 2 and 4. *)
Lemma extract_weather_api_budget_witness :
  let w := start_world (fun _ => NetFailure ReadTimeout) 0 in
  let res := extract_weather_api "u" [] 30 (Z.of_nat 3) w in
  (3%nat = 0%nat /\ snd res = w) \/
  exists k, (k < 3)%nat /\ w_requests (snd res) = (w_requests w + S k)%nat /\
    w_sleeps (snd res) = w_sleeps w ++ backoff k /\
    w_clock (snd res) = w_clock w + Z.of_nat k * (Z.of_nat k + 1).
Proof.
  intros w res. apply (extract_weather_api_budget "u" [] 30 3 w (fst res)).
  vm_compute. reflexivity.
Defined.

(** A run of the spec's scenario: two failures, then a payload. *)
Definition flaky_net (payload : json) (i : nat) : http_outcome :=
  match i with
  | 0%nat => NetFailure ConnectionError
  | 1%nat => Response 503 ""
  | _ => Response 200 (json_dump payload)
  end.

Lemma extract_weather_api_success_witness :
  extract_weather_api "u" [] 30 (Z.of_nat 3) (start_world (flaky_net JNull) 0) =
  (Ok JNull,
   World (failed_attempts_log "u" [] [ConnectionError; HTTPError 503] ++
          [Info (MsgGet "u" 3 [])])
         [2; 4] 6 (flaky_net JNull) 3 ∅ ∅ ∅).
Proof.
  apply (extract_weather_api_success "u" [] 30 3 [ConnectionError; HTTPError 503]
           (start_world (flaky_net JNull) 0) JNull).
  - cbn. lia.
  - intros [|[|i]] e Hi; cbn in Hi; try discriminate; injection Hi as <-; reflexivity.
  - reflexivity.
Defined.

Lemma extract_weather_api_exhausted_witness :
  extract_weather_api "u" [] 30 (Z.of_nat 3)
    (start_world (fun _ => NetFailure ReadTimeout) 0) =
  (Err ReadTimeout,
   World (failed_attempts_log "u" [] [ReadTimeout; ReadTimeout; ReadTimeout])
         [2; 4] 6 (fun _ => NetFailure ReadTimeout) 3 ∅ ∅ ∅).
Proof.
  apply (extract_weather_api_exhausted "u" [] 30 [ReadTimeout; ReadTimeout] ReadTimeout
           (start_world (fun _ => NetFailure ReadTimeout) 0)).
  intros [|[|[|i]]] e Hi; cbn in Hi; try discriminate; injection Hi as <-; reflexivity.
Defined.

Lemma extract_weather_api_no_attempt_witness :
  extract_weather_api "u" [] 30 0 (start_world (fun _ => NetFailure ReadTimeout) 0) =
  (Ok JNull, start_world (fun _ => NetFailure ReadTimeout) 0).
Proof. apply extract_weather_api_no_attempt. lia. Defined.

(** The extractor only logs, sleeps and makes requests: directories, files
    and databases are untouched. *)
Lemma extract_loop_world url params timeout retries attempts w r w' :
  extract_loop url params timeout retries attempts w = (r, w') ->
  w_dirs w' = w_dirs w /\ w_files w' = w_files w /\ w_dbs w' = w_dbs w.
Proof.
  revert w. induction attempts as [|a rest IH]; intros w; cbn; [by intros [= _ <-]|].
  unfold scatch. rewrite attempt_get_run. destruct (outcome_at w 0) as [j|e].
  - by intros [= _ <-].
  - cbn. destruct (a =? retries); [by intros [= _ <-]|].
    unfold sleep. destruct (2 * a <? 0); [by intros [= _ <-]|].
    cbn. intros H%IH. done.
Qed.

(** The lines the extractor logs: a GET line per attempt and a warning
    per failure. *)
Definition extract_line (l : log_line) : bool :=
  match l with
  | Info (MsgGet _ _ _) | Warning (MsgFailed _ _) => true
  | _ => false
  end.

Lemma extract_loop_log url params timeout retries attempts w r w' :
  extract_loop url params timeout retries attempts w = (r, w') ->
  exists ext, w_log w' = w_log w ++ ext /\ Forall (fun l => extract_line l = true) ext.
Proof.
  revert w. induction attempts as [|a rest IH]; intros w; cbn.
  { intros [= _ <-]. exists []. by rewrite app_nil_r. }
  unfold scatch. rewrite attempt_get_run. destruct (outcome_at w 0) as [j|e].
  - intros [= _ <-]. exists [Info (MsgGet url a params)]. split; [done|by repeat constructor].
  - cbn. destruct (a =? retries).
    { intros [= _ <-]. exists [Info (MsgGet url a params); Warning (MsgFailed a e)].
      cbn. rewrite <- app_assoc. split; [done|by repeat constructor]. }
    unfold sleep. destruct (2 * a <? 0).
    { intros [= _ <-]. exists [Info (MsgGet url a params); Warning (MsgFailed a e)].
      cbn. rewrite <- app_assoc. split; [done|by repeat constructor]. }
    cbn. intros (ext & Hl & Hf)%IH. exists ([Info (MsgGet url a params); Warning (MsgFailed a e)] ++ ext).
    rewrite Hl. cbn. rewrite <- !app_assoc. split; [done|by repeat constructor].
Qed.

Lemma extract_weather_api_world url params timeout retries w r w' :
  extract_weather_api url params timeout retries w = (r, w') ->
  w_dirs w' = w_dirs w /\ w_files w' = w_files w /\ w_dbs w' = w_dbs w.
Proof. apply extract_loop_world. Qed.

(** A payload the extractor returns is one [json.loads] made ([None] when
    no attempt runs): normal, and without a repeated key. *)
Lemma attempt_outcome_normal o j :
  attempt_outcome o = Ok j -> wf_json j = true /\ json_norm j = j.
Proof.
  destruct o as [e|status body]; [done|]. cbn.
  destruct (_ && _); [done|].
  destruct (json_loads body) as [j'|] eqn:Hl; [|done]. intros [= <-].
  by apply json_loads_normal in Hl.
Qed.

Lemma extract_loop_normal url params timeout retries attempts w j w' :
  extract_loop url params timeout retries attempts w = (Ok j, w') ->
  wf_json j = true /\ json_norm j = j.
Proof.
  revert w. induction attempts as [|a rest IH]; intros w; cbn; [by intros [= <- _]|].
  unfold scatch. rewrite attempt_get_run. destruct (outcome_at w 0) as [j'|e] eqn:Ho.
  - intros [= <- _]. by eapply attempt_outcome_normal.
  - cbn. destruct (a =? retries); [done|].
    unfold sleep. destruct (2 * a <? 0); [done|]. cbn. apply IH.
Qed.

Lemma extract_weather_api_normal url params timeout retries w j w' :
  extract_weather_api url params timeout retries w = (Ok j, w') ->
  wf_json j = true /\ json_norm j = j.
Proof. apply extract_loop_normal. Qed.

(** Against a network that answers every request the same way, the payload
    a successful extraction returns is the one that answer decodes to: which
    attempt succeeded, and what the log and clock say, does not matter. *)
Lemma extract_weather_api_const url params timeout (n : nat) w o raw w' :
  (forall i, w_net w i = o) ->
  extract_weather_api url params timeout (Z.of_nat (S n)) w = (Ok raw, w') ->
  attempt_outcome o = Ok raw.
Proof.
  intros Hnet. assert (Hat : forall i, outcome_at w i = attempt_outcome o)
    by (intros i; unfold outcome_at; by rewrite Hnet).
  unfold extract_weather_api. rewrite py_range_attempts.
  destruct (attempt_outcome o) as [j|e] eqn:Ho.
  - rewrite attempts_from_S, (extract_loop_ok _ _ _ _ _ _ _ j) by by rewrite Hat.
    by intros [= -> _].
  - pose proof (length_replicate n e) as Hn.
    rewrite <- Hn. change (Z.of_nat (S ?k)) with (Z.of_nat (0 + S k)).
    rewrite (extract_loop_failure _ _ _ _ _ _ e); [done|].
    intros i e' Hi. rewrite Hat.
    apply list_elem_of_lookup_2, elem_of_app in Hi as [Hi%elem_of_replicate|Hi%list_elem_of_singleton];
      naive_solver.
Qed.
