(* ===== verification/Transform.v ===== *)
(** * The transformer: [transform_weather_hourly] (src/functions.py, lines 76-93)

    Line 80 reads [data.get("hourly", {})] and lines 82-84 the three series
    with [hourly.get(name, [])]; [.get] raises [AttributeError] on a value
    that is not a dict (for instance the [None] an extractor with
    [retries <= 0] returns).  Line 81 builds the frame ([dataframe_length],
    [column_cells]); lines 88-90 cast the columns ([to_datetime],
    [to_numeric]); line 92 logs the row count and the column names. *)

From Stdlib Require Import ZArith.
From stdpp Require Import base list sets strings.
From S2P Require Import Prelude Json Numeric Timestamp Schema Frame World.

Definition weather_columns : list string :=
  ["time"; "temperature_2m"; "relative_humidity_2m"]%string.

(** The rows of the frame built from the three column values. *)
Definition build_rows (n : nat) (t tp hm : json) : list row :=
  (fun '(a, b, c) => Row a b c) <$>
    zip3 (to_datetime (column_cells n t))
         (to_numeric <$> column_cells n tp)
         (to_numeric <$> column_cells n hm).

(** The dtypes of the two cast columns (lines 89-90). *)
Definition frame_dtypes (n : nat) (tp hm : json) : num_dtype * num_dtype :=
  (numeric_dtype (column_cells n tp), numeric_dtype (column_cells n hm)).

Definition transform_weather_hourly (data : json) : etl frame :=
  hourly <- slift (py_get data "hourly" (JObj [])) ;;
  t <- slift (py_get hourly "time" (JArr [])) ;;
  tp <- slift (py_get hourly "temperature_2m" (JArr [])) ;;
  hm <- slift (py_get hourly "relative_humidity_2m" (JArr [])) ;;
  n <- slift (dataframe_length [t; tp; hm]) ;;
  let rs := build_rows n t tp hm in
  log_info (MsgTransform (length rs) weather_columns) ;;;
  sret (Frame weather_columns (frame_dtypes n tp hm) rs).

(** The three series a payload carries, when it is a dict whose [hourly]
    entry (or its absence) can be read. *)
Definition hourly_series (data : json) : result py_error (json * json * json) :=
  match py_get data "hourly" (JObj []) with
  | Err e => Err e
  | Ok hourly =>
      match py_get hourly "time" (JArr []), py_get hourly "temperature_2m" (JArr []),
            py_get hourly "relative_humidity_2m" (JArr []) with
      | Ok t, Ok tp, Ok hm => Ok (t, tp, hm)
      | Err e, _, _ | _, Err e, _ | _, _, Err e => Err e
      end
  end.

(** The frame [transform_weather_hourly] returns, or the exception it raises:
    it depends on the payload only. *)
Definition transform_result (data : json) : result py_error frame :=
  match hourly_series data with
  | Err e => Err e
  | Ok (t, tp, hm) =>
      match dataframe_length [t; tp; hm] with
      | Err e => Err e
      | Ok n => Ok (Frame weather_columns (frame_dtypes n tp hm) (build_rows n t tp hm))
      end
  end.

(** ** Lemmas *)

Lemma transform_run data w :
  transform_weather_hourly data w =
  match hourly_series data with
  | Err e => (Err e, w)
  | Ok (t, tp, hm) =>
      match dataframe_length [t; tp; hm] with
      | Err e => (Err e, w)
      | Ok n => (Ok (Frame weather_columns (frame_dtypes n tp hm) (build_rows n t tp hm)),
                 add_log (Info (MsgTransform (length (build_rows n t tp hm)) weather_columns)) w)
      end
  end.
Proof.
  unfold transform_weather_hourly, hourly_series, sbind, slift.
  destruct (py_get data "hourly" (JObj [])) as [hourly|e]; [|done].
  destruct (py_get hourly "time" _) as [t|e]; [|done].
  destruct (py_get hourly "temperature_2m" _) as [tp|e]; [|done].
  destruct (py_get hourly "relative_humidity_2m" _) as [hm|e]; [|done].
  by destruct (dataframe_length _).
Qed.

Lemma transform_fst data w : fst (transform_weather_hourly data w) = transform_result data.
Proof.
  rewrite transform_run. unfold transform_result.
  destruct (hourly_series data) as [[[t tp] hm]|e]; [|done].
  by destruct (dataframe_length _).
Qed.

(** A successful transformation logs its row count and columns. *)
Lemma transform_log data w df w' :
  transform_weather_hourly data w = (Ok df, w') ->
  w' = add_log (Info (MsgTransform (length (rows df)) weather_columns)) w.
Proof.
  rewrite transform_run. destruct (hourly_series data) as [[[t tp] hm]|e]; [|done].
  destruct (dataframe_length _); [|done]. by intros [= <- <-].
Qed.

(** The transformation only logs. *)
Lemma transform_world data w r w' :
  transform_weather_hourly data w = (r, w') ->
  w' = w \/ exists m, w' = add_log (Info m) w.
Proof.
  rewrite transform_run. destruct (hourly_series data) as [[[t tp] hm]|e];
    [destruct (dataframe_length _)|]; intros [= _ <-]; eauto.
Qed.

Lemma py_get_dict kvs k d : py_get (JObj kvs) k d = Ok (from_option id d (dict_lookup k kvs)).
Proof. done. Qed.

Lemma length_to_datetime col : length (to_datetime col) = length col.
Proof. unfold to_datetime. apply length_map. Qed.

Lemma length_build_rows n t tp hm :
  length (column_cells n t) = n -> length (column_cells n tp) = n ->
  length (column_cells n hm) = n ->
  length (build_rows n t tp hm) = n.
Proof.
  intros Ht Htt Hhh. unfold build_rows. rewrite length_fmap, length_zip3;
    rewrite ?length_to_datetime, ?length_fmap; congruence.
Qed.

Lemma lookup_zip3 {A B C} (xs : list A) (ys : list B) (zs : list C) i :
  zip3 xs ys zs !! i =
  match xs !! i, ys !! i, zs !! i with
  | Some x, Some y, Some z => Some (x, y, z)
  | _, _, _ => None
  end.
Proof.
  revert xs ys zs. induction i as [|i IH]; intros [|x xs] [|y ys] [|z zs]; cbn;
    try (rewrite IH; reflexivity); repeat case_match; done.
Qed.

Lemma dataframe_length_arrays3 ts tps hms :
  dataframe_length [JArr ts; JArr tps; JArr hms] =
  if bool_decide (length tps = length ts) && bool_decide (length hms = length ts)
  then Ok (length ts)
  else Err (ValueError "All arrays must be of the same length").
Proof. unfold dataframe_length. cbn. by rewrite andb_true_r. Qed.

(** The frame of a successful transformation is well formed: its times are
    valid and in range, its numbers values of the inferred dtypes. *)
Lemma build_rows_wf n t tp hm : forallb (row_fits (frame_dtypes n tp hm)) (build_rows n t tp hm) = true.
Proof.
  apply forallb_forall. intros r Hr%list_elem_of_In. unfold build_rows in Hr.
  apply list_elem_of_fmap in Hr as ([[a b] c] & -> & Hin).
  apply elem_of_zip3 in Hin as (Ha & (vb & -> & Hb)%list_elem_of_fmap & (vc & -> & Hc)%list_elem_of_fmap).
  unfold row_fits. cbn. rewrite (to_datetime_fits _ _ Ha), !to_numeric_fits by done. done.
Qed.

Lemma transform_wf data w df w' :
  transform_weather_hourly data w = (Ok df, w') -> frame_wf df = true.
Proof.
  rewrite transform_run. destruct (hourly_series data) as [[[t tp] hm]|e]; [|done].
  destruct (dataframe_length _); [|done]. intros [= <- _]. apply build_rows_wf.
Qed.

(** A successful transformation builds its frame from the three series, as
    many rows as the constructor's length. *)
Lemma transform_Ok data w df w' t tp hm :
  transform_weather_hourly data w = (Ok df, w') -> hourly_series data = Ok (t, tp, hm) ->
  exists n, dataframe_length [t; tp; hm] = Ok n /\
    df = Frame weather_columns (frame_dtypes n tp hm) (build_rows n t tp hm) /\ length (rows df) = n.
Proof.
  rewrite transform_run. intros Hrun Hs. rewrite Hs in Hrun.
  destruct (dataframe_length [t; tp; hm]) as [n|e] eqn:Hn; [|done].
  injection Hrun as <- _. exists n. split_and!; [done|done|]. cbn.
  apply length_build_rows; apply length_column_cells; intros l' ->;
    apply (dataframe_length_arrays _ _ Hn); set_solver.
Qed.

Lemma transform_columns data w df w' :
  transform_weather_hourly data w = (Ok df, w') -> columns df = weather_columns.
Proof.
  rewrite transform_run. destruct (hourly_series data) as [[[t tp] hm]|e]; [|done].
  destruct (dataframe_length _); [|done]. by intros [= <- _].
Qed.

(** ** Theorems *)

(** Shape.  A successful transformation has the three required
    columns, and as many rows as every series that is a list has elements;
    in particular as many as the [time] series. *)
Theorem transform_shape data w df w' t tp hm :
  transform_weather_hourly data w = (Ok df, w') ->
  hourly_series data = Ok (t, tp, hm) ->
  columns df = weather_columns /\
  forall l, JArr l ∈ [t; tp; hm] -> length (rows df) = length l.
Proof.
  intros Hrun Hs. destruct (transform_Ok _ _ _ _ _ _ _ Hrun Hs) as (n & Hn & -> & Hlen).
  split; [done|]. intros l Hl. rewrite Hlen. by rewrite (dataframe_length_arrays _ _ Hn l Hl).
Qed.

(** C19 (column types).  The dtype pandas gives a measurement column
    follows the JSON values of its series: a series of JSON integers gives
    an [int64] column and a non-empty series of JSON booleans a [bool]
    column, so neither is [float64]; a single float or [null] in the
    series makes it [float64].  Every cell is a value of its column's
    dtype and every time is a valid date in the [datetime64[ns]] range. *)
Theorem transform_types data w df w' ts tps hms :
  transform_weather_hourly data w = (Ok df, w') ->
  hourly_series data = Ok (JArr ts, JArr tps, JArr hms) ->
  frame_wf df = true /\
  forall col dt, (col, dt) ∈ [(tps, (dtypes df).1); (hms, (dtypes df).2)] ->
    (Forall (fun v => exists z, v = JInt z) col -> dt = Int64) /\
    (col <> [] -> Forall (fun v => exists b, v = JBool b) col -> dt = Bool) /\
    (forall v, v ∈ col -> (v = JNull \/ exists d, v = JFloat d) -> dt = Float64).
Proof.
  intros Hrun Hs. split; [by eapply transform_wf|].
  destruct (transform_Ok _ _ _ _ _ _ _ Hrun Hs) as (n & _ & -> & _). cbn.
  intros col dt Hin. rewrite !elem_of_cons, elem_of_nil in Hin.
  assert (dt = numeric_dtype col) as -> by (destruct Hin as [[= -> ->]|[[= -> ->]|[]]]; done).
  split_and!; [apply numeric_dtype_ints|intros; by apply numeric_dtype_bools|].
  intros v ? ?. by eapply numeric_dtype_float.
Qed.

(** C18 (cells).  With three list series of one length, row [i] of the frame
    holds the cast of the [i]-th element of each series, and the run logs
    the row count and the column names. *)
Theorem transform_cells data w ts tps hms :
  hourly_series data = Ok (JArr ts, JArr tps, JArr hms) ->
  length tps = length ts -> length hms = length ts ->
  exists df,
    transform_weather_hourly data w =
      (Ok df, add_log (Info (MsgTransform (length ts) weather_columns)) w) /\
    forall i r, rows df !! i = Some r <->
      exists a b c, to_datetime ts !! i = Some a /\ tps !! i = Some b /\
                    hms !! i = Some c /\ r = Row a (to_numeric b) (to_numeric c).
Proof.
  intros Hs H1 H2. rewrite transform_run, Hs, dataframe_length_arrays3.
  rewrite !bool_decide_true by done. cbn [andb].
  rewrite length_build_rows by (cbn; done). eexists. split; [reflexivity|].
  intros i r. cbn [rows]. unfold build_rows. rewrite list_lookup_fmap, lookup_zip3.
  cbn [column_cells]. rewrite !list_lookup_fmap.
  destruct (to_datetime ts !! i), (tps !! i), (hms !! i); cbn; naive_solver.
Qed.

(** C20 (mismatched series).  Series of different lengths make
    [pd.DataFrame] raise [ValueError]; nothing is logged.  A missing series
    counts as an empty list, so a payload that lacks one series but has the
    others non-empty fails the same way. *)
Theorem transform_length_mismatch data w ts tps hms :
  hourly_series data = Ok (JArr ts, JArr tps, JArr hms) ->
  (length tps <> length ts \/ length hms <> length ts) ->
  transform_weather_hourly data w =
  (Err (ValueError "All arrays must be of the same length"), w).
Proof.
  intros Hs Hne. rewrite transform_run, Hs, dataframe_length_arrays3.
  destruct Hne as [Hne|Hne];
    [rewrite (bool_decide_false (length tps = length ts))|
     rewrite andb_comm, (bool_decide_false (length hms = length ts))]; done.
Qed.

(** Not a dict.  A payload that is not a dict, such as the [None]
    returned by an extractor with [retries <= 0], makes the first [.get]
    raise [AttributeError]; nothing is logged. *)
Theorem transform_not_dict data w :
  (forall kvs, data <> JObj kvs) ->
  transform_weather_hourly data w = (Err (AttributeError "get"), w).
Proof.
  intros Hd. rewrite transform_run. unfold hourly_series.
  destruct data; try done. by destruct (Hd kvs).
Qed.

(** ** Witnesses *)

Definition sample_time : list json := [JStr "2024-01-01T00:00"; JStr "2024-01-01T01:00"]%string.
Definition sample_temp : list json := [JFloat (Dec 250 (-1)); JNull].
Definition sample_hum : list json := [JInt 60; JStr "70"]%string.

Definition sample_payload : json :=
  JObj [("hourly", JObj [("time", JArr sample_time); ("temperature_2m", JArr sample_temp);
                         ("relative_humidity_2m", JArr sample_hum)])]%string.

Definition sample_frame : frame :=
  Frame weather_columns (frame_dtypes 2 (JArr sample_temp) (JArr sample_hum))
    (build_rows 2 (JArr sample_time) (JArr sample_temp) (JArr sample_hum)).

Definition quiet_world : world := start_world (fun _ => NetFailure ReadTimeout) 0.

Lemma transform_shape_witness :
  columns sample_frame = weather_columns /\
  forall l, JArr l ∈ [JArr sample_time; JArr sample_temp; JArr sample_hum] ->
  length (rows sample_frame) = length l.
Proof.
  apply (transform_shape sample_payload quiet_world sample_frame
           (add_log (Info (MsgTransform 2 weather_columns)) quiet_world)); reflexivity.
Defined.

Lemma transform_cells_witness :
  exists df,
    transform_weather_hourly sample_payload quiet_world =
      (Ok df, add_log (Info (MsgTransform (length sample_time) weather_columns)) quiet_world) /\
    forall i r, rows df !! i = Some r <->
      exists a b c, to_datetime sample_time !! i = Some a /\ sample_temp !! i = Some b /\
                    sample_hum !! i = Some c /\ r = Row a (to_numeric b) (to_numeric c).
Proof. apply transform_cells; reflexivity. Defined.

Lemma transform_length_mismatch_witness :
  transform_weather_hourly
    (JObj [("hourly", JObj [("temperature_2m", JArr [JInt 25])])]%string) quiet_world =
  (Err (ValueError "All arrays must be of the same length"), quiet_world).
Proof. apply (transform_length_mismatch _ _ [] [JInt 25] []); [reflexivity|left; done]. Defined.

Lemma transform_not_dict_witness :
  transform_weather_hourly JNull quiet_world = (Err (AttributeError "get"), quiet_world).
Proof. apply transform_not_dict. done. Defined.

(** Integer humidities: the humidity column is [int64], the temperature
    column, which holds a float, [float64]. *)
Definition int_payload : json :=
  JObj [("hourly", JObj [("time", JArr sample_time); ("temperature_2m", JArr sample_temp);
                         ("relative_humidity_2m", JArr [JInt 60; JInt 150])])]%string.

Definition int_frame : frame :=
  Frame weather_columns (frame_dtypes 2 (JArr sample_temp) (JArr [JInt 60; JInt 150]))
    (build_rows 2 (JArr sample_time) (JArr sample_temp) (JArr [JInt 60; JInt 150])).

Lemma transform_types_witness :
  frame_wf int_frame = true /\
  (dtypes int_frame).2 = Int64 /\
  (dtypes int_frame).1 = Float64.
Proof.
  destruct (transform_types int_payload quiet_world int_frame
              (add_log (Info (MsgTransform 2 weather_columns)) quiet_world)
              sample_time sample_temp [JInt 60; JInt 150] ltac:(vm_compute; reflexivity) eq_refl)
    as [Hwf Hdt].
  split; [exact Hwf|split].
  - destruct (Hdt [JInt 60; JInt 150] (dtypes int_frame).2) as (H1 & _ & _); [set_solver|].
    apply H1. repeat constructor; eexists; reflexivity.
  - destruct (Hdt sample_temp (dtypes int_frame).1) as (_ & _ & H3); [set_solver|].
    apply (H3 JNull); [set_solver|left; reflexivity].
Defined.
