(* ===== verification/Csv.v ===== *)
(** * The rejected-rows file: [df.to_csv(path, index=False)] (src/functions.py, line 46)

    pandas' [CSVFormatter] writes the header (the column names), then the
    rows in chunks of [chunksize] rows, [(100000 // ncols) or 1], that is
    33333 rows for the three columns ([_save_body], [_save_chunk]).  Each
    chunk is a slice [df.iloc[start:end]] whose columns are turned into
    strings ([get_values_for_csv] with the empty string as [na_rep]):
    - [time] ([datetime64[ns]]): NaT as the empty string; when every time
      of the slice is at midnight ([_is_dates_only]) as [YYYY-MM-DD],
      otherwise as [YYYY-MM-DD HH:MM:SS] ([format_array_from_datetime]);
    - [float64]: [values.astype(str)], the shortest repr of the float
      ([float_repr] of JsonText), [inf] and [-inf] for the infinities,
      NaN as the empty string;
    - [int64]: [str] of the integer; [bool]: [True] or [False].
    The rows go through Python's [csv.writer] with [QUOTE_MINIMAL] and
    [lineterminator="\n"] ([os.linesep]): a field is quoted when it holds
    the delimiter, the quote or a line break, and a record made of one
    empty field is written as two quotes.

    [read_csv] is a reference reader, not code of the repository: it splits
    the text into lines and fields and reads a time with the ISO formats of
    [to_datetime] and a number with [parse_number].  The theorems show that
    the file has one line per row, in order, with the date-only format
    decided per chunk, and that reading it back gives the rows. *)

From Stdlib Require Import ZArith Ascii.
From stdpp Require Import base list sets strings.
From S2P Require Import Prelude Json Numeric Timestamp JsonText Frame Transform.

Local Open Scope Z_scope.

(** ** Cells *)

Definition comma : ascii := ",".
Definition newline : ascii := "010".
Definition carriage_return : ascii := "013".

(** [f"{y}-{m:02d}-{d:02d} {h:02d}:{mi:02d}:{s:02d}"], the basic format of
    [format_array_from_datetime] at whole seconds. *)
Definition datetime_text (t : timestamp) : list ascii :=
  int_repr (ts_year t) ++ "-"%char :: pad_digits 2 (ts_month t) ++ "-"%char :: pad_digits 2 (ts_day t) ++
  " "%char :: pad_digits 2 (ts_hour t) ++ ":"%char :: pad_digits 2 (ts_minute t) ++
  ":"%char :: pad_digits 2 (ts_second t).

(** [ts.strftime("%Y-%m-%d")]. *)
Definition date_text (t : timestamp) : list ascii :=
  pad_digits 4 (ts_year t) ++ "-"%char :: pad_digits 2 (ts_month t) ++ "-"%char :: pad_digits 2 (ts_day t).

Definition is_midnight (t : timestamp) : bool :=
  (ts_hour t =? 0) && (ts_minute t =? 0) && (ts_second t =? 0).

(** [DatetimeArray._is_dates_only]: every time that is not NaT is at
    midnight. *)
Definition dates_only (ts : list (option timestamp)) : bool :=
  forallb (fun o => match o with Some t => is_midnight t | None => true end) ts.

(** [_format_native_types] on one time, NaT as the empty string. *)
Definition time_cell (donly : bool) (o : option timestamp) : list ascii :=
  match o with
  | None => []
  | Some t => if donly then date_text t else datetime_text t
  end.

(** The integer an [int64] cell holds. *)
Definition dec_to_Z (d : decimal) : Z := dec_mant d * 10 ^ dec_exp d.

(** [values.astype(str)] on one number, NaN as the empty string and the
    infinities as [inf] and [-inf]. *)
Definition num_cell (dt : num_dtype) (o : option num) : list ascii :=
  match o with
  | None => []
  | Some (Inf neg) => String.list_ascii_of_string (if neg then "-inf" else "inf")
  | Some (Fin d) =>
      match dt with
      | Float64 => float_repr d
      | Int64 => int_repr (dec_to_Z d)
      | Bool => String.list_ascii_of_string (if bool_decide (dec_mant d = 0) then "False" else "True")
      end
  end.

(** ** Records *)

Definition needs_quotes (cs : list ascii) : bool :=
  existsb (fun c => bool_decide (c ∈ [comma; quote; newline; carriage_return])) cs.

Definition double_quotes (cs : list ascii) : list ascii :=
  mjoin ((fun c => if bool_decide (c = quote) then [quote; quote] else [c]) <$> cs).

(** [QUOTE_MINIMAL] with [doublequote=True]. *)
Definition csv_field (cs : list ascii) : list ascii :=
  if needs_quotes cs then quote :: double_quotes cs ++ [quote] else cs.

Fixpoint join_fields (fs : list (list ascii)) : list ascii :=
  match fs with
  | [] => []
  | [f] => f
  | f :: fs' => f ++ comma :: join_fields fs'
  end.

(** [writer.writerow(fields)]. *)
Definition csv_record (fields : list (list ascii)) : list ascii :=
  if bool_decide (fields = [[]]) then [quote; quote; newline]
  else join_fields (csv_field <$> fields) ++ [newline].

Definition row_fields (donly : bool) (dts : num_dtype * num_dtype) (r : row) : list (list ascii) :=
  [time_cell donly (time r); num_cell dts.1 (temperature_2m r);
   num_cell dts.2 (relative_humidity_2m r)].

(** ** Chunks and the file *)

(** [df.iloc[s:e]]. *)
Definition slice {A} (s e : nat) (l : list A) : list A := take (e - s) (drop s l).

(** [_save_chunk(start_i, end_i)]. *)
Definition save_chunk (df : frame) (s e : nat) : list ascii :=
  let rs := slice s e (rows df) in
  let donly := dates_only (time <$> rs) in
  mjoin ((fun r => csv_record (row_fields donly (dtypes df) r)) <$> rs).

(** [_initialize_chunksize(None)]: [(100000 // (len(cols) or 1)) or 1]. *)
Definition chunksize (ncols : nat) : nat :=
  let k := 100000 / Z.of_nat (if bool_decide (ncols = 0%nat) then 1%nat else ncols) in
  if bool_decide (k = 0) then 1%nat else Z.to_nat k.

(** The loop of [_save_body] over [range(nrows // k + 1)]: chunk [i] covers
    rows [i * k] to [min(i * k + k, nrows)], and the loop stops at the
    first empty chunk. *)
Fixpoint body_slices (k nrows : nat) (ids : list nat) : list (nat * nat) :=
  match ids with
  | [] => []
  | i :: ids' =>
      let s := (i * k)%nat in
      let e := Nat.min (s + k) nrows in
      if bool_decide (s < e)%nat then (s, e) :: body_slices k nrows ids' else []
  end.

Definition save_body (df : frame) : list ascii :=
  let k := chunksize (length (columns df)) in
  let n := length (rows df) in
  mjoin ((fun '(s, e) => save_chunk df s e) <$> body_slices k n (seq 0 (n / k + 1))).

(** [df.to_csv(path, index=False)]: the header, then the body. *)
Definition to_csv (df : frame) : string :=
  String.string_of_list_ascii
    (csv_record (String.list_ascii_of_string <$> columns df) ++ save_body df).

(** ** Reading the file back *)

Fixpoint split_on (sep : ascii) (cs : list ascii) : list (list ascii) :=
  match cs with
  | [] => [[]]
  | c :: cs' =>
      if bool_decide (c = sep) then [] :: split_on sep cs'
      else match split_on sep cs' with
           | [] => [[c]]
           | w :: ws => (c :: w) :: ws
           end
  end.

(** The lines of a text that ends with a line break. *)
Definition csv_lines (cs : list ascii) : option (list (list ascii)) :=
  let ps := split_on newline cs in
  if bool_decide (last ps = Some []) then Some (removelast ps) else None.

Definition read_time (cs : list ascii) : option (option timestamp) :=
  match cs with
  | [] => Some None
  | _ => (fun ft => Some ft.2) <$> first_parse iso_formats (String.string_of_list_ascii cs)
  end.

Definition read_num (cs : list ascii) : option (option num) :=
  if bool_decide (cs = []) then Some None
  else if bool_decide (cs = String.list_ascii_of_string "True") then Some (Some (Fin (Dec 1 0)))
  else if bool_decide (cs = String.list_ascii_of_string "False") then Some (Some (Fin (Dec 0 0)))
  else if bool_decide (cs = String.list_ascii_of_string "inf") then Some (Some (Inf false))
  else if bool_decide (cs = String.list_ascii_of_string "-inf") then Some (Some (Inf true))
  else (fun d => Some (Fin (dec_norm d))) <$> parse_number (String.string_of_list_ascii cs).

Definition read_row (line : list ascii) : option row :=
  match split_on comma line with
  | [a; b; c] => t ← read_time a; x ← read_num b; y ← read_num c; Some (Row t x y)
  | _ => None
  end.

Definition read_csv (s : string) : option (list string * list row) :=
  ls ← csv_lines (String.list_ascii_of_string s);
  match ls with
  | [] => None
  | h :: body =>
      rs ← mapM read_row body;
      Some (String.string_of_list_ascii <$> split_on comma h, rs)
  end.

(** A number as it reads back: a finite one as a normal decimal. *)
Definition num_norm (x : num) : num :=
  match x with Fin d => Fin (dec_norm d) | Inf neg => Inf neg end.

(** A row as it reads back: its numbers as normal decimals. *)
Definition row_norm (r : row) : row :=
  Row (time r) (num_norm <$> temperature_2m r) (num_norm <$> relative_humidity_2m r).

(** The line of row [r] without its line break, and the chunk row [i]
    is written with. *)
Definition record_line (donly : bool) (dts : num_dtype * num_dtype) (r : row) : list ascii :=
  join_fields (row_fields donly dts r).

Definition chunk_of (df : frame) (i : nat) : list row :=
  let k := chunksize (length (columns df)) in
  let s := (i / k * k)%nat in
  slice s (Nat.min (s + k) (length (rows df))) (rows df).

Definition header_line : list ascii :=
  String.list_ascii_of_string "time,temperature_2m,relative_humidity_2m".

(** ** Lemmas: the characters of the cells *)

(** The characters of a printed number. *)
Definition num_char (c : ascii) : bool :=
  is_digit c || bool_decide (c ∈ ["-"; "+"; "."; "e"]%char).

(** A character [QUOTE_MINIMAL] leaves alone. *)
Definition plain_char (c : ascii) : bool :=
  bool_decide (c ∉ [comma; quote; newline; carriage_return]).

Lemma is_digit_digit_char d : 0 <= d <= 9 -> is_digit (digit_char d) = true.
Proof. intros Hd. unfold is_digit. rewrite digit_value_digit_char by done. done. Qed.

Lemma num_char_plain c : num_char c = true -> plain_char c = true /\ is_space c = false.
Proof.
  unfold num_char. intros [Hd%is_digit_cases|Hc]%orb_true_iff.
  - destruct_or! Hd; subst; split; reflexivity.
  - apply bool_decide_eq_true in Hc. repeat (apply elem_of_cons in Hc as [->|Hc]; [split; reflexivity|]).
    by apply elem_of_nil in Hc.
Qed.


Lemma all_digits_num ds : all_digits ds -> Forall (fun c => num_char c = true) ds.
Proof. intros H. eapply Forall_impl; [exact H|]. intros c Hc. unfold num_char. by rewrite Hc. Qed.


Lemma num_text_chars neg ip fp ex :
  all_digits ip -> all_digits fp -> exp_ok ex -> Forall (fun c => num_char c = true) (num_text neg ip fp ex).
Proof.
  intros Hip Hfp Hex. unfold num_text.
  repeat apply Forall_app_2; [by destruct neg; repeat constructor|by apply all_digits_num| |].
  - destruct fp; [constructor|]. constructor; [done|]. by apply all_digits_num.
  - destruct ex as [[eneg eds]|]; [|constructor]. destruct Hex as [_ Hd].
    repeat constructor; [by destruct eneg|by apply all_digits_num].
Qed.

Lemma int_repr_chars z : Forall (fun c => num_char c = true) (int_repr z).
Proof.
  rewrite int_repr_text. apply num_text_chars; [|constructor|done].
  apply (z_digits_spec (Z.abs z)). lia.
Qed.

Lemma float_repr_chars d : Forall (fun c => num_char c = true) (float_repr d).
Proof.
  destruct (dec_norm_shape d) as [[_ Hz]|(_ & Hm10 & _)].
  - unfold float_repr. rewrite Hz. by repeat constructor.
  - assert (Hm0 : dec_mant (dec_norm d) <> 0) by (intros H; rewrite H in Hm10; done).
    destruct (float_repr_text d Hm0) as (ip & fp & ex & j & -> & [Hip _] & Hfp & Hex & _).
    by apply num_text_chars.
Qed.

Lemma pad_digits_digits w n : all_digits (pad_digits w n).
Proof.
  revert n. induction w as [|w IH]; intros n; cbn [pad_digits]; [constructor|].
  apply Forall_app_2; [apply IH|]. constructor; [|constructor].
  apply is_digit_digit_char. pose proof (Z.mod_pos_bound n 10). lia.
Qed.

Lemma num_chars_plain cs :
  Forall (fun c => num_char c = true) cs -> Forall (fun c => plain_char c = true) cs.
Proof. intros H. eapply Forall_impl; [exact H|]. intros c Hc. by apply num_char_plain. Qed.

Lemma pad_digits_plain w n : Forall (fun c => plain_char c = true) (pad_digits w n).
Proof. apply num_chars_plain, all_digits_num, pad_digits_digits. Qed.

Lemma time_cell_plain b o : Forall (fun c => plain_char c = true) (time_cell b o).
Proof.
  destruct o as [t|]; [|constructor]. unfold time_cell. destruct b; unfold date_text, datetime_text;
    repeat first [apply pad_digits_plain | apply num_chars_plain, int_repr_chars |
                  apply Forall_app_2 | apply Forall_cons_2 | reflexivity].
Qed.

Lemma num_cell_plain dt o : Forall (fun c => plain_char c = true) (num_cell dt o).
Proof.
  destruct o as [[d|[]]|]; [|by repeat constructor..|constructor]. destruct dt; cbn.
  - apply num_chars_plain, int_repr_chars.
  - apply num_chars_plain, float_repr_chars.
  - case_bool_decide; by repeat constructor.
Qed.

Lemma plain_not_elem sep cs :
  sep ∈ [comma; quote; newline; carriage_return] -> Forall (fun c => plain_char c = true) cs -> sep ∉ cs.
Proof.
  intros Hs Hcs Hin. rewrite Forall_forall in Hcs. specialize (Hcs sep Hin).
  unfold plain_char in Hcs. by apply bool_decide_eq_true in Hcs.
Qed.

Lemma csv_field_plain cs : Forall (fun c => plain_char c = true) cs -> csv_field cs = cs.
Proof.
  intros H. unfold csv_field. replace (needs_quotes cs) with false; [done|].
  symmetry. apply not_true_iff_false. unfold needs_quotes. rewrite existsb_exists.
  intros (c & Hin%list_elem_of_In & Hc). rewrite Forall_forall in H. specialize (H c Hin).
  unfold plain_char in H. apply bool_decide_eq_true in H, Hc. done.
Qed.

(** ** Lemmas: splitting lines and fields *)

Lemma split_on_no_sep sep cs : sep ∉ cs -> split_on sep cs = [cs].
Proof.
  induction cs as [|c cs IH]; intros Hs; cbn; [done|].
  rewrite bool_decide_false by set_solver. rewrite IH by set_solver. done.
Qed.

Lemma split_on_app sep a r : sep ∉ a -> split_on sep (a ++ sep :: r) = a :: split_on sep r.
Proof.
  induction a as [|c a IH]; intros Hs; cbn; [by rewrite bool_decide_true|].
  rewrite bool_decide_false by set_solver. rewrite IH by set_solver. done.
Qed.

Lemma split_on_lines sep (ls : list (list ascii)) :
  Forall (fun l => sep ∉ l) ls -> split_on sep (mjoin ((fun l => l ++ [sep]) <$> ls)) = ls ++ [[]].
Proof.
  induction 1 as [|l ls Hl _ IH]; [done|]. rewrite fmap_cons.
  change (mjoin ((l ++ [sep]) :: ?t)) with ((l ++ [sep]) ++ mjoin t).
  rewrite <- app_assoc. cbn [app]. rewrite split_on_app by done. by rewrite IH.
Qed.

(** A row's record is its three cells between commas, and a line break. *)
Lemma csv_record_row b dts r : csv_record (row_fields b dts r) = record_line b dts r ++ [newline].
Proof.
  unfold csv_record, record_line, row_fields. rewrite bool_decide_false by done.
  cbn [fmap list_fmap]. rewrite !csv_field_plain by (apply time_cell_plain || apply num_cell_plain).
  done.
Qed.

Lemma split_record_line b dts r :
  split_on comma (record_line b dts r) =
  [time_cell b (time r); num_cell dts.1 (temperature_2m r); num_cell dts.2 (relative_humidity_2m r)].
Proof.
  unfold record_line, row_fields. cbn [join_fields].
  rewrite !split_on_app, split_on_no_sep; try done;
    apply plain_not_elem; try (apply time_cell_plain || apply num_cell_plain); set_solver.
Qed.

Lemma plain_no_newline cs : Forall (fun c => plain_char c = true) cs -> Forall (fun c => c <> newline) cs.
Proof.
  intros H. eapply Forall_impl; [exact H|]. intros c Hc ->. revert Hc. by vm_compute.
Qed.

Lemma record_line_no_newline b dts r : newline ∉ record_line b dts r.
Proof.
  assert (H : Forall (fun c => c <> newline) (record_line b dts r)).
  { unfold record_line, row_fields. cbn [join_fields].
    repeat first [apply plain_no_newline, time_cell_plain | apply plain_no_newline, num_cell_plain |
                  apply Forall_app_2 | apply Forall_cons_2 | done]. }
  intros Hin. rewrite Forall_forall in H. exact (H _ Hin eq_refl).
Qed.


(** ** Lemmas: the chunks *)

Lemma chunksize_pos n : (0 < chunksize n)%nat.
Proof.
  unfold chunksize. case_bool_decide as H; [lia|].
  assert (0 <= 100000 / Z.of_nat (if bool_decide (n = 0%nat) then 1%nat else n)).
  { apply Z.div_pos; [lia|]. case_bool_decide; lia. }
  lia.
Qed.

Section Chunks.
Local Open Scope nat_scope.

(** A slice that starts inside the list is its next [k] rows. *)
Lemma slice_chunk {A} (l : list A) k s :
  (s < length l)%nat -> slice s (Nat.min (s + k) (length l)) l = take k (drop s l).
Proof.
  intros Hs. unfold slice. destruct (decide (s + k <= length l)%nat).
  - f_equal. lia.
  - rewrite !take_ge by (rewrite length_drop; lia). done.
Qed.

(** Inside chunk [j], every row has the chunk's flag. *)
Lemma fmap_pair_imap {A} (k j : nat) (g : nat -> bool) (l : list A) :
  (0 < k)%nat -> (length l <= k)%nat ->
  pair (g (j * k)) <$> l = imap (fun i x => (g ((j * k + i) / k * k), x)) l.
Proof.
  intros Hk Hl. apply list_eq. intros i. rewrite list_lookup_fmap, list_lookup_imap.
  destruct (l !! i) as [x|] eqn:E; [|done]. apply lookup_lt_Some in E. cbn.
  replace ((j * k + i) / k) with j; [done|]. rewrite Nat.div_add_l, Nat.div_small by lia. lia.
Qed.

(** The chunks of [_save_body] from chunk [j] on cover the rows from
    [j * k] on, in order, each row with the flag of its chunk. *)
Lemma body_slices_flagged {A} (k : nat) (l : list A) (f : nat -> nat -> bool) j m :
  (0 < k)%nat -> (length l <= (j + m) * k)%nat ->
  mjoin ((fun '(s, e) => pair (f s e) <$> slice s e l) <$> body_slices k (length l) (seq j m)) =
  imap (fun i x => (f ((j * k + i) / k * k) (Nat.min ((j * k + i) / k * k + k) (length l)), x))
       (drop (j * k) l).
Proof.
  intros Hk. revert j. induction m as [|m IH]; intros j Hn.
  - cbn. rewrite drop_ge by lia. done.
  - cbn [seq body_slices]. case_bool_decide as Hs.
    + rewrite fmap_cons. change (mjoin (?a :: ?t)) with (a ++ mjoin t).
      rewrite IH by (replace (S j + m)%nat with (j + S m)%nat by lia; done).
      rewrite <- (take_drop k (drop (j * k) l)). rewrite imap_app.
      rewrite slice_chunk by lia. f_equal.
      * apply (fmap_pair_imap k j (fun s => f s (Nat.min (s + k) (length l)))); [done|].
        rewrite length_take. lia.
      * rewrite drop_drop. replace (j * k + k)%nat with (S j * k)%nat by lia.
        destruct (decide (S j * k <= length l)%nat).
        -- rewrite length_take_le by (rewrite length_drop; lia).
           apply imap_ext. intros i x _. by replace (j * k + (k + i))%nat with (S j * k + i)%nat by lia.
        -- by rewrite drop_ge by lia.
    + cbn. rewrite drop_ge by lia. done.
Qed.

Lemma mjoin_fmap_mjoin {A B C} (h : B -> list C) (L : A -> list B) (xs : list A) :
  mjoin ((fun x => mjoin (h <$> L x)) <$> xs) = mjoin (h <$> mjoin (L <$> xs)).
Proof.
  induction xs as [|x xs IH]; [done|]. rewrite !fmap_cons.
  change (mjoin (?a :: ?t)) with (a ++ mjoin t). by rewrite fmap_app, join_app, IH.
Qed.
End Chunks.

(** [_save_body] writes the rows in order, row [i] with the date-only flag
    of its chunk. *)
Lemma save_body_flagged df :
  save_body df =
  mjoin ((fun br => csv_record (row_fields br.1 (dtypes df) br.2)) <$>
         imap (fun i r => (dates_only (time <$> chunk_of df i), r)) (rows df)).
Proof.
  unfold save_body, save_chunk, chunk_of.
  set (k := chunksize (length (columns df))). pose proof (chunksize_pos (length (columns df))) as Hk.
  set (l := rows df).
  set (flag := fun s e => dates_only (time <$> slice s e l)).
  transitivity (mjoin ((fun se => mjoin ((fun br => csv_record (row_fields br.1 (dtypes df) br.2)) <$>
                        ((fun '(s, e) => pair (flag s e) <$> slice s e l) se)))
                       <$> body_slices k (length l) (seq 0 (length l / k + 1)))).
  { f_equal. apply list_fmap_ext. intros _ [s e] _. cbn. f_equal.
    rewrite <- list_fmap_compose. done. }
  rewrite mjoin_fmap_mjoin.
  rewrite (body_slices_flagged k l flag 0 (length l / k + 1)); [|done|].
  - rewrite drop_0. reflexivity.
  - pose proof (Nat.div_mod (length l) k ltac:(lia)). pose proof (Nat.mod_upper_bound (length l) k ltac:(lia)).
    cbn [Nat.add]. nia.
Qed.

Lemma header_weather :
  csv_record (String.list_ascii_of_string <$> weather_columns) = header_line ++ [newline].
Proof. reflexivity. Qed.

(** The file is the header line and one line per row, each ending with a
    line break. *)
Lemma to_csv_lines_gen df :
  columns df = weather_columns ->
  csv_lines (String.list_ascii_of_string (to_csv df)) =
  Some (header_line ::
        imap (fun i r => record_line (dates_only (time <$> chunk_of df i)) (dtypes df) r) (rows df)).
Proof.
  intros Hcols. unfold to_csv. rewrite String.list_ascii_of_string_of_list_ascii.
  rewrite save_body_flagged. rewrite Hcols at 1. rewrite header_weather.
  set (lines := imap (fun i r => record_line (dates_only (time <$> chunk_of df i)) (dtypes df) r) (rows df)).
  assert (Hb : (fun br => csv_record (row_fields br.1 (dtypes df) br.2)) <$>
               imap (fun i r => (dates_only (time <$> chunk_of df i), r)) (rows df) =
               (fun l => l ++ [newline]) <$> lines).
  { unfold lines. rewrite !fmap_imap. apply imap_ext. intros i r _. cbn. apply csv_record_row. }
  rewrite Hb, <- app_assoc. cbn [app]. unfold csv_lines.
  rewrite split_on_app by (vm_compute; intros H; repeat (apply elem_of_cons in H as [H|H]; [done|]);
                           by apply elem_of_nil in H).
  rewrite split_on_lines.
  - rewrite app_comm_cons, last_snoc, bool_decide_true by done. by rewrite removelast_last.
  - apply Forall_forall. intros l (i & Hi)%list_elem_of_lookup.
    unfold lines in Hi. apply list_lookup_imap_Some in Hi as (r & _ & ->). apply record_line_no_newline.
Qed.


(** ** Lemmas: reading the cells back *)

Lemma drop_spaces_id cs : Forall (fun c => is_space c = false) cs -> drop_spaces cs = cs.
Proof. destruct 1 as [|c cs Hc _]; cbn; [done|]. by rewrite Hc. Qed.

Lemma strip_spaces_id cs : Forall (fun c => is_space c = false) cs -> strip_spaces cs = cs.
Proof.
  intros H. unfold strip_spaces. rewrite (drop_spaces_id cs H), drop_spaces_id; [apply reverse_involutive|].
  by apply Forall_reverse.
Qed.

(** [parse_number] reads a number text as its sign, digits and exponent. *)
Lemma parse_number_num_text neg ip fp ex :
  int_part_ok ip -> all_digits fp -> exp_ok ex ->
  parse_number (String.string_of_list_ascii (num_text neg ip fp ex)) =
  Some (Dec ((if neg then -1 else 1) * digits_to_Z (ip ++ fp))
            (from_option id 0 (exp_value ex) - Z.of_nat (length fp))).
Proof.
  intros Hip Hfp Hex. unfold parse_number. rewrite String.list_ascii_of_string_of_list_ascii.
  rewrite strip_spaces_id.
  2:{ eapply Forall_impl; [apply num_text_chars; [apply Hip|done|done]|]. intros c Hc. apply num_char_plain, Hc. }
  assert (Hnd : no_digit_head (frac_text fp ++ exp_text ex)).
  { pose proof (no_digit_head_text fp ex [] I) as H. by rewrite app_nil_r in H. }
  destruct Hip as [Hd (c & cs & Hipe & _)].
  assert (Hsign : read_sign (num_text neg ip fp ex) = (if neg then -1 else 1, ip ++ frac_text fp ++ exp_text ex)).
  { unfold num_text. destruct neg; [done|]. cbn [sign_text app]. rewrite Hipe. rewrite Hipe in Hd.
    inversion Hd as [|? ? Hc]; subst. apply is_digit_cases in Hc. destruct_or! Hc; subst; reflexivity. }
  rewrite Hsign. cbv iota beta. rewrite span_digits_app by done. cbv iota beta.
  assert (Hfrac : match frac_text fp ++ exp_text ex with
                  | "."%char :: r => span_digits r
                  | _ => ([], frac_text fp ++ exp_text ex)
                  end = (fp, exp_text ex)).
  { destruct fp as [|f fs].
    - destruct ex as [[eneg eds]|]; reflexivity.
    - cbn [frac_text app]. change (f :: fs ++ exp_text ex) with ((f :: fs) ++ exp_text ex).
      apply span_digits_app; [done|]. destruct ex as [[]|]; reflexivity. }
  rewrite Hfrac. cbv iota beta. rewrite bool_decide_false by (rewrite Hipe; naive_solver).
  destruct ex as [[eneg eds]|]; cbn [exp_text exp_value from_option id].
  - destruct Hex as [Hne Heds]. rewrite bool_decide_true by (left; done).
    assert (Hs : read_sign ((if eneg then "-"%char else "+"%char) :: eds) = (if eneg then -1 else 1, eds))
      by (by destruct eneg).
    rewrite Hs. cbv iota beta. rewrite <- (app_nil_r eds) at 1. rewrite span_digits_app by done.
    cbv iota beta. rewrite bool_decide_false by naive_solver. do 2 f_equal; lia.
  - do 2 f_equal; lia.
Qed.

Lemma parse_int_repr z : parse_number (String.string_of_list_ascii (int_repr z)) = Some (Dec z 0).
Proof.
  rewrite int_repr_text, parse_number_num_text by (done || (apply int_part_ok_z_digits; lia) || constructor).
  rewrite app_nil_r. destruct (z_digits_spec (Z.abs z)) as (_ & -> & _); [lia|].
  cbn [exp_value from_option id length]. destruct (Z.ltb_spec z 0); cbn; repeat f_equal; lia.
Qed.

(** The text of a float reads back as the float. *)
Lemma parse_float_repr d :
  exists D, parse_number (String.string_of_list_ascii (float_repr d)) = Some D /\ dec_norm D = dec_norm d.
Proof.
  destruct (dec_norm_shape d) as [[_ Hz]|(_ & Hm10 & _)].
  - exists (Dec 0 (-1)). rewrite Hz. split; [|reflexivity]. unfold float_repr. rewrite Hz. reflexivity.
  - assert (Hm0 : dec_mant (dec_norm d) <> 0) by (intros H; rewrite H in Hm10; done).
    destruct (float_repr_text d Hm0) as (ip & fp & ex & j & -> & Hip & Hfp & Hex & _ & Hdig & Hexp).
    rewrite parse_number_num_text by done. eexists. split; [reflexivity|]. rewrite Hdig.
    set (n := dec_norm d) in *. clearbody n. destruct n as [m e]. cbn [dec_mant dec_exp] in *.
    rewrite Z.mul_assoc.
    replace ((if m <? 0 then -1 else 1) * Z.abs m) with m by (destruct (Z.ltb_spec m 0); lia).
    rewrite dec_norm_scale by done. f_equal. lia.
Qed.

Lemma length_pad_digits w n : length (pad_digits w n) = w.
Proof. revert n. induction w as [|w IH]; intros n; cbn [pad_digits]; [done|]. rewrite length_app, IH. cbn. lia. Qed.

Lemma digits_to_Z_pad w n : digits_to_Z (pad_digits w n) = n mod 10 ^ Z.of_nat w.
Proof.
  revert n. induction w as [|w IH]; intros n; cbn [pad_digits].
  - cbn. by rewrite Z.mod_1_r.
  - rewrite digits_to_Z_app, IH. cbn [length]. change (10 ^ Z.of_nat 1) with 10.
    unfold digits_to_Z. cbn [fold_left].
    pose proof (Z.mod_pos_bound n 10). rewrite digit_value_digit_char by lia. cbn [from_option id].
    rewrite (Nat2Z.inj_succ w), Z.pow_succ_r by lia.
    rewrite Z.rem_mul_r by (try apply Z.pow_pos_nonneg; lia). lia.
Qed.

Lemma match_items_digits n x its r :
  0 <= x < 10 ^ Z.of_nat n ->
  match_items (FDigits n :: its) (pad_digits n x ++ r) = (fs ← match_items its r; Some (x :: fs)).
Proof.
  intros Hx. cbn [match_items].
  rewrite take_app_length' by (by rewrite length_pad_digits).
  rewrite drop_app_length' by (by rewrite length_pad_digits).
  rewrite bool_decide_true by apply length_pad_digits.
  rewrite (proj2 (forallb_Forall_true _ _) (pad_digits_digits n x)). cbn [andb].
  rewrite digits_to_Z_pad, Z.mod_small by done. done.
Qed.

Lemma match_items_lit c its r : match_items (FLit c :: its) (c :: r) = match_items its r.
Proof. cbn. by rewrite bool_decide_true. Qed.

Lemma match_items_lit_ne c c' its r : c <> c' -> match_items (FLit c :: its) (c' :: r) = None.
Proof. intros H. cbn. by rewrite bool_decide_false. Qed.

(** In the [datetime64[ns]] range, [str] of the year is its four digits. *)
Lemma int_repr_year y : 1677 <= y <= 2262 -> int_repr y = pad_digits 4 y.
Proof.
  intros Hy.
  assert (Hall : forallb (fun k => bool_decide (int_repr (1677 + Z.of_nat k) = pad_digits 4 (1677 + Z.of_nat k)))
                         (seq 0 586) = true) by (vm_compute; reflexivity).
  rewrite forallb_forall in Hall. specialize (Hall (Z.to_nat (y - 1677))).
  rewrite Z2Nat.id in Hall by lia. replace (1677 + (y - 1677)) with y in Hall by lia.
  apply (bool_decide_eq_true (int_repr y = pad_digits 4 y)), Hall, in_seq. lia.
Qed.

Lemma match_items_digits_nil n x its :
  0 <= x < 10 ^ Z.of_nat n ->
  match_items (FDigits n :: its) (pad_digits n x) = (fs ← match_items its []; Some (x :: fs)).
Proof. intros Hx. by rewrite <- (app_nil_r (pad_digits n x)), match_items_digits. Qed.

Lemma match_items_lit_nil c its : match_items (FLit c :: its) [] = None.
Proof. done. Qed.

Lemma in_ns_range_year t : in_ns_range t = true -> 1677 <= ts_year t <= 2262.
Proof.
  destruct t as [y mo d h mi s]. unfold in_ns_range, ts_le, ts_key. cbn [ts_year].
  intros H. apply andb_prop in H as [H1 H2].
  cbn [lex_le ts_ns_min ts_ns_max ts_year ts_month ts_day ts_hour ts_minute ts_second] in H1, H2.
  split; [destruct (Z.ltb_spec 1677 y), (Z.eqb_spec 1677 y)|destruct (Z.ltb_spec y 2262), (Z.eqb_spec y 2262)];
    try lia; cbn [orb andb] in *; congruence.
Qed.

Lemma days_in_month_le y m : days_in_month y m <= 31.
Proof. unfold days_in_month. repeat case_match; lia. Qed.

Lemma valid_ts_bounds t : valid_ts t = true ->
  1 <= ts_month t <= 12 /\ 1 <= ts_day t <= 31 /\ 0 <= ts_hour t <= 23 /\
  0 <= ts_minute t <= 59 /\ 0 <= ts_second t <= 59.
Proof.
  unfold valid_ts. rewrite !andb_true_iff, !Z.leb_le. pose proof (days_in_month_le (ts_year t) (ts_month t)).
  intros. lia.
Qed.

(** Run [match_items] over a printed time, one field at a time. *)
Ltac match_items_steps :=
  repeat first [ rewrite match_items_digits_nil by (simpl; lia)
               | rewrite match_items_digits by (simpl; lia)
               | rewrite match_items_lit_nil
               | rewrite match_items_lit
               | rewrite match_items_lit_ne by done ].

Lemma parse_datetime_text t :
  valid_ts t = true -> in_ns_range t = true ->
  first_parse iso_formats (String.string_of_list_ascii (datetime_text t)) = Some (FSecond " ", t).
Proof.
  intros Hv Hr. destruct (valid_ts_bounds t Hv) as (Hmo & Hd & Hh & Hmi & Hs).
  pose proof (in_ns_range_year t Hr) as Hy.
  unfold datetime_text. rewrite int_repr_year by done.
  cbn [first_parse iso_formats]. unfold parse_with. rewrite String.list_ascii_of_string_of_list_ascii.
  cbn [fmt_items date_items app]. match_items_steps. cbn.
  destruct t as [y mo d h mi s]. cbn in *. by rewrite Hv, Hr.
Qed.

Lemma parse_date_text t :
  valid_ts t = true -> in_ns_range t = true -> is_midnight t = true ->
  first_parse iso_formats (String.string_of_list_ascii (date_text t)) = Some (FDate, t).
Proof.
  intros Hv Hr Hm. destruct (valid_ts_bounds t Hv) as (Hmo & Hd & _).
  pose proof (in_ns_range_year t Hr) as Hy.
  destruct t as [y mo d h mi s]. unfold is_midnight in Hm. cbn [ts_hour ts_minute ts_second] in Hm.
  rewrite !andb_true_iff, !Z.eqb_eq in Hm. destruct Hm as [[-> ->] ->].
  unfold date_text. cbn [first_parse iso_formats]. unfold parse_with.
  rewrite String.list_ascii_of_string_of_list_ascii.
  unfold fmt_items, date_items. cbn [app ts_year ts_month ts_day] in *. match_items_steps.
  cbn -[valid_ts in_ns_range]. by rewrite Hv, Hr.
Qed.

Lemma read_time_some cs : cs <> [] ->
  read_time cs = (fun ft => Some ft.2) <$> first_parse iso_formats (String.string_of_list_ascii cs).
Proof. by destruct cs. Qed.

(** A time cell reads back as the time, provided a date-only cell is at
    midnight. *)
Lemma read_time_cell b o :
  time_fits o = true -> (b = true -> match o with Some t => is_midnight t = true | None => True end) ->
  read_time (time_cell b o) = Some o.
Proof.
  destruct o as [t|]; [|done]. cbn [time_fits]. intros [Hv Hr]%andb_prop Hb.
  unfold time_cell. destruct b.
  - rewrite read_time_some by (unfold date_text; intros [_ H]%app_eq_nil; discriminate).
    by rewrite parse_date_text by auto.
  - rewrite read_time_some by (unfold datetime_text; intros [_ H]%app_eq_nil; discriminate).
    by rewrite parse_datetime_text.
Qed.

Lemma num_chars_not_word cs :
  Forall (fun c => num_char c = true) cs ->
  cs <> String.list_ascii_of_string "True" /\ cs <> String.list_ascii_of_string "False" /\
  cs <> String.list_ascii_of_string "inf" /\ cs <> String.list_ascii_of_string "-inf".
Proof.
  rewrite Forall_forall. intros H.
  split_and!; intros ->;
    [assert (Hc : num_char "T"%char = true) | assert (Hc : num_char "F"%char = true)
    | assert (Hc : num_char "i"%char = true) | assert (Hc : num_char "i"%char = true)];
    try (apply H; repeat constructor); discriminate Hc.
Qed.

Lemma read_num_number cs D :
  Forall (fun c => num_char c = true) cs -> parse_number (String.string_of_list_ascii cs) = Some D ->
  read_num cs = Some (Some (Fin (dec_norm D))).
Proof.
  intros Hc Hp. destruct (num_chars_not_word cs Hc) as (HT & HF & HI & HN). unfold read_num.
  rewrite bool_decide_false by (intros ->; vm_compute in Hp; discriminate).
  rewrite !bool_decide_false by done. by rewrite Hp.
Qed.

(** A number cell reads back as the number, normalised. *)
Lemma read_num_cell dt o : cell_fits dt o = true -> read_num (num_cell dt o) = Some (num_norm <$> o).
Proof.
  destruct o as [[d|[]]|]; [|destruct dt; done..|done].
  destruct dt; cbn [cell_fits num_cell]; intros H.
  - apply bool_decide_eq_true in H. destruct d as [m e]. cbn [dec_exp] in H. subst e.
    unfold dec_to_Z. cbn [dec_mant dec_exp]. rewrite Z.pow_0_r, Z.mul_1_r.
    by rewrite (read_num_number _ (Dec m 0)) by (apply int_repr_chars || apply parse_int_repr).
  - destruct (parse_float_repr d) as (D & HD & Hn).
    rewrite (read_num_number _ D) by (done || apply float_repr_chars). by rewrite Hn.
  - apply bool_decide_eq_true in H. by destruct H as [-> | ->].
Qed.

Lemma read_row_record b dts r :
  row_fits dts r = true -> (b = true -> match time r with Some t => is_midnight t = true | None => True end) ->
  read_row (record_line b dts r) = Some (row_norm r).
Proof.
  unfold row_fits. intros [[Ht H1]%andb_prop H2]%andb_prop Hb.
  unfold read_row. rewrite split_record_line, read_time_cell, !read_num_cell by done. done.
Qed.

Lemma mapM_imap {A B C} (f : B -> option C) (g : nat -> A -> B) (h : A -> C) (l : list A) :
  (forall i x, l !! i = Some x -> f (g i x) = Some (h x)) -> mapM f (imap g l) = Some (h <$> l).
Proof.
  intros H. apply mapM_Some, Forall2_lookup. intros i. rewrite list_lookup_imap, list_lookup_fmap.
  destruct (l !! i) eqn:E; constructor. by apply H.
Qed.

(** Row [i] lies in the chunk it is written with. *)
Lemma chunk_of_lookup df i r : rows df !! i = Some r -> r ∈ chunk_of df i.
Proof.
  intros Hi. pose proof (lookup_lt_Some _ _ _ Hi) as Hlt. unfold chunk_of, slice.
  pose proof (chunksize_pos (length (columns df))) as Hk.
  set (k := chunksize (length (columns df))) in *.
  pose proof (Nat.div_mod i k ltac:(lia)) as Hd. pose proof (Nat.mod_upper_bound i k ltac:(lia)).
  apply (list_elem_of_lookup_2 _ (i - i / k * k)%nat).
  rewrite lookup_take_lt, lookup_drop by lia. replace (i / k * k + (i - i / k * k))%nat with i by lia.
  done.
Qed.

Lemma chunk_dates_only df i r :
  rows df !! i = Some r -> dates_only (time <$> chunk_of df i) = true ->
  match time r with Some t => is_midnight t = true | None => True end.
Proof.
  intros Hi Hd. unfold dates_only in Hd. rewrite forallb_forall in Hd.
  specialize (Hd (time r)). destruct (time r) as [t|] eqn:Et; [|done]. apply Hd, list_elem_of_In.
  apply list_elem_of_fmap. exists r. split; [done|]. by apply chunk_of_lookup.
Qed.

(** ** Lemmas: reading the file back *)

(** The file of a well-formed frame reads back as its rows. *)
Lemma read_to_csv df :
  columns df = weather_columns -> frame_wf df = true ->
  read_csv (to_csv df) = Some (weather_columns, row_norm <$> rows df).
Proof.
  intros Hc Hwf. unfold read_csv. rewrite to_csv_lines_gen by done. cbn [mbind option_bind].
  rewrite (mapM_imap read_row _ row_norm); [reflexivity|].
  intros i r Hi. apply read_row_record; [|by apply (chunk_dates_only df i r Hi)].
  unfold frame_wf in Hwf. rewrite forallb_forall in Hwf. apply Hwf, list_elem_of_In.
  by eapply list_elem_of_lookup_2.
Qed.

(** Normalising the numbers does not change their text. *)
Lemma num_cell_norm dt o : cell_fits dt o = true -> num_cell dt (num_norm <$> o) = num_cell dt o.
Proof.
  destruct o as [[d|[]]|]; [|done..].
  destruct dt; cbn [cell_fits num_cell fmap option_fmap option_map num_norm]; intros H.
  - apply bool_decide_eq_true in H. f_equal. unfold dec_to_Z.
    destruct (dec_norm_shape d) as [[Hm ->]|(_ & _ & k & Hm & He)]; [by rewrite Hm|].
    rewrite Hm, He, H, Z.add_0_l. rewrite <- Z.mul_assoc, <- Z.pow_add_r by lia.
    by rewrite Z.add_0_r.
  - by rewrite float_repr_norm.
  - apply bool_decide_eq_true in H. by destruct H as [-> | ->].
Qed.

Lemma row_fields_norm b dts r : row_fits dts r = true -> row_fields b dts (row_norm r) = row_fields b dts r.
Proof.
  unfold row_fits. intros [[_ H1]%andb_prop H2]%andb_prop. unfold row_fields. cbn [row_norm time temperature_2m relative_humidity_2m].
  by rewrite !num_cell_norm.
Qed.

Lemma chunk_of_fmap cs dts (f : row -> row) rs i :
  chunk_of (Frame cs dts (f <$> rs)) i = f <$> chunk_of (Frame cs dts rs) i.
Proof. unfold chunk_of, slice. cbn [rows columns]. by rewrite length_fmap, <- fmap_drop, <- fmap_take. Qed.

(** Printing the rows read back gives the same text. *)
Lemma to_csv_norm df :
  frame_wf df = true -> to_csv (Frame (columns df) (dtypes df) (row_norm <$> rows df)) = to_csv df.
Proof.
  intros Hwf. unfold to_csv. f_equal. f_equal. rewrite !save_body_flagged. cbn [rows dtypes].
  rewrite imap_fmap. f_equal. rewrite !fmap_imap. apply imap_ext. intros i r Hi. cbn.
  rewrite chunk_of_fmap, <- list_fmap_compose. unfold compose. cbn [row_norm time].
  rewrite row_fields_norm; [by destruct df|].
  unfold frame_wf in Hwf. rewrite forallb_forall in Hwf. apply Hwf, list_elem_of_In.
  by eapply list_elem_of_lookup_2.
Qed.

(** ** Theorems *)

(** C16 (the rows of the file).  For a frame with the weather columns, the
    file [to_csv] writes has one line per row after the header, in order,
    and the line of row [i] is its three cells between commas, its time
    written as a date exactly when every time of its chunk of
    [chunksize 3 = 33333] rows is at midnight or NaT. *)
Theorem to_csv_rows df i r :
  columns df = weather_columns -> rows df !! i = Some r ->
  exists ls, csv_lines (String.list_ascii_of_string (to_csv df)) = Some ls /\
    length ls = S (length (rows df)) /\ ls !! 0%nat = Some header_line /\
    ls !! S i = Some (record_line (dates_only (time <$> chunk_of df i)) (dtypes df) r).
Proof.
  intros Hc Hi. eexists. split; [by apply to_csv_lines_gen|].
  split_and!; [by rewrite length_cons, length_imap|done|]. change ((_ :: ?l) !! S i) with (l !! i).
  by rewrite list_lookup_imap, Hi.
Qed.

(** C15 (the file reads back).  The rejected-rows file of a well-formed
    frame reads back as the frame: the column names, and every row with its
    time and its numbers (as normal decimals), in order; and the rows read
    back print to the same text. *)
Theorem to_csv_read df :
  columns df = weather_columns -> frame_wf df = true ->
  read_csv (to_csv df) = Some (weather_columns, row_norm <$> rows df) /\
  to_csv (Frame weather_columns (dtypes df) (row_norm <$> rows df)) = to_csv df.
Proof. intros Hc Hwf. split; [by apply read_to_csv|]. rewrite <- Hc. by apply to_csv_norm. Qed.

(** ** Examples *)

(** Rows with a float, an NaN, a negative integer and a small float that
    prints in scientific notation. *)
Definition csv_sample : frame :=
  Frame weather_columns (Float64, Int64)
    [Row (Some (TS 2024 1 1 0 0 0)) (Some (Fin (Dec 25 0))) (Some (Fin (Dec 150 0)));
     Row (Some (TS 2024 1 1 1 30 0)) None (Some (Fin (Dec (-3) 0)));
     Row None (Some (Fin (Dec 1 (-5)))) (Some (Fin (Dec 7 0)))].

(** Rows whose times are all at midnight: the time column is written as
    dates. *)
Definition csv_midnight : frame :=
  Frame weather_columns (Float64, Bool)
    [Row (Some (TS 2024 1 1 0 0 0)) (Some (Fin (Dec 12345 20))) (Some (Fin (Dec 1 0)));
     Row None (Some (Fin (Dec 0 3))) (Some (Fin (Dec 0 0)))].

Lemma to_csv_sample_text :
  to_csv csv_sample =
  String.string_of_list_ascii
    (String.list_ascii_of_string "time,temperature_2m,relative_humidity_2m" ++ [newline] ++
     String.list_ascii_of_string "2024-01-01 00:00:00,25.0,150" ++ [newline] ++
     String.list_ascii_of_string "2024-01-01 01:30:00,,-3" ++ [newline] ++
     String.list_ascii_of_string ",1e-05,7" ++ [newline]).
Proof. vm_compute. reflexivity. Qed.

Lemma to_csv_midnight_text :
  to_csv csv_midnight =
  String.string_of_list_ascii
    (String.list_ascii_of_string "time,temperature_2m,relative_humidity_2m" ++ [newline] ++
     String.list_ascii_of_string "2024-01-01,1.2345e+24,True" ++ [newline] ++
     String.list_ascii_of_string ",0.0,False" ++ [newline]).
Proof. vm_compute. reflexivity. Qed.

(** ** Witnesses *)

Lemma to_csv_rows_witness :
  exists ls, csv_lines (String.list_ascii_of_string (to_csv csv_midnight)) = Some ls /\
    length ls = S (length (rows csv_midnight)) /\ ls !! 0%nat = Some header_line /\
    ls !! 1%nat = Some (record_line (dates_only (time <$> chunk_of csv_midnight 0)) (dtypes csv_midnight)
                          (Row (Some (TS 2024 1 1 0 0 0)) (Some (Fin (Dec 12345 20))) (Some (Fin (Dec 1 0))))).
Proof. exact (to_csv_rows csv_midnight 0 _ eq_refl eq_refl). Defined.

Lemma to_csv_read_witness :
  columns csv_sample = weather_columns /\ frame_wf csv_sample = true /\
  (read_csv (to_csv csv_sample) = Some (weather_columns, row_norm <$> rows csv_sample) /\
   to_csv (Frame weather_columns (dtypes csv_sample) (row_norm <$> rows csv_sample)) = to_csv csv_sample).
Proof.
  assert (H : frame_wf csv_sample = true) by (vm_compute; reflexivity).
  split; [reflexivity|split; [exact H|exact (to_csv_read csv_sample eq_refl H)]].
Defined.
