(* ===== verification/Sinks.v ===== *)
(** * The sinks: [archive_raw_json], [save_rejected_csv], [load_to_sqlite]

    src/functions.py, lines 34-47 and 118-121.
    - [archive_raw_json] creates the archive directory, names the file after
      the UTC clock ([<dir>/<prefix>_<YYYYMMDD_HHMMSS>.json]), writes the
      [json.dump] text of the payload (JsonText.v) and logs the path.
    - [save_rejected_csv] creates the parent directory of the path
      ([os.makedirs(os.path.dirname(path))], which raises for a bare file
      name, whose directory name is empty) and writes the text [to_csv]
      makes of the frame (Csv.v).
    - [load_to_sqlite] opens the database file and replaces the table
      ([to_sql(if_exists="replace")]) by the frame's rows.
    The loader works through [TableStore], the interface of a store of
    named tables that are replaced whole; [gmap] implements it. *)

From Stdlib Require Import ZArith.
From stdpp Require Import base list gmap sets strings.
From S2P Require Import Prelude Json Numeric Timestamp JsonText Frame World Transform Csv.

(** ** The table store interface *)

Class TableStore (D : Type) := {
  ts_read : string -> D -> option table;
  ts_replace : string -> table -> D -> D;
  ts_read_replace_eq n t d : ts_read n (ts_replace n t d) = Some t;
  ts_read_replace_ne n n' t d : n <> n' -> ts_read n' (ts_replace n t d) = ts_read n' d;
  ts_replace_replace n t t' d : ts_replace n t (ts_replace n t' d) = ts_replace n t d }.

#[export] Program Instance gmap_table_store : TableStore (gmap string table) := {
  ts_read n d := d !! n;
  ts_replace n t d := <[n := t]> d }.
Next Obligation. intros. apply lookup_insert_eq. Qed.
Next Obligation. intros. by apply lookup_insert_ne. Qed.
Next Obligation. intros. apply insert_insert_eq. Qed.

(** ** The three sinks *)

(** Lines 34-41. *)
Definition archive_raw_json (data : json) (raw_dir prefix : string) : etl string :=
  makedirs raw_dir ;;;
  w <- sget ;;
  let ts := strftime_stamp (ts_of_epoch (w_clock w)) in
  let path := path_join raw_dir (prefix +:+ "_" +:+ ts +:+ ".json")%string in
  write_file path (FText (json_dump data)) ;;;
  log_info (MsgArchived path) ;;;
  sret path.

(** Lines 44-47. *)
Definition save_rejected_csv (df : frame) (path : string) : etl unit :=
  makedirs (dirname path) ;;;
  write_file path (FText (to_csv df)) ;;;
  log_info (MsgRejectedSaved path).

(** [create_engine("sqlite:///" + db_path)] and the connection [to_sql]
    opens: the tables of the file, a new empty database if there is none;
    SQLite cannot open a path whose directory is missing or a directory. *)
Definition sqlite_open (db_path : string) : etl (gmap string table) :=
  fun w =>
    let d := dirname db_path in
    if bool_decide (db_path ∈ w_dirs w) ||
       (negb (bool_decide (d = ""%string)) && negb (bool_decide (d ∈ w_dirs w)))
    then (Err (OperationalError "unable to open database file"), w)
    else (Ok (from_option id ∅ (w_dbs w !! db_path)), w).

(** Lines 118-121. *)
Definition load_to_sqlite (df : frame) (db_path table_name : string) : etl unit :=
  db <- sqlite_open db_path ;;
  smodify (fun w => set_dbs (<[db_path := ts_replace table_name
                                 (Table (columns df) (rows df)) db]> (w_dbs w)) w) ;;;
  log_info (MsgLoad (length (rows df)) table_name db_path).

(** The table [name] of the database file [db_path]. *)
Definition read_table (w : world) (db_path name : string) : option table :=
  w_dbs w !! db_path ≫= ts_read name.

(** ** Lemmas *)

Lemma makedirs_Ok p w u w' :
  makedirs p w = (Ok u, w') ->
  w' = set_dirs (list_to_set (path_ancestors p ++ [p]) ∪ w_dirs w) w.
Proof.
  unfold makedirs. repeat case_bool_decide; try discriminate.
  destruct (existsb _ _); congruence.
Qed.

Lemma write_file_Ok p c w u w' :
  write_file p c w = (Ok u, w') -> w' = set_files (<[p := c]> (w_files w)) w.
Proof.
  unfold write_file.
  destruct (bool_decide (p ∈ w_dirs w)), (bool_decide (dirname p ∈ dom (w_files w)));
    [congruence..|].
  destruct (negb _ && negb _); cbn; congruence.
Qed.

Lemma sqlite_open_Ok p w db w' :
  sqlite_open p w = (Ok db, w') -> w' = w /\ db = from_option id ∅ (w_dbs w !! p).
Proof. unfold sqlite_open. destruct (_ || _); intros H; by inversion H. Qed.

Lemma makedirs_Err p w e w' : makedirs p w = (Err e, w') -> w' = w.
Proof.
  unfold makedirs. repeat case_bool_decide; try congruence.
  destruct (existsb _ _); congruence.
Qed.

Lemma write_file_Err p c w e w' : write_file p c w = (Err e, w') -> w' = w.
Proof.
  unfold write_file.
  destruct (bool_decide (p ∈ w_dirs w)), (bool_decide (dirname p ∈ dom (w_files w)));
    [congruence..|].
  destruct (negb _ && negb _); cbn; congruence.
Qed.

Lemma open_append_Ok p w u w' :
  open_append p w = (Ok u, w') ->
  w' = set_files (<[p := from_option id (FText "") (w_files w !! p)]> (w_files w)) w.
Proof.
  unfold open_append.
  destruct (bool_decide (p ∈ w_dirs w)), (bool_decide (dirname p ∈ dom (w_files w)));
    [discriminate..|].
  destruct (negb _ && negb _); [discriminate|].
  destruct (w_files w !! p) as [c|] eqn:Hp; intros [= _ <-]; [|done].
  cbn. rewrite insert_id by done. by destruct w.
Qed.

Lemma open_append_cases p w r w' :
  open_append p w = (r, w') ->
  w' = w \/ (w_files w !! p = None /\ w' = set_files (<[p := FText ""]> (w_files w)) w).
Proof.
  unfold open_append.
  destruct (bool_decide (p ∈ w_dirs w)), (bool_decide (dirname p ∈ dom (w_files w)));
    [intros [= _ <-]; by left..|].
  destruct (negb _ && negb _); [intros [= _ <-]; by left|].
  destruct (w_files w !! p) eqn:Hp; intros [= _ <-]; [by left|by right].
Qed.

(** The rejected-rows file is the only file [save_rejected_csv] changes, and
    it leaves the databases alone. *)
Lemma save_rejected_csv_world df p w r w' :
  save_rejected_csv df p w = (r, w') ->
  w_dbs w' = w_dbs w /\ forall q, q <> p -> w_files w' !! q = w_files w !! q.
Proof.
  unfold save_rejected_csv, sbind, log_info, smodify.
  destruct (makedirs (dirname p) w) as [[[]|e] w1] eqn:Hmk;
    [apply makedirs_Ok in Hmk as ->|apply makedirs_Err in Hmk as ->; by intros [= _ <-]].
  destruct (write_file p _ _) as [[[]|e] w2] eqn:Hwr;
    [apply write_file_Ok in Hwr as ->|apply write_file_Err in Hwr as ->; by intros [= _ <-]].
  intros [= _ <-]. cbn. split; [done|]. intros q Hq. by rewrite lookup_insert_ne.
Qed.

(** A successful [archive_raw_json], step by step. *)
Lemma archive_raw_json_Ok data dir prefix w path w' :
  archive_raw_json data dir prefix w = (Ok path, w') ->
  exists w1,
    makedirs dir w = (Ok tt, w1) /\
    path = path_join dir (prefix +:+ "_" +:+ strftime_stamp (ts_of_epoch (w_clock w)) +:+ ".json")%string /\
    w' = add_log (Info (MsgArchived path)) (set_files (<[path := FText (json_dump data)]> (w_files w1)) w1).
Proof.
  unfold archive_raw_json, sbind, sget, sret, smodify, log_info.
  destruct (makedirs dir w) as [[[]|e] w1] eqn:Hmk; [|discriminate].
  pose proof (makedirs_Ok _ _ _ _ Hmk) as ->. cbn.
  destruct (write_file _ _ _) as [[[]|e] w2] eqn:Hwr; [|discriminate].
  apply write_file_Ok in Hwr as ->. intros [= <- <-]. eexists. done.
Qed.

Lemma load_to_sqlite_Ok df p t w w' :
  load_to_sqlite df p t w = (Ok tt, w') ->
  w' = add_log (Info (MsgLoad (length (rows df)) t p))
         (set_dbs (<[p := ts_replace t (Table (columns df) (rows df))
                            (from_option id ∅ (w_dbs w !! p))]> (w_dbs w)) w).
Proof.
  unfold load_to_sqlite, sbind, smodify, log_info.
  destruct (sqlite_open p w) as [[db|e] w1] eqn:Ho; [|discriminate].
  apply sqlite_open_Ok in Ho as [-> ->]. cbn. intros H. by inversion H.
Qed.

(** The loader changes no file, and no database when it fails. *)
Lemma load_to_sqlite_world df p t w r w' :
  load_to_sqlite df p t w = (r, w') ->
  w_files w' = w_files w /\ (r = Ok tt \/ w_dbs w' = w_dbs w).
Proof.
  destruct r as [[]|e]; [intros ->%load_to_sqlite_Ok; by split; [|left]|].
  unfold load_to_sqlite, sbind, sqlite_open.
  destruct (_ || _); [intros [= _ <-]; split; [done|by right]|].
  cbn. intros H. inversion H.
Qed.

(** The file an archive writes, and its name. *)
Lemma archive_raw_json_file data dir prefix w path w' :
  archive_raw_json data dir prefix w = (Ok path, w') ->
  path = path_join dir (prefix +:+ "_" +:+ strftime_stamp (ts_of_epoch (w_clock w)) +:+ ".json")%string /\
  w_files w' !! path = Some (FText (json_dump data)).
Proof.
  intros (w1 & Hmk & -> & ->)%archive_raw_json_Ok.
  apply makedirs_Ok in Hmk as ->. split; [done|apply lookup_insert_eq].
Qed.

(** The file a successful [save_rejected_csv] writes. *)
(** What a successful sink adds to the log. *)
Lemma archive_raw_json_log data dir prefix w path w' :
  archive_raw_json data dir prefix w = (Ok path, w') -> w_log w' = w_log w ++ [Info (MsgArchived path)].
Proof. by intros (w1 & ->%makedirs_Ok & _ & ->)%archive_raw_json_Ok. Qed.

Lemma save_rejected_csv_log df p w w' :
  save_rejected_csv df p w = (Ok tt, w') -> w_log w' = w_log w ++ [Info (MsgRejectedSaved p)].
Proof.
  unfold save_rejected_csv, sbind, log_info, smodify.
  destruct (makedirs (dirname p) w) as [[[]|e] w1] eqn:Hmk; [|by intros [=]].
  apply makedirs_Ok in Hmk as ->.
  destruct (write_file _ _ _) as [[[]|e] w2] eqn:Hw; [|by intros [=]].
  apply write_file_Ok in Hw as ->. by intros [= <-].
Qed.

Lemma load_to_sqlite_log df p t w w' :
  load_to_sqlite df p t w = (Ok tt, w') -> w_log w' = w_log w ++ [Info (MsgLoad (length (rows df)) t p)].
Proof. by intros ->%load_to_sqlite_Ok. Qed.

Lemma save_rejected_csv_file df p w w' :
  save_rejected_csv df p w = (Ok tt, w') -> w_files w' !! p = Some (FText (to_csv df)).
Proof.
  unfold save_rejected_csv, sbind, log_info, smodify.
  destruct (makedirs (dirname p) w) as [[[]|e] w1] eqn:Hmk; [|by intros [=]].
  destruct (write_file p _ _) as [[[]|e] w2] eqn:Hwr; [|by intros [=]].
  apply write_file_Ok in Hwr as ->. intros [= <-]. cbn. apply lookup_insert_eq.
Qed.

(** The table a load writes. *)
Lemma load_to_sqlite_table df p t w w' :
  load_to_sqlite df p t w = (Ok tt, w') ->
  read_table w' p t = Some (Table (columns df) (rows df)).
Proof.
  intros ->%load_to_sqlite_Ok. unfold read_table. cbn -[ts_read ts_replace].
  rewrite lookup_insert_eq. cbn -[ts_read ts_replace]. apply ts_read_replace_eq.
Qed.

(** ** Theorems *)

(** C22 (full replacement).  After a successful load the table holds
    exactly the frame's columns and rows, whatever it held before; the other
    tables of the file, the other database files and the files are
    untouched. *)
Theorem load_to_sqlite_replaces df p t w w' :
  load_to_sqlite df p t w = (Ok tt, w') ->
  read_table w' p t = Some (Table (columns df) (rows df)) /\
  (forall t', t' <> t -> read_table w' p t' = read_table w p t') /\
  (forall p', p' <> p -> w_dbs w' !! p' = w_dbs w !! p') /\
  w_files w' = w_files w.
Proof.
  intros H. split; [exact (load_to_sqlite_table _ _ _ _ _ H)|].
  apply load_to_sqlite_Ok in H as ->. unfold read_table. cbn -[ts_read ts_replace].
  split_and!.
  - intros t' Hne. rewrite lookup_insert_eq. cbn -[ts_read ts_replace].
    rewrite ts_read_replace_ne by congruence. by destruct (w_dbs w !! p).
  - intros p' Hne. by rewrite lookup_insert_ne.
  - done.
Qed.

(** Idempotence.  Loading the same frame again succeeds and leaves
    every database as the first load left it: the load replaces, it does
    not append. *)
Theorem load_to_sqlite_idempotent df p t w w1 :
  load_to_sqlite df p t w = (Ok tt, w1) ->
  exists w2, load_to_sqlite df p t w1 = (Ok tt, w2) /\ w_dbs w2 = w_dbs w1.
Proof.
  intros Hl. pose proof (load_to_sqlite_Ok _ _ _ _ _ Hl) as Hw1.
  unfold load_to_sqlite, sbind at 1 in Hl.
  destruct (sqlite_open p w) as [[db|e] w0] eqn:Ho; [|discriminate].
  assert (Ho1 : sqlite_open p w1 = (Ok (from_option id ∅ (w_dbs w1 !! p)), w1)).
  { revert Ho. unfold sqlite_open. subst w1. cbn. destruct (_ || _); congruence. }
  eexists. split.
  - unfold load_to_sqlite, sbind at 1. rewrite Ho1. reflexivity.
  - subst w1. cbn -[ts_read ts_replace]. rewrite lookup_insert_eq.
    cbn -[ts_read ts_replace]. by rewrite ts_replace_replace, insert_insert_eq.
Qed.

(** The archive.  A successful archive writes the [json.dump] text of the payload to
    [<dir>/<prefix>_<UTC stamp>.json] and changes no other file and no
    database. *)
Theorem archive_raw_json_writes data dir prefix w path w' :
  archive_raw_json data dir prefix w = (Ok path, w') ->
  path = path_join dir (prefix +:+ "_" +:+ strftime_stamp (ts_of_epoch (w_clock w)) +:+ ".json")%string /\
  w_files w' !! path = Some (FText (json_dump data)) /\
  (forall q, q <> path -> w_files w' !! q = w_files w !! q) /\
  w_dbs w' = w_dbs w.
Proof.
  intros H. pose proof (archive_raw_json_file _ _ _ _ _ _ H) as [Hp Hf].
  apply archive_raw_json_Ok in H as (w1 & Hmk & -> & ->).
  apply makedirs_Ok in Hmk as ->. cbn.
  split_and!; [done|done|intros q Hq; by apply lookup_insert_ne|done].
Qed.

(** C23 (archive names collide within a second).  Two archives written
    while the clock shows the same second get the same path: the second
    overwrites the first. *)
Theorem archive_raw_json_same_second data1 data2 dir prefix w w1 w2 path1 path2 :
  archive_raw_json data1 dir prefix w = (Ok path1, w1) ->
  archive_raw_json data2 dir prefix w1 = (Ok path2, w2) ->
  path2 = path1 /\ w_files w2 !! path1 = Some (FText (json_dump data2)).
Proof.
  intros H1 H2.
  pose proof (archive_raw_json_file _ _ _ _ _ _ H2) as (-> & Hf).
  apply archive_raw_json_Ok in H1 as (w0 & Hmk & -> & ->).
  apply makedirs_Ok in Hmk as ->. done.
Qed.

(** C24 (bare file name).  For a rejected-rows path without a directory,
    [os.path.dirname] is empty and [os.makedirs] of the empty path raises
    [FileNotFoundError] before anything is written. *)
Theorem save_rejected_csv_bare_name df path w :
  dirname path = ""%string ->
  save_rejected_csv df path w = (Err (FileNotFoundError ""), w).
Proof. intros Hd. unfold save_rejected_csv, sbind, makedirs. by rewrite Hd. Qed.

(** ** Witnesses *)

Lemma load_to_sqlite_replaces_witness :
  let w := start_world (fun _ => NetFailure ReadTimeout) 0 in
  let df := Frame ["time"]%string (Float64, Float64) [Row None None None] in
  let w' := snd (load_to_sqlite df "etl_demo.db" "weather_hourly" w) in
  read_table w' "etl_demo.db" "weather_hourly" = Some (Table (columns df) (rows df)) /\
  (forall t', t' <> "weather_hourly"%string ->
     read_table w' "etl_demo.db" t' = read_table w "etl_demo.db" t') /\
  (forall p', p' <> "etl_demo.db"%string -> w_dbs w' !! p' = w_dbs w !! p') /\
  w_files w' = w_files w.
Proof. intros w df w'. apply load_to_sqlite_replaces. reflexivity. Defined.

Lemma load_to_sqlite_idempotent_witness :
  let w := start_world (fun _ => NetFailure ReadTimeout) 0 in
  let df := Frame ["time"]%string (Float64, Float64) [Row None None None] in
  let w1 := snd (load_to_sqlite df "etl_demo.db" "weather_hourly" w) in
  exists w2, load_to_sqlite df "etl_demo.db" "weather_hourly" w1 = (Ok tt, w2) /\
             w_dbs w2 = w_dbs w1.
Proof. intros w df w1. apply (load_to_sqlite_idempotent df _ _ w). reflexivity. Defined.

Lemma archive_raw_json_writes_witness :
  let w := start_world (fun _ => NetFailure ReadTimeout) 1704067200 in
  let r := archive_raw_json JNull "data/raw" "weather_raw" w in
  "data/raw/weather_raw_20240101_000000.json"%string =
    path_join "data/raw" ("weather_raw" +:+ "_" +:+ strftime_stamp (ts_of_epoch (w_clock w)) +:+ ".json")%string /\
  w_files (snd r) !! "data/raw/weather_raw_20240101_000000.json"%string = Some (FText (json_dump JNull)) /\
  (forall q, q <> "data/raw/weather_raw_20240101_000000.json"%string ->
     w_files (snd r) !! q = w_files w !! q) /\
  w_dbs (snd r) = w_dbs w.
Proof. intros w r. apply archive_raw_json_writes. reflexivity. Defined.

Lemma archive_raw_json_same_second_witness :
  let w := start_world (fun _ => NetFailure ReadTimeout) 1704067200 in
  let w1 := snd (archive_raw_json (JInt 1) "data/raw" "weather_raw" w) in
  "data/raw/weather_raw_20240101_000000.json"%string =
    "data/raw/weather_raw_20240101_000000.json"%string /\
  w_files (snd (archive_raw_json (JInt 2) "data/raw" "weather_raw" w1))
    !! "data/raw/weather_raw_20240101_000000.json"%string = Some (FText (json_dump (JInt 2))).
Proof.
  intros w w1.
  apply (archive_raw_json_same_second (JInt 1) (JInt 2) "data/raw" "weather_raw" w w1
           (snd (archive_raw_json (JInt 2) "data/raw" "weather_raw" w1))
           "data/raw/weather_raw_20240101_000000.json" "data/raw/weather_raw_20240101_000000.json");
    reflexivity.
Defined.

Lemma save_rejected_csv_bare_name_witness :
  save_rejected_csv (Frame [] (Float64, Float64) []) "rejected_rows.csv" (start_world (fun _ => NetFailure ReadTimeout) 0)
  = (Err (FileNotFoundError ""), start_world (fun _ => NetFailure ReadTimeout) 0).
Proof. apply save_rejected_csv_bare_name. reflexivity. Defined.
