(* ===== verification/Dotenv.v ===== *)
(** * [load_dotenv()]: the configuration file [.env] and the environment

    src/etl.py, line 17: [main] first calls python-dotenv's [load_dotenv()]
    with its defaults ([override=False], [interpolate=True]), which reads
    the bindings of a [.env] file into [os.environ]; the [os.getenv] calls
    of lines 20-24 (Pipeline.v) then see the result.  python-dotenv is a
    library, not code of this repository: its two steps are modelled from
    its documented behaviour.
    - [DotEnv.dict()] collects the parsed bindings, in file order, into an
      OrderedDict ([new_values[name] = result] in [resolve_variables]): a
      repeated key keeps its first place and takes its last value.  The
      OrderedDict is an association list ([od_setitem], [dotenv_dict]),
      and [od_refines] relates it to the map it stands for, as an
      association list is abstracted by a [gmap].
    - [set_as_environment_variables] walks that dict: a key already in
      [os.environ] is skipped unless [override], and a key bound to no
      value (a line [KEY] without [=]) is not set.
    The parsing of the file's text (quotes, escapes, [export], comments,
    [${VAR}] interpolation) and the search for the file from the script's
    directory upwards are not modelled: a binding is a key with the value
    the parser and the interpolation give it, [None] for a bare key.

    [getenv_load_dotenv] is the contract [main] relies on: a variable of
    the process environment wins over the file, and otherwise the file's
    last binding of the key decides; [os.getenv] is here since it reads
    the environment [load_dotenv()] leaves. *)

From stdpp Require Import base list gmap strings.
From S2P Require Import Prelude.

(** ** The OrderedDict of the bindings *)

(** A parsed line of [.env]: [KEY=VALUE] gives [(KEY, Some VALUE)], a bare
    [KEY] gives [(KEY, None)]. *)
Definition binding : Type := string * option string.

Section OrderedDict.
Context {A : Type}.
Implicit Types (d : list (string * A)) (k : string) (v : A).

(** [d[k] = v] on an OrderedDict: an existing key keeps its place and takes
    the new value; a new key goes last. *)
Fixpoint od_setitem k v d : list (string * A) :=
  match d with
  | [] => [(k, v)]
  | (k', v') :: d' => if bool_decide (k' = k) then (k, v) :: d' else (k', v') :: od_setitem k v d'
  end.

(** [d.get(k)]: the value of the first entry with that key. *)
Definition od_lookup k d : option A :=
  snd <$> List.find (fun p => bool_decide (p.1 = k)) d.

(** An association list without repeated keys stands for the map [m]. *)
Definition od_refines d (m : gmap string A) : Prop :=
  NoDup (fst <$> d) /\ forall k, od_lookup k d = m !! k.

Lemma od_lookup_cons k k' v d :
  od_lookup k ((k', v) :: d) = if bool_decide (k' = k) then Some v else od_lookup k d.
Proof. unfold od_lookup. cbn. by case_bool_decide. Qed.

Lemma od_lookup_not_in k d : k ∉ fst <$> d -> od_lookup k d = None.
Proof.
  induction d as [|[k' v'] d IH]; [done|]. rewrite fmap_cons, not_elem_of_cons.
  intros [Hne Hd]. rewrite od_lookup_cons, bool_decide_false by done. by apply IH.
Qed.

Lemma od_setitem_keys k v d x : x ∈ fst <$> od_setitem k v d <-> x = k \/ x ∈ fst <$> d.
Proof.
  induction d as [|[k' v'] d IH]; cbn.
  - set_solver.
  - case_bool_decide; subst; rewrite ?fmap_cons, ?elem_of_cons, ?IH; cbn; naive_solver.
Qed.

Lemma od_setitem_nodup k v d : NoDup (fst <$> d) -> NoDup (fst <$> od_setitem k v d).
Proof.
  induction d as [|[k' v'] d IH]; cbn; [constructor; [set_solver | constructor]|].
  rewrite !NoDup_cons. intros [Hn Hd]. case_bool_decide; subst; rewrite fmap_cons, NoDup_cons.
  - done.
  - rewrite od_setitem_keys. naive_solver.
Qed.

Lemma od_setitem_lookup k k' v d :
  od_lookup k (od_setitem k' v d) = if bool_decide (k' = k) then Some v else od_lookup k d.
Proof.
  induction d as [|[k'' v''] d IH]; cbn [od_setitem]; [by rewrite od_lookup_cons|].
  destruct (decide (k'' = k')) as [->|Hne].
  - rewrite bool_decide_true, !od_lookup_cons by done. by repeat case_bool_decide.
  - rewrite bool_decide_false, !od_lookup_cons, IH by done. repeat case_bool_decide; congruence.
Qed.

(** [od_setitem] implements [insert] on the map the list stands for. *)
Lemma od_setitem_refines k v d m : od_refines d m -> od_refines (od_setitem k v d) (<[k := v]> m).
Proof.
  intros [Hd Hm]. split; [by apply od_setitem_nodup|]. intros x.
  rewrite od_setitem_lookup, Hm. case_bool_decide; subst.
  - by rewrite lookup_insert_eq.
  - by rewrite lookup_insert_ne.
Qed.

End OrderedDict.

(** The last binding of [k] in the file, the reference the dict is
    compared with. *)
Definition last_binding (k : string) (bs : list binding) : option binding :=
  last (List.filter (fun b => bool_decide (b.1 = k)) bs).

(** [DotEnv.dict()]: the bindings assigned one after the other into an
    empty OrderedDict. *)
Definition dotenv_dict (bs : list binding) : list binding :=
  fold_left (fun d b => od_setitem b.1 b.2 d) bs [].

(** [DotEnv.set_as_environment_variables()]: [if k in os.environ and not
    self.override: continue], then [os.environ[k] = v] when [v] is not
    [None]. *)
Definition set_as_environment_variables (override : bool) (d : list binding)
    (environ : gmap string string) : gmap string string :=
  fold_left (fun env b =>
               if bool_decide (is_Some (env !! b.1)) && negb override then env
               else match b.2 with Some s => <[b.1 := s]> env | None => env end)
            d environ.

(** [os.getenv(k, default)] (src/etl.py, lines 20-24). *)
Definition getenv (env : gmap string string) (k default : string) : string :=
  from_option id default (env !! k).

(** [load_dotenv()] with its defaults: [override=False]. *)
Definition load_dotenv (bs : list binding) (environ : gmap string string) : gmap string string :=
  set_as_environment_variables false (dotenv_dict bs) environ.

(** ** Lemmas *)

Lemma last_binding_cons k b bs :
  last_binding k (b :: bs) =
  match last_binding k bs with
  | Some b' => Some b'
  | None => if bool_decide (b.1 = k) then Some b else None
  end.
Proof.
  unfold last_binding. cbn. case_bool_decide; [by rewrite last_cons|].
  by destruct (last _).
Qed.

Lemma dotenv_dict_from_lookup k bs (d : list binding) :
  od_lookup k (fold_left (fun d b => od_setitem b.1 b.2 d) bs d) =
  match last_binding k bs with Some b => Some b.2 | None => od_lookup k d end.
Proof.
  revert d. induction bs as [|b bs IH]; intros d; [done|].
  cbn [fold_left]. rewrite IH, last_binding_cons, od_setitem_lookup.
  destruct (last_binding k bs); [done|]. by case_bool_decide.
Qed.

Lemma dotenv_dict_from_nodup bs (d : list binding) :
  NoDup (fst <$> d) -> NoDup (fst <$> fold_left (fun d b => od_setitem b.1 b.2 d) bs d).
Proof.
  revert d. induction bs as [|b bs IH]; intros d Hd; [done|].
  cbn [fold_left]. by apply IH, od_setitem_nodup.
Qed.

(** [set_as_environment_variables] without [override], on a dict without
    repeated keys: the environment first, then the dict. *)
Lemma set_as_environment_variables_lookup d environ k :
  NoDup (fst <$> d) ->
  set_as_environment_variables false d environ !! k =
  match environ !! k with Some v => Some v | None => mjoin (od_lookup k d) end.
Proof.
  unfold set_as_environment_variables.
  revert environ. induction d as [|[k' v'] d IH]; intros environ; cbn [fold_left fst snd];
    [by destruct (_ !! k)|].
  rewrite fmap_cons, NoDup_cons. intros [Hk' Hd]. rewrite IH by done.
  rewrite od_lookup_cons, andb_true_r.
  destruct (decide (k' = k)) as [<-|Hne].
  - rewrite (bool_decide_true (k' = k')), od_lookup_not_in by done.
    destruct (environ !! k') eqn:He.
    + rewrite bool_decide_true by done. cbn. by rewrite He.
    + rewrite bool_decide_false by (by intros []). cbn.
      destruct v'; [by rewrite lookup_insert_eq | by rewrite He].
  - rewrite (bool_decide_false (k' = k)) by done.
    destruct (bool_decide _); [done|]. destruct v'; [|done]. by rewrite lookup_insert_ne.
Qed.

Lemma load_dotenv_get bs environ k :
  load_dotenv bs environ !! k =
  match environ !! k with Some v => Some v | None => last_binding k bs ≫= snd end.
Proof.
  unfold load_dotenv. rewrite set_as_environment_variables_lookup.
  - unfold dotenv_dict. rewrite dotenv_dict_from_lookup. by destruct (last_binding k bs).
  - apply dotenv_dict_from_nodup. constructor.
Qed.

(** ** Theorems *)

(** Refinement.  [DotEnv.dict()] is an OrderedDict without repeated
    keys that stands for the map giving every key of the file the value of
    its last binding. *)
Theorem dotenv_dict_refines bs :
  NoDup (fst <$> dotenv_dict bs) /\
  forall k, od_lookup k (dotenv_dict bs) = snd <$> last_binding k bs.
Proof.
  split; [apply dotenv_dict_from_nodup; constructor|].
  intros k. unfold dotenv_dict. rewrite dotenv_dict_from_lookup.
  by destruct (last_binding k bs).
Qed.

(** C34 (precedence).  What [os.getenv(k, default)] returns in [main] after
    [load_dotenv()]: the value of the process environment when it has the
    variable ([override=False]); otherwise the value of the variable's last
    binding in [.env]; the default when the file does not bind it or its
    last binding is a bare key. *)
Theorem getenv_load_dotenv bs environ k default :
  getenv (load_dotenv bs environ) k default =
  match environ !! k with
  | Some v => v
  | None => from_option id default (last_binding k bs ≫= snd)
  end.
Proof.
  unfold getenv, load_dotenv.
  rewrite set_as_environment_variables_lookup by (apply dotenv_dict_from_nodup; constructor).
  unfold dotenv_dict. rewrite dotenv_dict_from_lookup.
  destruct (environ !! k); [done|]. by destruct (last_binding k bs).
Qed.

Example load_dotenv_example :
  load_dotenv [("LAT", Some "1.5"); ("SQLITE_DB", Some "a.db"); ("LAT", Some "2.5"); ("TIMEZONE", None)]
              {["SQLITE_DB" := "env.db"]} =
  {["SQLITE_DB" := "env.db"; "LAT" := "2.5"]}.
Proof. vm_compute. reflexivity. Qed.
