(* ===== verification/Pipeline.v ===== *)
(** * The orchestrator: [main] (src/etl.py, lines 16-60)

    [main] sets up the logger, reads its configuration from the
    environment (lines 20-31; [float()] reads [LAT]/[LON] with Python's
    float syntax, infinities, NaN and digit underscores included, and
    raises [ValueError] on anything else), then runs extract, archive, transform, the
    required-columns check (lines 42-49), the quality gate, the rejected-rows
    file and the load, and logs its completion.  An exception of any stage
    ends the run ([sbind] propagates it), with the effects of the stages
    that ran kept.  [main] here is the function from line 18 on, on the
    environment [load_dotenv()] (line 17, Dotenv.v) leaves; [etl_main] is
    the whole function, from the process environment and the bindings of
    [.env].  [script_exit] is the script entry (lines 62-63): status 0 when
    [main()] returns, 1 when an exception escapes it.

    [pstep] is the stage machine of the spec
    (Start -> Extracted -> Archived -> Transformed -> SchemaValidated ->
    QualityChecked -> RejectsSaved -> Loaded -> Done, or Failed), each step
    running the code of one stage on the world; [run_stages_star] shows
    that a run of the stages is a run of it, the invariants of the run are
    proved by induction on the machine's steps (each step moves to a
    later stage, [pstep_rank]).  [main_success_stages] splits a successful run of [main] into
    the successful runs of its stages, from which the end-to-end theorems
    (the loaded table, the audit file) follow. *)

From Stdlib Require Import ZArith Ascii.
From stdpp Require Import base list gmap sets strings relations.
From S2P Require Import Prelude Json Numeric Timestamp JsonText Schema Frame World Quality.
From S2P Require Import Extract Transform Csv Sinks Dotenv.

(** ** Configuration (lines 20-31) *)

(** The white space [float()] strips: [_PyUnicode_TransformDecimalAndSpaceToASCII]
    turns every Unicode space ([\x1c]-[\x1f], [\x85] and [\xa0] besides
    the ASCII ones) into a blank before the ends are stripped. *)
Definition py_space (c : ascii) : bool :=
  is_space c || bool_decide (nat_of_ascii c ∈ [28; 29; 30; 31; 133; 160]%nat).

Fixpoint drop_py_space (cs : list ascii) : list ascii :=
  match cs with
  | c :: cs' => if py_space c then drop_py_space cs' else cs
  | [] => []
  end.

Definition py_strip (cs : list ascii) : list ascii :=
  reverse (drop_py_space (reverse (drop_py_space cs))).

(** [_Py_string_to_number_with_underscores]: an underscore is allowed only
    between two digits, and is dropped. *)
Fixpoint drop_underscores (prev_digit : bool) (cs : list ascii) : option (list ascii) :=
  match cs with
  | [] => Some []
  | c :: r =>
      if bool_decide (c = "_"%char) then
        match r with
        | d :: _ => if prev_digit && is_digit d then drop_underscores false r else None
        | [] => None
        end
      else cons c <$> drop_underscores (is_digit c) r
  end.

(** [_Py_parse_inf_or_nan]: [inf], [infinity] and [nan] with an optional
    sign, case aside. *)
Definition py_special (s : string) : option json :=
  match inf_literal s with
  | Some neg => Some (JInf neg)
  | None =>
      let l := String.string_of_list_ascii (ascii_lower <$> String.list_ascii_of_string s) in
      if bool_decide (l ∈ ["nan"; "+nan"; "-nan"]%string) then Some JNaN else None
  end.

(** [float(s)]: the stripped text, its underscores dropped, read as a
    decimal number or as one of the special values, and nothing after it. *)
Definition py_float (s : string) : result py_error json :=
  let v := cs ← drop_underscores false (py_strip (String.list_ascii_of_string s));
           let t := String.string_of_list_ascii cs in
           match parse_number t with
           | Some d => Some (JFloat d)
           | None => py_special t
           end in
  match v with
  | Some j => Ok j
  | None => Err (ValueError "could not convert string to float")
  end.

Record config := Config {
  base_url : string;
  params : list (string * json);
  db_path : string }.

Definition read_config (env : gmap string string) : result py_error config :=
  match py_float (getenv env "LAT" "3.1390"), py_float (getenv env "LON" "101.6869") with
  | Ok lat, Ok lon =>
      Ok (Config (getenv env "API_BASE_URL" "https://api.open-meteo.com/v1/forecast")
                 [("latitude", lat); ("longitude", lon);
                  ("hourly", JStr "temperature_2m,relative_humidity_2m");
                  ("timezone", JStr (getenv env "TIMEZONE" "Asia/Kuala_Lumpur"))]
                 (getenv env "SQLITE_DB" "etl_demo.db"))
  | Err e, _ | _, Err e => Err e
  end%string.

(** [setup_logger()] (src/functions.py, lines 14-31): the log directory,
    then the [FileHandler], which opens the log file in append mode.  The
    level, the cleared handler list and the formatter decide the text of
    the lines (Logging.v). *)
Definition setup_logger (log_path : string) : etl unit :=
  makedirs (dirname log_path) ;;;
  open_append log_path.

Definition RAW_DIR : string := "data/raw".
Definition RAW_PREFIX : string := "weather_raw".
Definition REJECTED_PATH : string := "outputs/rejected_rows.csv".

(** Lines 42-46: the required columns missing from the frame. *)
Definition missing_columns (df : frame) : list string :=
  List.filter (fun c => negb (bool_decide (c ∈ columns df)))
              (required_columns WEATHER_HOURLY_SCHEMA).

(** Lines 48-49. *)
Definition check_required (df : frame) : etl unit :=
  match missing_columns df with
  | [] => sret tt
  | missing => raise (KeyError missing)
  end.

(** Lines 33-60, once the configuration is read. *)
Definition run_stages (cfg : config) : etl unit :=
  raw <- extract_weather_api (base_url cfg) (params cfg) 30 3 ;;
  archive_raw_json raw RAW_DIR RAW_PREFIX ;;;
  df <- transform_weather_hourly raw ;;
  check_required df ;;;
  sbind (quality_checks df) (fun '(clean, rejected) =>
  save_rejected_csv rejected REJECTED_PATH ;;;
  load_to_sqlite clean (db_path cfg) (table_name WEATHER_HOURLY_SCHEMA) ;;;
  log_info MsgCompleted).

Definition main (env : gmap string string) : etl unit :=
  setup_logger "outputs/etl.log" ;;;
  cfg <- slift (read_config env) ;;
  run_stages cfg.

(** Lines 16-17: [main()] first loads [.env] into [os.environ]; the
    process environment and the file's bindings are its inputs. *)
Definition etl_main (dotenv : list binding) (environ : gmap string string) : etl unit :=
  main (load_dotenv dotenv environ).

(** Lines 62-63, [python etl.py]: the process exits with status 0 when
    [main] returns, and 1 when an exception escapes it. *)
Definition script_exit (dotenv : list binding) (environ : gmap string string) (w : world) : Z * world :=
  match etl_main dotenv environ w with
  | (Ok _, w') => (0%Z, w')
  | (Err _, w') => (1%Z, w')
  end.

(** ** The stage machine *)

Inductive pstate : Type :=
| SStart (cfg : config)
| SExtracted (cfg : config) (raw : json)
| SArchived (cfg : config) (raw : json) (path : string)
| STransformed (cfg : config) (df : frame)
| SSchemaValidated (cfg : config) (df : frame)
| SQualityChecked (cfg : config) (clean rejected : frame)
| SRejectsSaved (cfg : config) (clean : frame)
| SLoaded
| SDone
| SFailed (e : py_error).

(** The state a stage leads to: its successor, or [Failed]. *)
Definition next {A} (r : result py_error A) (k : A -> pstate) : pstate :=
  match r with
  | Ok a => k a
  | Err e => SFailed e
  end.

Inductive pstep : relation (pstate * world) :=
| step_extract cfg w r w' :
    extract_weather_api (base_url cfg) (params cfg) 30 3 w = (r, w') ->
    pstep (SStart cfg, w) (next r (SExtracted cfg), w')
| step_archive cfg raw w r w' :
    archive_raw_json raw RAW_DIR RAW_PREFIX w = (r, w') ->
    pstep (SExtracted cfg raw, w) (next r (SArchived cfg raw), w')
| step_transform cfg raw path w r w' :
    transform_weather_hourly raw w = (r, w') ->
    pstep (SArchived cfg raw path, w) (next r (STransformed cfg), w')
| step_schema cfg df w r w' :
    check_required df w = (r, w') ->
    pstep (STransformed cfg df, w) (next r (fun _ => SSchemaValidated cfg df), w')
| step_quality cfg df w r w' :
    quality_checks df w = (r, w') ->
    pstep (SSchemaValidated cfg df, w)
          (next r (fun '(clean, rej) => SQualityChecked cfg clean rej), w')
| step_rejects cfg clean rej w r w' :
    save_rejected_csv rej REJECTED_PATH w = (r, w') ->
    pstep (SQualityChecked cfg clean rej, w) (next r (fun _ => SRejectsSaved cfg clean), w')
| step_load cfg clean w r w' :
    load_to_sqlite clean (db_path cfg) (table_name WEATHER_HOURLY_SCHEMA) w = (r, w') ->
    pstep (SRejectsSaved cfg clean, w) (next r (fun _ => SLoaded), w')
| step_done w r w' :
    log_info MsgCompleted w = (r, w') ->
    pstep (SLoaded, w) (next r (fun _ => SDone), w').

Definition final (r : result py_error unit) : pstate := next r (fun _ => SDone).

(** The body of the spec's scenario (section 8), written with single
    quotes for the double quotes of JSON, and the payload [r.json()] makes
    of it ([25.0] is the float [25]). *)
Definition dq (s : string) : string :=
  String.string_of_list_ascii
    ((fun c => if bool_decide (c = "'"%char) then quote else c) <$> String.list_ascii_of_string s).

Definition scenario_body : string :=
  dq ("{'hourly':{'time':['2024-01-01T00:00','2024-01-01T00:00','2024-01-01T01:00']," ++
      "'temperature_2m':[25.0,25.0,26.5],'relative_humidity_2m':[150,60,70]}}").

Definition scenario_payload : json :=
  JObj [("hourly", JObj
    [("time", JArr [JStr "2024-01-01T00:00"; JStr "2024-01-01T00:00"; JStr "2024-01-01T01:00"]);
     ("temperature_2m", JArr [JFloat (Dec 25 0); JFloat (Dec 25 0); JFloat (Dec 265 (-1))]);
     ("relative_humidity_2m", JArr [JInt 150; JInt 60; JInt 70])])]%string.

(** A network that always answers the scenario's body, and one that is
    always down. *)
Definition scenario_net (_ : nat) : http_outcome := Response 200 scenario_body.
Definition down_net (_ : nat) : http_outcome := NetFailure ConnectionError.

Definition scenario_config : config := Config "https://api.example" [] "etl_demo.db".

(** A directory [outputs] holding the log of an earlier run. *)
Definition earlier_log_world : world :=
  World [] [] 0 (fun _ => NetFailure ReadTimeout) 0 {["outputs"]}
        {["outputs/etl.log" := FText "earlier run"]} ∅.

(** ** Lemmas *)

(** Take the step of a stage whose run is known. *)
Ltac take_stage H :=
  let Hr := fresh "Hrun" in
  intros Hr; eapply rtc_l; [econstructor; exact H|]; cbn [next]; revert Hr.

(** [run_stages] is a run of the machine from [Start] to [Done] or [Failed]. *)
Lemma run_stages_star cfg w r w' :
  run_stages cfg w = (r, w') -> rtc pstep (SStart cfg, w) (final r, w').
Proof.
  unfold run_stages, sbind.
  destruct (extract_weather_api _ _ _ _ w) as [[raw|e] w1] eqn:H1;
    take_stage H1; [|intros [= <- <-]; apply rtc_refl].
  destruct (archive_raw_json _ _ _ w1) as [[path|e] w2] eqn:H2;
    take_stage H2; [|intros [= <- <-]; apply rtc_refl].
  destruct (transform_weather_hourly raw w2) as [[df|e] w3] eqn:H3;
    take_stage H3; [|intros [= <- <-]; apply rtc_refl].
  destruct (check_required df w3) as [[[]|e] w4] eqn:H4;
    take_stage H4; [|intros [= <- <-]; apply rtc_refl].
  destruct (quality_checks df w4) as [[[clean rej]|e] w5] eqn:H5;
    take_stage H5; [|intros [= <- <-]; apply rtc_refl].
  destruct (save_rejected_csv rej _ w5) as [[[]|e] w6] eqn:H6;
    take_stage H6; [|intros [= <- <-]; apply rtc_refl].
  destruct (load_to_sqlite clean _ _ w6) as [[[]|e] w7] eqn:H7;
    take_stage H7; [|intros [= <- <-]; apply rtc_refl].
  destruct (log_info MsgCompleted w7) as [[[]|e] w8] eqn:H8;
    take_stage H8; intros [= <- <-]; apply rtc_refl.
Qed.

(** The number of stages left before [Done]. *)
Definition rank (s : pstate) : nat :=
  match s with
  | SStart _ => 8 | SExtracted _ _ => 7 | SArchived _ _ _ => 6 | STransformed _ _ => 5
  | SSchemaValidated _ _ => 4 | SQualityChecked _ _ _ => 3 | SRejectsSaved _ _ => 2
  | SLoaded => 1 | SDone | SFailed _ => 0
  end.

Lemma check_required_world df w r w' : check_required df w = (r, w') -> w' = w.
Proof. unfold check_required. destruct (missing_columns df); by intros [= _ <-]. Qed.

Lemma quality_checks_world df w r w' :
  quality_checks df w = (r, w') -> exists m, w' = add_log (Info m) w.
Proof. rewrite quality_checks_run. intros [= _ <-]. eauto. Qed.

Lemma log_info_world m w r w' : log_info m w = (r, w') -> r = Ok tt /\ w' = add_log (Info m) w.
Proof. by intros [= <- <-]. Qed.

Lemma archive_raw_json_world data dir prefix w r w' :
  archive_raw_json data dir prefix w = (r, w') -> w_dbs w' = w_dbs w.
Proof.
  unfold archive_raw_json, sbind, sget, log_info, smodify, sret.
  destruct (makedirs dir w) as [[[]|e] w1] eqn:Hmk;
    [apply makedirs_Ok in Hmk as ->|apply makedirs_Err in Hmk as ->; by intros [= _ <-]].
  cbn. destruct (write_file _ _ _) as [[[]|e] w2] eqn:Hwr;
    [apply write_file_Ok in Hwr as ->|apply write_file_Err in Hwr as ->]; by intros [= _ <-].
Qed.

(** The archive is written under [data/raw/], never at the rejected-rows path. *)
Lemma archive_path_ne data w path w' :
  archive_raw_json data RAW_DIR RAW_PREFIX w = (Ok path, w') -> path <> REJECTED_PATH.
Proof.
  intros (w1 & _ & -> & _)%archive_raw_json_Ok. unfold path_join. cbn. discriminate.
Qed.

(** Replace each stage run in the context by what it does to the world. *)
Ltac stage_world :=
  repeat match goal with
  | H : extract_weather_api _ _ _ _ _ = _ |- _ =>
      apply extract_weather_api_world in H as (? & ? & ?)
  | H : archive_raw_json _ _ _ _ = _ |- _ => apply archive_raw_json_world in H
  | H : transform_weather_hourly _ _ = _ |- _ =>
      destruct (transform_world _ _ _ _ H) as [->|[? ->]]; clear H
  | H : check_required _ _ = _ |- _ => apply check_required_world in H as ->
  | H : quality_checks _ _ = _ |- _ =>
      destruct (quality_checks_world _ _ _ _ H) as [? ->]; clear H
  | H : save_rejected_csv _ _ _ = _ |- _ =>
      destruct (save_rejected_csv_world _ _ _ _ _ H) as [? ?]; clear H
  | H : load_to_sqlite _ _ _ _ = _ |- _ =>
      destruct (load_to_sqlite_world _ _ _ _ _ _ H) as [? [? | ?]]; clear H
  | H : log_info _ _ = _ |- _ => destruct (log_info_world _ _ _ _ H) as [? ->]; clear H
  end; subst.

(** Each step moves to a later stage. *)
Lemma pstep_rank s w s' w' : pstep (s, w) (s', w') -> rank s' < rank s.
Proof.
  inversion 1; subst; match goal with r : result _ _ |- _ => destruct r end;
    try match goal with p : frame * frame |- _ => destruct p end; cbn; lia.
Qed.

(** Only a successful load changes the databases. *)
Lemma pstep_dbs s w s' w' : pstep (s, w) (s', w') -> w_dbs w' = w_dbs w \/ s' = SLoaded.
Proof. inversion 1; subst; stage_world; first [by left | by right]. Qed.

(** After the archive step, only the rejected-rows file changes. *)
Lemma pstep_files s w s' w' q :
  pstep (s, w) (s', w') -> 6 >= rank s -> q <> REJECTED_PATH ->
  w_files w' !! q = w_files w !! q.
Proof.
  inversion 1; subst; cbn; intros Hr Hq; try lia; stage_world; first [done|congruence|auto].
Qed.

Lemma pstep_from_loaded w s' w' : pstep (SLoaded, w) (s', w') -> s' = SDone.
Proof. inversion 1; subst. stage_world. done. Qed.

Lemma pstep_from_final r w c : ~ pstep (final r, w) c.
Proof. destruct r; inversion 1. Qed.

(** Runs from [Start] that have not reached [Loaded] leave the databases
    as they were. *)
Lemma star_dbs_before_load cfg w0 s w :
  rtc pstep (SStart cfg, w0) (s, w) -> s <> SLoaded -> s <> SDone -> w_dbs w = w_dbs w0.
Proof.
  revert s w.
  cut (forall c, rtc pstep (SStart cfg, w0) c -> c.1 <> SLoaded -> c.1 <> SDone ->
                 w_dbs c.2 = w_dbs w0).
  { intros Hc s w Hrun. apply (Hc (s, w) Hrun). }
  apply (rtc_ind_r (fun c => c.1 <> SLoaded -> c.1 <> SDone -> w_dbs c.2 = w_dbs w0));
    [done|].
  intros [y wy] [z wz] _ Hyz IH. cbn in *. intros Hz1 Hz2.
  destruct (pstep_dbs _ _ _ _ Hyz) as [-> | ->]; [|done].
  apply IH.
  - intros ->. by apply pstep_from_loaded in Hyz.
  - intros ->. by apply (pstep_from_final (Ok tt) wy (z, wz)).
Qed.

Lemma setup_logger_dbs p w r w' : setup_logger p w = (r, w') -> w_dbs w' = w_dbs w.
Proof.
  unfold setup_logger, sbind.
  destruct (makedirs _ w) as [[[]|e] w0] eqn:Hm; [|intros [= _ <-]; by rewrite (makedirs_Err _ _ _ _ Hm)].
  apply makedirs_Ok in Hm as ->.
  intros [-> | [_ ->]]%open_append_cases; done.
Qed.

Lemma setup_logger_files p w w' :
  setup_logger p w = (Ok tt, w') ->
  w_files w' = <[p := from_option id (FText "") (w_files w !! p)]> (w_files w) /\
  w_log w' = w_log w /\ w_dbs w' = w_dbs w /\ w_net w' = w_net w.
Proof.
  unfold setup_logger, sbind.
  destruct (makedirs _ w) as [[[]|e] w0] eqn:Hm; [|discriminate].
  apply makedirs_Ok in Hm as ->.
  by intros ->%open_append_Ok.
Qed.

(** ** Stages that neither request nor sleep *)

(** The request count, the sleeps and the clock are those of [w]. *)
Definition same_time (w w' : world) : Prop :=
  w_requests w' = w_requests w /\ w_sleeps w' = w_sleeps w /\ w_clock w' = w_clock w.

(** A computation that makes no request and does not sleep. *)
Definition quiet {A} (m : etl A) : Prop := forall w r w', m w = (r, w') -> same_time w w'.

Lemma same_time_refl w : same_time w w.
Proof. done. Qed.

Lemma quiet_of {A} (m : etl A) : (forall w r w', m w = (r, w') -> w' = w) -> quiet m.
Proof. intros H w r w' ->%H. done. Qed.

Lemma quiet_sbind {A B} (m : etl A) (k : A -> etl B) :
  quiet m -> (forall a, quiet (k a)) -> quiet (sbind m k).
Proof.
  intros Hm Hk w r w'. unfold sbind.
  destruct (m w) as [[a|e] w1] eqn:H1; apply Hm in H1 as (? & ? & ?).
  - intros (? & ? & ?)%Hk. split_and!; congruence.
  - by intros [= _ <-].
Qed.

Lemma quiet_sret {A} (a : A) : quiet (sret a).
Proof. by apply quiet_of; intros ? ? ? [= _ <-]. Qed.

Lemma quiet_slift {A} (x : result py_error A) : quiet (slift x).
Proof. by apply quiet_of; intros ? ? ? [= _ <-]. Qed.

Lemma quiet_sthrow {A} (e : py_error) : quiet (sthrow (A := A) e).
Proof. by apply quiet_of; intros ? ? ? [= _ <-]. Qed.

Lemma quiet_sget : quiet sget.
Proof. by apply quiet_of; intros ? ? ? [= _ <-]. Qed.

Lemma quiet_log_info m : quiet (log_info m).
Proof. by intros ? ? ? [= _ <-]. Qed.

Lemma quiet_makedirs p : quiet (makedirs p).
Proof.
  intros w [u|e] w' H; [apply makedirs_Ok in H as ->|apply makedirs_Err in H as ->]; done.
Qed.

Lemma quiet_write_file p c : quiet (write_file p c).
Proof.
  intros w [u|e] w' H; [apply write_file_Ok in H as ->|apply write_file_Err in H as ->]; done.
Qed.

Lemma quiet_open_append p : quiet (open_append p).
Proof. intros w r w' [-> | [_ ->]]%open_append_cases; done. Qed.

Lemma quiet_sqlite_open p : quiet (sqlite_open p).
Proof. apply quiet_of. intros w r w'. unfold sqlite_open. destruct (_ || _); by intros [= _ <-]. Qed.

Lemma quiet_smodify_dbs f : quiet (smodify (fun w => set_dbs (f w) w)).
Proof. by intros ? ? ? [= _ <-]. Qed.

Lemma quiet_transform data : quiet (transform_weather_hourly data).
Proof. intros w r w' [-> | [m ->]]%transform_world; done. Qed.

Lemma quiet_quality_checks df : quiet (quality_checks df).
Proof. intros w r w'. rewrite quality_checks_run. by intros [= _ <-]. Qed.

Lemma quiet_check_required df : quiet (check_required df).
Proof. apply quiet_of. apply check_required_world. Qed.

Create HintDb quiet discriminated.
#[export] Hint Resolve quiet_sret quiet_slift quiet_sthrow quiet_sget quiet_log_info quiet_makedirs
  quiet_write_file quiet_open_append quiet_sqlite_open quiet_smodify_dbs quiet_transform
  quiet_quality_checks quiet_check_required : quiet.

(** Split binds down to the primitives, which the hint database knows. *)
Ltac quiet_auto :=
  repeat first
    [ apply quiet_sbind; intros
    | match goal with |- quiet (match ?x with _ => _ end) => destruct x end
    | progress cbv beta ];
  eauto with quiet.

Lemma quiet_setup_logger p : quiet (setup_logger p).
Proof. unfold setup_logger. quiet_auto. Qed.

Lemma quiet_archive_raw_json data dir prefix : quiet (archive_raw_json data dir prefix).
Proof. unfold archive_raw_json. quiet_auto. Qed.

Lemma quiet_save_rejected_csv df p : quiet (save_rejected_csv df p).
Proof. unfold save_rejected_csv. quiet_auto. Qed.

Lemma quiet_load_to_sqlite df p t : quiet (load_to_sqlite df p t).
Proof. unfold load_to_sqlite. quiet_auto. Qed.

#[export] Hint Resolve quiet_setup_logger quiet_archive_raw_json quiet_save_rejected_csv
  quiet_load_to_sqlite : quiet.

(** After the extraction, [run_stages] neither requests nor sleeps. *)
Lemma run_stages_after_extract cfg w r w' :
  run_stages cfg w = (r, w') ->
  exists r1 w1, extract_weather_api (base_url cfg) (params cfg) 30 3 w = (r1, w1) /\ same_time w1 w'.
Proof.
  unfold run_stages. unfold sbind at 1.
  destruct (extract_weather_api _ _ 30 3 w) as [[raw|e] w1] eqn:Hx;
    [|intros [= _ <-]; by exists (Err e), w1].
  intros H. exists (Ok raw), w1. split; [done|].
  cbv beta in H. revert H. match goal with |- ?m w1 = _ -> _ => assert (Hq : quiet m) end.
  { quiet_auto. }
  apply Hq.
Qed.

(** ** Theorems *)

(** A successful run of [main] is a successful run of every stage, from
    the configuration to the last log line. *)
Lemma main_success_stages env w w' :
  main env w = (Ok tt, w') ->
  exists cfg raw path df clean rej w1 w2 w3 w5 w6 w7,
    read_config env = Ok cfg /\
    (exists w0, setup_logger "outputs/etl.log" w = (Ok tt, w0) /\
                extract_weather_api (base_url cfg) (params cfg) 30 3 w0 = (Ok raw, w1)) /\
    archive_raw_json raw RAW_DIR RAW_PREFIX w1 = (Ok path, w2) /\
    transform_weather_hourly raw w2 = (Ok df, w3) /\
    quality_checks df w3 = (Ok (clean, rej), w5) /\
    save_rejected_csv rej REJECTED_PATH w5 = (Ok tt, w6) /\
    load_to_sqlite clean (db_path cfg) (table_name WEATHER_HOURLY_SCHEMA) w6 = (Ok tt, w7) /\
    w' = add_log (Info MsgCompleted) w7.
Proof.
  unfold main. intros H.
  apply sbind_Ok_inv in H as ([] & w0 & Hlog0 & H).
  apply sbind_Ok_inv in H as (cfg & w0' & Hcfg & H). unfold slift in Hcfg.
  destruct (read_config env) as [cfg'|e]; simplify_eq.
  unfold run_stages in H.
  apply sbind_Ok_inv in H as (raw & w1 & Hex & H).
  apply sbind_Ok_inv in H as (path & w2 & Harch & H).
  apply sbind_Ok_inv in H as (df & w3 & Htr & H).
  apply sbind_Ok_inv in H as ([] & w4 & Hchk & H). apply check_required_world in Hchk as ->.
  apply sbind_Ok_inv in H as ([clean rej] & w5 & Hq & H).
  apply sbind_Ok_inv in H as ([] & w6 & Hsave & H).
  apply sbind_Ok_inv in H as ([] & w7 & Hload & Hlog).
  apply log_info_world in Hlog as [_ ->].
  exists cfg, raw, path, df, clean, rej, w1, w2, w3, w5, w6, w7. eauto 10.
Qed.

(** What a successful run of [main] leaves in the table [weather_hourly]
    follows from the payload it extracted after setting up the logger. *)
Lemma main_success_payload env w w' :
  main env w = (Ok tt, w') ->
  exists cfg raw df w0 w1,
    read_config env = Ok cfg /\
    setup_logger "outputs/etl.log" w = (Ok tt, w0) /\
    extract_weather_api (base_url cfg) (params cfg) 30 3 w0 = (Ok raw, w1) /\
    transform_result raw = Ok df /\
    read_table w' (db_path cfg) "weather_hourly" =
      Some (Table (columns df) (first_occurrences time (List.filter row_ok (rows df)))).
Proof.
  intros (cfg & raw & path & df & clean & rej & w1 & w2 & w3 & w5 & w6 & w7 &
          Hcfg & (w0 & Hs & Hex) & Harch & Htr & Hq & Hsave & Hload & ->)%main_success_stages.
  exists cfg, raw, df, w0, w1. split_and!; [done..| |].
  - by rewrite <- (transform_fst raw w2), Htr.
  - rewrite quality_checks_run in Hq. simplify_eq.
    rewrite <- drop_duplicates_first_occurrences. exact (load_to_sqlite_table _ _ _ _ _ Hload).
Qed.

(** The database [main] loads into is [SQLITE_DB] of its environment. *)
Lemma read_config_db_path env cfg :
  read_config env = Ok cfg -> db_path cfg = getenv env "SQLITE_DB" "etl_demo.db".
Proof.
  unfold read_config.
  destruct (py_float (getenv env "LAT" "3.1390")), (py_float (getenv env "LON" "101.6869"));
    [by intros [= <-]|discriminate..].
Qed.

(** C25 (refinement).  [main] is a run of the stage machine: once the
    logger is set up and the configuration read, the world and outcome of
    [main] are those of a run from [Start] to [Done] (success) or [Failed]
    (the exception); a failure before [Start] returns that exception. *)
Theorem main_runs_machine env w r w' :
  main env w = (r, w') ->
  match setup_logger "outputs/etl.log" w, read_config env with
  | (Ok _, w0), Ok cfg => rtc pstep (SStart cfg, w0) (final r, w')
  | (Ok _, w0), Err e => r = Err e /\ w' = w0
  | (Err e, w0), _ => r = Err e /\ w' = w0
  end.
Proof.
  unfold main, sbind, slift.
  destruct (setup_logger _ w) as [[[]|e] w0]; [|by intros [= <- <-]].
  destruct (read_config env) as [cfg|e]; [apply run_stages_star|by intros [= <- <-]].
Qed.

(** Sequencing.  The machine is deterministic and [Done] and
    [Failed] have no successor: no stage is skipped, repeated or reordered,
    and a failure is final. *)
Theorem pstep_deterministic :
  (forall c c1 c2, pstep c c1 -> pstep c c2 -> c1 = c2) /\
  (forall r w c, ~ pstep (final r, w) c).
Proof.
  split; [|apply pstep_from_final].
  intros c c1 c2 H1 H2. inversion H1; subst; inversion H2; subst; congruence.
Qed.

(** C26 (audit trail).  Once the archive step has written the payload, every
    later state of the run, [Failed] included, still has the archive file
    with that payload. *)
Theorem archive_survives cfg raw w1 path w2 s w' :
  pstep (SExtracted cfg raw, w1) (SArchived cfg raw path, w2) ->
  rtc pstep (SArchived cfg raw path, w2) (s, w') ->
  w_files w' !! path = Some (FText (json_dump raw)).
Proof.
  intros Hst. inversion Hst as [|? ? ? r ? Harch| | | | | |]; subst.
  destruct r as [p|e]; cbn in *; simplify_eq.
  destruct (archive_raw_json_file _ _ _ _ _ _ Harch) as (_ & Hf).
  pose proof (archive_path_ne _ _ _ _ Harch) as Hne.
  intros Hrun.
  cut (rank s <= 6 /\ w_files w' !! path = Some (FText (json_dump raw))); [tauto|].
  revert Hrun.
  apply (rtc_ind_r (fun c => rank c.1 <= 6 /\ w_files c.2 !! path = Some (FText (json_dump raw))));
    [done|].
  intros [y wy] [z wz] _ Hyz [Hr Hfy]. cbn in *. pose proof (pstep_rank _ _ _ _ Hyz).
  split; [lia|]. rewrite (pstep_files _ _ _ _ path Hyz); [done|lia|done].
Qed.

(** C27 (no partial load).  A run of [main] that fails, at whatever stage,
    leaves every database as it found it. *)
Theorem main_failure_keeps_dbs env w e w' :
  main env w = (Err e, w') -> w_dbs w' = w_dbs w.
Proof.
  unfold main, sbind, slift. intros Hm.
  destruct (setup_logger _ w) as [[[]|e'] w0] eqn:Hs;
    [|injection Hm as _ <-; by eapply setup_logger_dbs].
  rewrite <- (setup_logger_dbs _ _ _ _ Hs).
  destruct (read_config env) as [cfg|e']; [|by injection Hm as _ <-].
  apply run_stages_star in Hm. by eapply star_dbs_before_load.
Qed.

(** C29 (end to end).  A successful run archives a payload, and the table
    [weather_hourly] of the configured database then holds exactly the
    valid rows of its transformation that are the first of their time, in
    order. *)
Theorem main_success_table env w w' :
  main env w = (Ok tt, w') ->
  exists cfg raw path df,
    read_config env = Ok cfg /\
    (exists text, w_files w' !! path = Some (FText text) /\ json_loads text = Some raw) /\
    transform_result raw = Ok df /\
    read_table w' (db_path cfg) "weather_hourly" =
      Some (Table (columns df) (first_occurrences time (List.filter row_ok (rows df)))).
Proof.
  intros (cfg & raw & path & df & clean & rej & w1 & w2 & w3 & w5 & w6 & w7 &
          Hcfg & (w0 & _ & Hex) & Harch & Htr & Hq & Hsave & Hload & ->)%main_success_stages.
  exists cfg, raw, path, df. split_and!; [done|..].
  - exists (json_dump raw). split; last first.
    { destruct (extract_weather_api_normal _ _ _ _ _ _ _ Hex) as [Hwf Hn].
      by rewrite json_loads_dump_wf, Hn. }
    destruct (archive_raw_json_file _ _ _ _ _ _ Harch) as (_ & Hf).
    pose proof (archive_path_ne _ _ _ _ Harch) as Hne.
    destruct (save_rejected_csv_world _ _ _ _ _ Hsave) as [_ Hs].
    destruct (load_to_sqlite_world _ _ _ _ _ _ Hload) as [Hl _].
    cbn. rewrite Hl, Hs by done.
    destruct (quality_checks_world _ _ _ _ Hq) as [? ->].
    by destruct (transform_world _ _ _ _ Htr) as [-> | [? ->]].
  - by rewrite <- (transform_fst raw w2), Htr.
  - rewrite quality_checks_run in Hq. simplify_eq.
    rewrite <- drop_duplicates_first_occurrences. exact (load_to_sqlite_table _ _ _ _ _ Hload).
Qed.

(** C32 (the audit file).  After a successful run, the file
    [outputs/rejected_rows.csv] holds a text that reads back as the rows of
    the transformed payload that the gate rejected, in order, with their
    times and their numbers (as normal decimals), under the weather
    columns. *)
Theorem main_success_rejected env w w' :
  main env w = (Ok tt, w') ->
  exists raw df text,
    transform_result raw = Ok df /\
    w_files w' !! REJECTED_PATH = Some (FText text) /\
    read_csv text = Some (weather_columns, row_norm <$> List.filter (fun r => negb (row_ok r)) (rows df)).
Proof.
  intros (cfg & raw & path & df & clean & rej & w1 & w2 & w3 & w5 & w6 & w7 &
          _ & _ & _ & Htr & Hq & Hsave & Hload & ->)%main_success_stages.
  exists raw, df, (to_csv rej). split_and!.
  - by rewrite <- (transform_fst raw w2), Htr.
  - destruct (load_to_sqlite_world _ _ _ _ _ _ Hload) as [Hl _].
    cbn. rewrite Hl. exact (save_rejected_csv_file _ _ _ _ Hsave).
  - destruct (quality_checks_wf _ _ _ _ _ Hq (transform_wf _ _ _ _ Htr)) as (_ & Hwf & _ & _ & _ & Hc).
    rewrite (read_to_csv rej); [|by rewrite Hc, (transform_columns _ _ _ _ Htr)|done].
    rewrite quality_checks_run in Hq. by simplify_eq.
Qed.

(** C35 (dead schema check).  The frame of a successful transformation
    always has the schema's required columns, so the [KeyError] branch of
    [main] (src/etl.py, lines 48-49) cannot be taken. *)
Theorem transform_no_missing_columns data w df w' :
  transform_weather_hourly data w = (Ok df, w') ->
  missing_columns df = [] /\ check_required df w' = (Ok tt, w').
Proof.
  intros Htr. unfold check_required, missing_columns.
  rewrite (transform_columns _ _ _ _ Htr). split; reflexivity.
Qed.

(** The spec's scenario.  On the payload of the spec, the gate
    rejects the row with humidity 150, keeps the other two (their times
    differ) and removes no duplicate. *)
Example spec_scenario :
  exists df,
    transform_result scenario_payload = Ok df /\
    quality_checks df (start_world (fun _ => NetFailure ReadTimeout) 0) =
    (Ok (Frame weather_columns (Float64, Int64)
           [Row (Some (TS 2024 1 1 0 0 0)) (Some (Fin (Dec 25 0))) (Some (Fin (Dec 60 0)));
            Row (Some (TS 2024 1 1 1 0 0)) (Some (Fin (Dec 265 (-1)))) (Some (Fin (Dec 70 0)))],
         Frame weather_columns (Float64, Int64)
           [Row (Some (TS 2024 1 1 0 0 0)) (Some (Fin (Dec 25 0))) (Some (Fin (Dec 150 0)))]),
     add_log (Info (MsgQuality 2 1 0)) (start_world (fun _ => NetFailure ReadTimeout) 0)).
Proof. eexists. split; [reflexivity|]. vm_compute. reflexivity. Qed.

(** C37: [setup_logger] opens the log file in append mode: after it, the
    file is there with the text it had before the run (empty when it was
    missing), and no other file is touched; the log lines of earlier runs
    are kept. *)
Theorem setup_logger_keeps_log p w w' :
  setup_logger p w = (Ok tt, w') ->
  w_files w' !! p = Some (from_option id (FText "") (w_files w !! p)) /\
  (forall q, q <> p -> w_files w' !! q = w_files w !! q).
Proof.
  intros (Hf & _ & _ & _)%setup_logger_files. rewrite Hf. split.
  - apply lookup_insert_eq.
  - intros q Hq. by apply lookup_insert_ne.
Qed.

(** C31 (re-runs).  Two successful runs of [main] with the same
    environment, against an API that answers every request with the same
    response, leave the same table [weather_hourly] in the configured
    database, whatever the runs found on disk (an earlier table, earlier
    archives and logs), whatever attempt succeeded and whatever the clock
    said: the load replaces the table, and its rows depend on the response
    only. *)
Theorem main_rerun_same_table env w1 w1' w2 w2' o :
  (forall i, w_net w1 i = o) -> (forall i, w_net w2 i = o) ->
  main env w1 = (Ok tt, w1') -> main env w2 = (Ok tt, w2') ->
  exists cfg tbl, read_config env = Ok cfg /\
    read_table w1' (db_path cfg) "weather_hourly" = Some tbl /\
    read_table w2' (db_path cfg) "weather_hourly" = Some tbl.
Proof.
  intros Hn1 Hn2
    (cfg & raw1 & df1 & w01 & w11 & Hcfg & Hs1 & Hx1 & Ht1 & Hr1)%main_success_payload
    (cfg' & raw2 & df2 & w02 & w12 & Hcfg' & Hs2 & Hx2 & Ht2 & Hr2)%main_success_payload.
  rewrite Hcfg in Hcfg'. simplify_eq.
  apply setup_logger_files in Hs1 as (_ & _ & _ & Hs1), Hs2 as (_ & _ & _ & Hs2).
  change 3%Z with (Z.of_nat 3) in Hx1, Hx2.
  apply (extract_weather_api_const _ _ _ _ _ o) in Hx1; [|intros i; by rewrite Hs1].
  apply (extract_weather_api_const _ _ _ _ _ o) in Hx2; [|intros i; by rewrite Hs2].
  rewrite Hx1 in Hx2. simplify_eq. rewrite Ht1 in Ht2. simplify_eq. eauto.
Qed.

(** C33 (configuration).  A successful run of the script's [main()] loads
    the table [weather_hourly] into the database named by [SQLITE_DB] in
    the process environment when it is set there, else by the last binding
    of [SQLITE_DB] in [.env], else [etl_demo.db]; the table holds the
    valid first-of-their-time rows of the transformed payload. *)
Theorem etl_main_database dotenv environ w w' :
  etl_main dotenv environ w = (Ok tt, w') ->
  exists raw df,
    transform_result raw = Ok df /\
    read_table w'
      (from_option id "etl_demo.db"
         (match environ !! "SQLITE_DB" with
          | Some v => Some v
          | None => last_binding "SQLITE_DB" dotenv ≫= snd
          end))
      "weather_hourly" =
      Some (Table (columns df) (first_occurrences time (List.filter row_ok (rows df)))).
Proof.
  intros (cfg & raw & df & w0 & w1 & Hcfg & _ & _ & Htr & Htab)%main_success_payload.
  exists raw, df. split; [done|].
  rewrite <- load_dotenv_get. unfold getenv in Hcfg.
  by rewrite (read_config_db_path _ _ Hcfg) in Htab.
Qed.

(** C30 (log order).  The log of a successful run is the log it started
    with, then only GET lines and warnings of the extraction, then, in
    this order, the archive path, the transform's row count and columns,
    the gate's accepted, rejected and duplicate counts, the rejected-rows
    path, the load of the accepted rows into [weather_hourly] of the
    configured database, and the completion line. *)
Theorem main_success_log env w w' :
  main env w = (Ok tt, w') ->
  exists cfg raw path df ext,
    read_config env = Ok cfg /\
    transform_result raw = Ok df /\
    Forall (fun l => extract_line l = true) ext /\
    let acc := first_occurrences time (List.filter row_ok (rows df)) in
    w_log w' = w_log w ++ ext ++
      [Info (MsgArchived path);
       Info (MsgTransform (length (rows df)) weather_columns);
       Info (MsgQuality (length acc) (length (List.filter (fun r => negb (row_ok r)) (rows df)))
                        (length (List.filter row_ok (rows df)) - length acc));
       Info (MsgRejectedSaved REJECTED_PATH);
       Info (MsgLoad (length acc) "weather_hourly" (db_path cfg));
       Info MsgCompleted].
Proof.
  intros (cfg & raw & path & df & clean & rej & w1 & w2 & w3 & w5 & w6 & w7 &
          Hcfg & (w0 & Hs & Hex) & Harch & Htr & Hq & Hsave & Hload & ->)%main_success_stages.
  unfold extract_weather_api in Hex. apply extract_loop_log in Hex as (ext & Hext & Hf).
  apply setup_logger_files in Hs as (_ & Hl0 & _ & _).
  exists cfg, raw, path, df, ext. split_and!; [done|by rewrite <- (transform_fst raw w2), Htr|done|].
  rewrite quality_checks_run in Hq. simplify_eq.
  apply transform_log in Htr as ->. apply archive_raw_json_log in Harch.
  apply save_rejected_csv_log in Hsave. apply load_to_sqlite_log in Hload.
  cbn. rewrite Hload, Hsave. cbn. rewrite Harch, Hext, Hl0, drop_duplicates_first_occurrences.
  by rewrite <- !app_assoc.
Qed.

(** C28 (retry budget of a run).  Any run of [main], successful or not,
    makes at most three HTTP requests and sleeps the back-offs
    [2, 4, ..., 2k] for some [k <= 2], in order: at most six seconds of
    sleep in all.  No stage other than the extraction requests or sleeps. *)
Theorem main_retry_budget env w r w' :
  main env w = (r, w') ->
  exists k, (k <= 2)%nat /\ (w_requests w' <= w_requests w + S k)%nat /\
    w_sleeps w' = w_sleeps w ++ backoff k /\
    w_clock w' = (w_clock w + Z.of_nat k * (Z.of_nat k + 1))%Z.
Proof.
  assert (Hnone : forall w1, same_time w w1 -> exists k, (k <= 2)%nat /\
            (w_requests w1 <= w_requests w + S k)%nat /\ w_sleeps w1 = w_sleeps w ++ backoff k /\
            w_clock w1 = (w_clock w + Z.of_nat k * (Z.of_nat k + 1))%Z).
  { intros w1 (Hr & Hs & Hc). exists 0%nat. cbn. rewrite Hs, app_nil_r. split_and!; [lia|lia|done|lia]. }
  unfold main, sbind at 1.
  destruct (setup_logger _ w) as [[[]|e] w0] eqn:Hs; apply quiet_setup_logger in Hs;
    [|intros [= _ <-]; by apply Hnone].
  unfold sbind at 1, slift. destruct (read_config env) as [cfg|e]; [|intros [= _ <-]; by apply Hnone].
  intros (r1 & w1 & Hx & Hr1 & Hs1 & Hc1)%run_stages_after_extract.
  change 3%Z with (Z.of_nat 3) in Hx. destruct Hs as (Hr0 & Hs0 & Hc0).
  apply extract_weather_api_budget in Hx as [[? _]|(k & Hk & Hr & Hsl & Hc)]; [discriminate|].
  exists k. rewrite Hs1, Hsl, Hs0, Hc1, Hc, Hc0. split_and!; [lia|lia|done|done].
Qed.

(** ** Witnesses *)

Lemma main_runs_machine_witness :
  let w := start_world scenario_net 1704067200 in
  match setup_logger "outputs/etl.log" w, read_config ∅ with
  | (Ok _, w0), Ok cfg => rtc pstep (SStart cfg, w0) (final (fst (main ∅ w)), snd (main ∅ w))
  | (Ok _, w0), Err e => fst (main ∅ w) = Err e /\ snd (main ∅ w) = w0
  | (Err e, w0), _ => fst (main ∅ w) = Err e /\ snd (main ∅ w) = w0
  end.
Proof.
  intros w.
  assert (H : main ∅ w = (fst (main ∅ w), snd (main ∅ w))) by (vm_compute; reflexivity).
  exact (main_runs_machine ∅ w _ _ H).
Defined.

Lemma pstep_deterministic_witness :
  ~ pstep (final (Ok tt), start_world down_net 0) (SDone, start_world down_net 0).
Proof. exact (proj2 pstep_deterministic (Ok tt) _ _). Defined.

Lemma archive_survives_witness :
  let w1 := start_world scenario_net 1704067200 in
  let w2 := snd (archive_raw_json scenario_payload RAW_DIR RAW_PREFIX w1) in
  let path := "data/raw/weather_raw_20240101_000000.json"%string in
  let w3 := snd (transform_weather_hourly scenario_payload w2) in
  let s3 := next (fst (transform_weather_hourly scenario_payload w2)) (STransformed scenario_config) in
  w_files w3 !! path = Some (FText (json_dump scenario_payload)).
Proof.
  intros w1 w2 path w3 s3.
  assert (Ha : archive_raw_json scenario_payload RAW_DIR RAW_PREFIX w1 = (Ok path, w2))
    by (vm_compute; reflexivity).
  assert (Ht : transform_weather_hourly scenario_payload w2 =
                 (fst (transform_weather_hourly scenario_payload w2), w3))
    by (vm_compute; reflexivity).
  exact (archive_survives scenario_config scenario_payload w1 path w2 s3 w3
           (step_archive scenario_config scenario_payload w1 (Ok path) w2 Ha)
           (rtc_l _ _ _ _ (step_transform scenario_config scenario_payload path w2 _ w3 Ht)
              (rtc_refl _ _))).
Defined.

Lemma main_failure_keeps_dbs_witness :
  w_dbs (snd (main ∅ (start_world down_net 0))) = w_dbs (start_world down_net 0).
Proof.
  assert (H : main ∅ (start_world down_net 0) =
                (Err ConnectionError, snd (main ∅ (start_world down_net 0))))
    by (vm_compute; reflexivity).
  exact (main_failure_keeps_dbs ∅ _ _ _ H).
Defined.

Lemma main_success_table_witness :
  exists cfg raw path df,
    read_config ∅ = Ok cfg /\
    (exists text, w_files (snd (main ∅ (start_world scenario_net 1704067200))) !! path = Some (FText text) /\
                  json_loads text = Some raw) /\
    transform_result raw = Ok df /\
    read_table (snd (main ∅ (start_world scenario_net 1704067200))) (db_path cfg) "weather_hourly" =
      Some (Table (columns df) (first_occurrences time (List.filter row_ok (rows df)))).
Proof.
  assert (H : main ∅ (start_world scenario_net 1704067200) =
                (Ok tt, snd (main ∅ (start_world scenario_net 1704067200))))
    by (vm_compute; reflexivity).
  exact (main_success_table ∅ _ _ H).
Defined.

Lemma main_rerun_same_table_witness :
  let w1 := start_world scenario_net 1704067200 in
  let w2 := snd (main ∅ w1) in
  exists cfg tbl, read_config ∅ = Ok cfg /\
    read_table (snd (main ∅ w1)) (db_path cfg) "weather_hourly" = Some tbl /\
    read_table (snd (main ∅ w2)) (db_path cfg) "weather_hourly" = Some tbl.
Proof.
  intros w1 w2.
  assert (H1 : main ∅ w1 = (Ok tt, snd (main ∅ w1))) by (vm_compute; reflexivity).
  assert (H2 : main ∅ w2 = (Ok tt, snd (main ∅ w2))) by (vm_compute; reflexivity).
  assert (Hn2 : forall i, w_net w2 i = scenario_net i) by (intros i; vm_compute; reflexivity).
  exact (main_rerun_same_table ∅ w1 _ w2 _ _ (fun _ => eq_refl) Hn2 H1 H2).
Defined.

Lemma etl_main_database_witness :
  let w := start_world scenario_net 1704067200 in
  let bs := [("SQLITE_DB", Some "from_dotenv.db"); ("LAT", Some "3.1390")] in
  exists raw df,
    transform_result raw = Ok df /\
    read_table (snd (etl_main bs ∅ w)) "from_dotenv.db" "weather_hourly" =
      Some (Table (columns df) (first_occurrences time (List.filter row_ok (rows df)))).
Proof.
  intros w bs.
  assert (H : etl_main bs ∅ w = (Ok tt, snd (etl_main bs ∅ w))) by (vm_compute; reflexivity).
  exact (etl_main_database bs ∅ w _ H).
Defined.

Lemma main_success_log_witness :
  let w := start_world scenario_net 1704067200 in
  exists cfg raw path df ext,
    read_config ∅ = Ok cfg /\
    transform_result raw = Ok df /\
    Forall (fun l => extract_line l = true) ext /\
    let acc := first_occurrences time (List.filter row_ok (rows df)) in
    w_log (snd (main ∅ w)) = w_log w ++ ext ++
      [Info (MsgArchived path);
       Info (MsgTransform (length (rows df)) weather_columns);
       Info (MsgQuality (length acc) (length (List.filter (fun r => negb (row_ok r)) (rows df)))
                        (length (List.filter row_ok (rows df)) - length acc));
       Info (MsgRejectedSaved REJECTED_PATH);
       Info (MsgLoad (length acc) "weather_hourly" (db_path cfg));
       Info MsgCompleted].
Proof.
  intros w.
  assert (H : main ∅ w = (Ok tt, snd (main ∅ w))) by (vm_compute; reflexivity).
  exact (main_success_log ∅ w _ H).
Defined.

(** A network that always refuses: three requests, sleeps 2 and 4. *)
Lemma main_retry_budget_witness :
  let w := start_world down_net 0 in
  exists k, (k <= 2)%nat /\ (w_requests (snd (main ∅ w)) <= w_requests w + S k)%nat /\
    w_sleeps (snd (main ∅ w)) = w_sleeps w ++ backoff k /\
    w_clock (snd (main ∅ w)) = (w_clock w + Z.of_nat k * (Z.of_nat k + 1))%Z.
Proof.
  intros w. exact (main_retry_budget ∅ w (fst (main ∅ w)) _ (surjective_pairing _)).
Defined.

Lemma main_success_rejected_witness :
  exists raw df text,
    transform_result raw = Ok df /\
    w_files (snd (main ∅ (start_world scenario_net 1704067200))) !! REJECTED_PATH = Some (FText text) /\
    read_csv text = Some (weather_columns, row_norm <$> List.filter (fun r => negb (row_ok r)) (rows df)).
Proof.
  assert (H : main ∅ (start_world scenario_net 1704067200) =
                (Ok tt, snd (main ∅ (start_world scenario_net 1704067200))))
    by (vm_compute; reflexivity).
  exact (main_success_rejected ∅ _ _ H).
Defined.

Lemma transform_no_missing_columns_witness :
  let w1 := snd (transform_weather_hourly sample_payload quiet_world) in
  missing_columns sample_frame = [] /\ check_required sample_frame w1 = (Ok tt, w1).
Proof.
  intros w1.
  assert (H : transform_weather_hourly sample_payload quiet_world = (Ok sample_frame, w1))
    by (vm_compute; reflexivity).
  exact (transform_no_missing_columns _ _ _ _ H).
Defined.

Lemma setup_logger_keeps_log_witness :
  setup_logger "outputs/etl.log" earlier_log_world =
    (Ok tt, snd (setup_logger "outputs/etl.log" earlier_log_world)) /\
  w_files (snd (setup_logger "outputs/etl.log" earlier_log_world)) !! "outputs/etl.log" =
    Some (FText "earlier run").
Proof.
  assert (H : setup_logger "outputs/etl.log" earlier_log_world =
                (Ok tt, snd (setup_logger "outputs/etl.log" earlier_log_world))).
  { vm_compute. reflexivity. }
  split; [exact H|].
  exact (proj1 (setup_logger_keeps_log _ _ _ H)).
Defined.

(** [float()] on configuration texts: the default, an infinity with white
    space around it, NaN, digit underscores, and two refused texts. *)
Example py_float_examples :
  py_float "3.1390" = Ok (JFloat (Dec 31390 (-4))) /\
  py_float (String "009" " -Infinity") = Ok (JInf true) /\
  py_float "NaN" = Ok JNaN /\
  py_float "1_000.5" = Ok (JFloat (Dec 10005 (-1))) /\
  py_float "1__0" = Err (ValueError "could not convert string to float") /\
  py_float "1e" = Err (ValueError "could not convert string to float").
Proof. vm_compute. repeat split. Qed.

