(* ===== verification/Logging.v ===== *)
(** * The log file: the text of the [etl] logger's records

    [setup_logger] (src/functions.py, lines 14-31) sets the [etl] logger
    to INFO, clears its handlers and adds a [StreamHandler] and a
    [FileHandler] on [log_path] (append mode, UTF-8), both with the
    formatter ["%(asctime)s | %(levelname)s | %(message)s"].  World.v keeps
    the records of a run in [w_log]; this file gives the text the file
    handler appends for them:
    - [message_text]: the f-string of each logging call (lines 40, 47, 64,
      69, 92, 114, 121 of src/functions.py and line 60 of src/etl.py), with
      [str] of the integers and [repr] of the lists, dicts and strings it
      interpolates ([py_repr], [py_str_repr]);
    - [format_record]: the formatter's line; [asctime], the local wall
      clock with milliseconds when the record was made, is given;
    - [utf8_encode] and [log_bytes]: the bytes the handler writes, each
      line ended by ["\n"] (on POSIX the text layer writes it as is).
    [str(e)] of the exceptions of a failed attempt is the text of the
    [requests] exception, given as [exc_text].  [log_bytes_records] is the
    line structure of the file: one line per record, in order, as long as
    no time stamp and no text shown as it is holds a line break ([repr]
    escapes those of the lists, dicts and strings). *)

From Stdlib Require Import ZArith Ascii.
From stdpp Require Import base list gmap sets strings.
From S2P Require Import Prelude Json Numeric Timestamp JsonText World Csv Sinks Pipeline.

Local Open Scope Z_scope.

(** ** [repr] of a string *)

Definition squote : ascii := "'"%char.

(** The quote [repr] chooses: a double quote when the text has a single
    quote and no double quote, a single quote otherwise. *)
Definition repr_quote (cs : list ascii) : ascii :=
  if bool_decide (squote ∈ cs) && negb (bool_decide (quote ∈ cs)) then quote else squote.

(** [Py_UNICODE_ISPRINTABLE] on the code points 0-255: the C0 and C1
    controls, DEL, the no-break space and the soft hyphen are not. *)
Definition printable (c : ascii) : bool :=
  let n := nat_of_ascii c in
  ((32 <=? n) && (n <? 127) || (161 <=? n) && negb (n =? 173))%nat.

(** One character of [unicode_repr]: the quote and the backslash escaped,
    tab, newline and carriage return by letter, the other characters that
    are not printable as [\xhh]. *)
Definition repr_char (q c : ascii) : list ascii :=
  if bool_decide (c = q) || bool_decide (c = backslash) then [backslash; c]
  else match c with
  | "009"%char => [backslash; "t"%char]
  | "010"%char => [backslash; "n"%char]
  | "013"%char => [backslash; "r"%char]
  | _ =>
      if printable c then [c]
      else let n := Z.of_nat (nat_of_ascii c) in
           [backslash; "x"%char; hex_char (n / 16); hex_char (n mod 16)]
  end.

(** [repr(s)]. *)
Definition py_str_repr (s : string) : list ascii :=
  let cs := String.list_ascii_of_string s in
  let q := repr_quote cs in
  q :: mjoin (repr_char q <$> cs) ++ [q].

(** ** [repr] of the values the messages show *)

Fixpoint join_with (sep : list ascii) (xs : list (list ascii)) : list ascii :=
  match xs with
  | [] => []
  | [x] => x
  | x :: xs' => x ++ sep ++ join_with sep xs'
  end.

Definition comma_space : list ascii := [","%char; " "%char].

(** [repr] of a list of strings, as [list(df.columns)] shows. *)
Definition py_list_repr (xs : list string) : list ascii :=
  "["%char :: join_with comma_space (py_str_repr <$> xs) ++ ["]"%char].

(** [repr] of a JSON value as Python holds it: [None], [True], [int],
    [float] ([nan], [inf] and [-inf] for the constants), [str], [list],
    [dict]. *)
Fixpoint py_repr (j : json) : list ascii :=
  match j with
  | JNull => String.list_ascii_of_string "None"
  | JBool true => String.list_ascii_of_string "True"
  | JBool false => String.list_ascii_of_string "False"
  | JInt z => int_repr z
  | JFloat d => float_repr d
  | JNaN => String.list_ascii_of_string "nan"
  | JInf false => String.list_ascii_of_string "inf"
  | JInf true => String.list_ascii_of_string "-inf"
  | JStr s => py_str_repr s
  | JArr l =>
      "["%char :: join_with comma_space
        ((fix items (l : list json) : list (list ascii) :=
            match l with [] => [] | x :: l' => py_repr x :: items l' end) l) ++ ["]"%char]
  | JObj kvs =>
      "{"%char :: join_with comma_space
        ((fix members (l : list (string * json)) : list (list ascii) :=
            match l with
            | [] => []
            | (k, v) :: l' => (py_str_repr k ++ [":"%char; " "%char] ++ py_repr v) :: members l'
            end) kvs) ++ ["}"%char]
  end.

(** ** The messages *)

(** Text as Python holds it: code points. *)
Definition code_points (cs : list ascii) : list Z :=
  (fun c => Z.of_nat (nat_of_ascii c)) <$> cs.

Definition cp (s : string) : list Z := code_points (String.list_ascii_of_string s).

Definition str_nat (n : nat) : list Z := code_points (int_repr (Z.of_nat n)).

(** U+2705, the check mark of the completion line. *)
Definition check_mark : Z := 9989.

Section Messages.
  (** [str(e)] of the exception of a failed attempt. *)
  Variable exc_text : py_error -> string.

(** The f-string of each logging call. *)
Definition message_text (m : message) : list Z :=
  match m with
  | MsgGet url a ps =>
      cp "Extract(API): GET " ++ cp url ++ cp " attempt=" ++ code_points (int_repr a) ++
      cp " params=" ++ code_points (py_repr (JObj ps))
  | MsgFailed a e =>
      cp "Extract(API): failed attempt=" ++ code_points (int_repr a) ++
      cp " error=" ++ cp (exc_text e)
  | MsgArchived path => cp "Extract: archived raw JSON -> " ++ cp path
  | MsgTransform n cols =>
      cp "Transform: rows=" ++ str_nat n ++ cp " cols=" ++ code_points (py_list_repr cols)
  | MsgQuality acc rej rem =>
      cp "Quality: accepted=" ++ str_nat acc ++ cp " rejected=" ++ str_nat rej ++
      cp " dedup_removed=" ++ str_nat rem
  | MsgRejectedSaved path => cp "Audit: rejected rows saved -> " ++ cp path
  | MsgLoad n table db =>
      cp "Load: wrote " ++ str_nat n ++ cp " rows -> table=" ++ cp table ++ cp " db=" ++ cp db
  | MsgCompleted => check_mark :: cp " Weather API ETL completed successfully."
  end.

Definition level_name (l : log_line) : string :=
  match l with Info _ => "INFO" | Warning _ => "WARNING" end%string.

Definition record_message (l : log_line) : message :=
  match l with Info m | Warning m => m end.

(** [Formatter.format] with ["%(asctime)s | %(levelname)s | %(message)s"]. *)
Definition format_record (asctime : string) (l : log_line) : list Z :=
  cp asctime ++ cp " | " ++ cp (level_name l) ++ cp " | " ++ message_text (record_message l).

End Messages.

(** ** The bytes of the file *)

Definition byte_of (z : Z) : ascii := ascii_of_nat (Z.to_nat z).

Definition byte_val (b : ascii) : Z := Z.of_nat (nat_of_ascii b).

(** The UTF-8 bytes of a code point of the Basic Multilingual Plane (the
    messages hold no other). *)
Definition utf8_char (c : Z) : list ascii :=
  if c <? 128 then [byte_of c]
  else if c <? 2048 then [byte_of (192 + c / 64); byte_of (128 + c mod 64)]
  else [byte_of (224 + c / 4096); byte_of (128 + (c / 64) mod 64); byte_of (128 + c mod 64)].

Definition utf8_encode (t : list Z) : list ascii := mjoin (utf8_char <$> t).

(** [StreamHandler.emit] of the file handler: the formatted record, the
    terminator ["\n"], encoded. *)
Definition emit_bytes (exc_text : py_error -> string) (asctime : string) (l : log_line)
  : list ascii :=
  utf8_encode (format_record exc_text asctime l ++ [10]).

(** The bytes the file handler appends for the records of a run, the
    [i]-th made at [asctime i]. *)
Definition log_bytes (exc_text : py_error -> string) (asctime : nat -> string)
    (ls : list log_line) : list ascii :=
  mjoin (imap (fun i l => emit_bytes exc_text (asctime i) l) ls).

(** ** [repr] *)

Lemma repr_quote_cases cs : repr_quote cs = squote \/ repr_quote cs = quote.
Proof. unfold repr_quote. destruct (_ && _); auto. Qed.

Lemma repr_char_printable q c :
  q = squote \/ q = quote -> Forall (fun x => printable x = true) (repr_char q c).
Proof.
  intros Hq. apply forallb_Forall_true. revert c.
  destruct Hq as [-> | ->]; intros [[] [] [] [] [] [] [] []]; reflexivity.
Qed.

(** Text whose characters are all printable: no line break in it. *)
Definition plain (cs : list ascii) : Prop := Forall (fun c => printable c = true) cs.

Lemma plain_app a b : plain a -> plain b -> plain (a ++ b).
Proof. intros. by apply Forall_app. Qed.

Lemma plain_cons c a : printable c = true -> plain a -> plain (c :: a).
Proof. by constructor. Qed.

Lemma plain_take n a : plain a -> plain (take n a).
Proof. apply Forall_take. Qed.

Lemma plain_drop n a : plain a -> plain (drop n a).
Proof. apply Forall_drop. Qed.

Lemma plain_replicate n c : printable c = true -> plain (replicate n c).
Proof. intros. by apply Forall_replicate. Qed.

Lemma plain_nil : plain [].
Proof. constructor. Qed.

Create HintDb plain_db discriminated.
#[export] Hint Resolve plain_app plain_cons plain_take plain_drop plain_replicate plain_nil
  : plain_db.
#[export] Hint Extern 1 (printable _ = true) => reflexivity : plain_db.

Lemma digit_printable c : is_digit c = true -> printable c = true.
Proof. destruct c as [[] [] [] [] [] [] [] []]; done. Qed.

Lemma z_digits_plain n : 0 <= n -> plain (z_digits n).
Proof.
  intros Hn. destruct (z_digits_spec n Hn) as (Hd & _).
  eapply Forall_impl; [exact Hd|]. apply digit_printable.
Qed.

#[export] Hint Resolve z_digits_plain : plain_db.

Lemma int_repr_plain z : plain (int_repr z).
Proof. unfold int_repr. destruct (Z.ltb_spec z 0); auto with plain_db lia. Qed.

Lemma float_repr_plain d : plain (float_repr d).
Proof.
  unfold float_repr, exp_digits.
  destruct (dec_norm d) as [m e]; cbn [dec_mant dec_exp].
  repeat case_match; auto 10 with plain_db lia.
Qed.

Lemma comma_space_plain : plain comma_space.
Proof. repeat constructor. Qed.

Lemma join_with_plain sep xs : plain sep -> Forall plain xs -> plain (join_with sep xs).
Proof.
  intros Hs. induction 1 as [|x xs Hx Hxs IH]; [constructor|].
  destruct xs; cbn; auto with plain_db.
Qed.

Lemma py_repr_arr l :
  py_repr (JArr l) = "["%char :: join_with comma_space (py_repr <$> l) ++ ["]"%char].
Proof. cbn. repeat f_equal. Qed.

Lemma py_repr_obj kvs :
  py_repr (JObj kvs) =
  "{"%char :: join_with comma_space
    ((fun kv => py_str_repr kv.1 ++ [":"%char; " "%char] ++ py_repr kv.2) <$> kvs) ++ ["}"%char].
Proof.
  cbn. repeat f_equal. induction kvs as [|[k v] kvs IH]; [done|]. cbn. by rewrite IH.
Qed.

Lemma py_str_repr_plain s : plain (py_str_repr s).
Proof.
  unfold py_str_repr. set (cs := String.list_ascii_of_string s).
  destruct (repr_quote_cases cs) as [Hq | Hq]; rewrite Hq;
    (apply plain_cons; [reflexivity|]); apply plain_app; auto with plain_db;
    apply Forall_join, Forall_fmap, Forall_forall; intros c _;
    apply repr_char_printable; auto.
Qed.

#[export] Hint Resolve int_repr_plain float_repr_plain join_with_plain comma_space_plain
  : plain_db.

Lemma py_repr_plain j : plain (py_repr j).
Proof.
  pose proof py_str_repr_plain.
  induction j as [| [] | | | | [] | | l Hl | kvs Hkvs] using json_ind'.
  1-3, 6-8: repeat constructor.
  1-3: cbn [py_repr]; auto with plain_db.
  - rewrite py_repr_arr. apply plain_cons, plain_app; auto with plain_db.
    apply join_with_plain; [auto with plain_db|]. by apply Forall_fmap.
  - rewrite py_repr_obj. apply plain_cons, plain_app; auto with plain_db.
    apply join_with_plain; [auto with plain_db|].
    apply Forall_fmap. eapply Forall_impl; [exact Hkvs|]. intros kv Hkv. cbv beta in *.
    auto 6 with plain_db.
Qed.

Lemma py_list_repr_plain xs : plain (py_list_repr xs).
Proof.
  apply plain_cons, plain_app; auto with plain_db.
  apply join_with_plain; [auto with plain_db|]. apply Forall_fmap, Forall_forall.
  intros x _. apply py_str_repr_plain.
Qed.

(** ** Line breaks *)

(** A string shown as it is keeps the log line whole when it has no line
    break. *)
Definition one_line (s : string) : Prop := "010"%char ∉ String.list_ascii_of_string s.

(** The strings a message shows as they are, not through [repr]. *)
Definition message_fields (exc_text : py_error -> string) (m : message) : list string :=
  match m with
  | MsgGet url _ _ => [url]
  | MsgFailed _ e => [exc_text e]
  | MsgArchived p | MsgRejectedSaved p => [p]
  | MsgLoad _ t db => [t; db]
  | _ => []
  end.

Lemma code_point_10 c : Z.of_nat (nat_of_ascii c) = 10 -> c = "010"%char.
Proof.
  intros H. rewrite <- (ascii_nat_embedding c).
  replace (nat_of_ascii c) with 10%nat by lia. reflexivity.
Qed.

Lemma code_points_nl cs : plain cs -> 10 ∉ code_points cs.
Proof.
  intros Hp [c [Hc Hin]]%list_elem_of_fmap.
  apply (Forall_forall _ _) with (x := c) in Hp; [|done].
  rewrite (code_point_10 c) in Hp by lia. discriminate.
Qed.

Lemma cp_one_line s : one_line s -> 10 ∉ cp s.
Proof.
  intros Hs [c [Hc Hin]]%list_elem_of_fmap. apply Hs.
  by rewrite <- (code_point_10 c) by lia.
Qed.

Ltac no_newline :=
  repeat match goal with
  | H : Forall _ (_ :: _) |- _ => apply Forall_cons in H as [? ?]
  | |- 10 ∉ _ ++ _ => apply not_elem_of_app; split
  | |- 10 ∉ check_mark :: _ => apply not_elem_of_cons; split; [done|]
  | H : one_line ?s |- 10 ∉ cp ?s => by apply cp_one_line
  | |- 10 ∉ cp _ => apply code_points_nl; by repeat constructor
  | |- 10 ∉ str_nat _ => apply code_points_nl; by auto with plain_db
  | |- 10 ∉ code_points _ => apply code_points_nl; by auto with plain_db
  end.

Lemma message_text_nl exc m :
  Forall one_line (message_fields exc m) -> 10 ∉ message_text exc m.
Proof.
  pose proof py_repr_plain. pose proof py_list_repr_plain.
  destruct m; cbn [message_fields message_text]; intros ?; no_newline.
Qed.

Lemma format_record_nl exc asctime l :
  one_line asctime -> Forall one_line (message_fields exc (record_message l)) ->
  10 ∉ format_record exc asctime l.
Proof.
  intros Ha Hm%message_text_nl. unfold format_record.
  destruct l; cbn [level_name]; no_newline; done.
Qed.

(** ** UTF-8 *)

(** The code points below the surrogates, where the messages' text lies. *)
Definition bmp (c : Z) : Prop := 0 <= c < 55296.

Lemma byte_val_of z : 0 <= z < 256 -> byte_val (byte_of z) = z.
Proof. intros Hz. unfold byte_val, byte_of. rewrite nat_ascii_embedding; lia. Qed.

Lemma utf8_char_no_newline c : bmp c -> c <> 10 -> "010"%char ∉ utf8_char c.
Proof.
  unfold bmp, utf8_char. intros Hc Hn.
  assert (Hb : forall z, 0 <= z < 256 -> z <> 10 -> "010"%char <> byte_of z).
  { intros z Hz Hz10 Heq. apply Hz10. rewrite <- (byte_val_of z Hz), <- Heq. done. }
  pose proof (Z.mod_pos_bound c 64 ltac:(lia)).
  pose proof (Z.mod_pos_bound (c / 64) 64 ltac:(lia)).
  assert (c / 64 < 864) by (apply Z.div_lt_upper_bound; lia).
  assert (c / 4096 < 14) by (apply Z.div_lt_upper_bound; lia).
  assert (0 <= c / 4096) by (apply Z.div_pos; lia).
  assert (0 <= c / 64) by (apply Z.div_pos; lia).
  repeat case_match; rewrite ?not_elem_of_cons; repeat split; try apply not_elem_of_nil;
    apply Hb; try lia.
  all: assert (c / 64 < 32) by (apply Z.div_lt_upper_bound; lia); lia.
Qed.

Lemma utf8_encode_no_newline t : Forall bmp t -> 10 ∉ t -> "010"%char ∉ utf8_encode t.
Proof.
  induction 1 as [|c t Hc _ IH]; [intros _; apply not_elem_of_nil|].
  rewrite not_elem_of_cons. intros [Hc10 Ht].
  unfold utf8_encode. rewrite fmap_cons.
  change (mjoin (utf8_char c :: ?l)) with (utf8_char c ++ mjoin l).
  apply not_elem_of_app. split; [by apply utf8_char_no_newline|by apply IH].
Qed.

Lemma utf8_encode_app s t : utf8_encode (s ++ t) = utf8_encode s ++ utf8_encode t.
Proof. unfold utf8_encode. by rewrite fmap_app, join_app. Qed.

Lemma code_points_bmp cs : Forall bmp (code_points cs).
Proof.
  apply Forall_fmap, Forall_forall. intros c _. cbn. unfold bmp.
  pose proof (nat_ascii_bounded c). lia.
Qed.

Lemma format_record_bmp exc asctime l : Forall bmp (format_record exc asctime l).
Proof.
  unfold format_record, cp, str_nat.
  destruct (record_message l); cbn [message_text];
    repeat (apply Forall_app; split); try apply code_points_bmp.
  constructor; [unfold bmp, check_mark; lia|apply code_points_bmp].
Qed.

Lemma emit_bytes_line exc asctime l :
  emit_bytes exc asctime l = utf8_encode (format_record exc asctime l) ++ ["010"%char].
Proof. unfold emit_bytes. by rewrite utf8_encode_app. Qed.

Lemma log_bytes_lines_gen exc asctime ls :
  log_bytes exc asctime ls =
  mjoin ((fun x => x ++ ["010"%char]) <$>
         imap (fun i l => utf8_encode (format_record exc (asctime i) l)) ls).
Proof.
  unfold log_bytes. f_equal. rewrite fmap_imap. apply imap_ext. intros i l _.
  apply emit_bytes_line.
Qed.

(** ** Theorems *)

(** C36: the file handler adds one line per record, in order: cut at its
    line breaks, the bytes appended for a run are the UTF-8 encodings of
    the formatted records, when no time stamp and no string shown as it is
    (URL, path, table, database, exception text) holds a line break;
    [repr] escapes those of the strings and dicts it shows. *)
Theorem log_bytes_records exc asctime ls :
  (forall i, one_line (asctime i)) ->
  Forall (fun l => Forall one_line (message_fields exc (record_message l))) ls ->
  split_on "010"%char (log_bytes exc asctime ls) =
  imap (fun i l => utf8_encode (format_record exc (asctime i) l)) ls ++ [[]].
Proof.
  intros Ha Hls. rewrite log_bytes_lines_gen. apply split_on_lines.
  apply Forall_lookup_2. intros i x Hi.
  apply list_lookup_imap_Some in Hi as (l & Hl & ->).
  apply utf8_encode_no_newline; [apply format_record_bmp|].
  apply format_record_nl; [done|]. exact (Forall_lookup_1 _ _ _ _ Hls Hl).
Qed.

(** ** Examples *)

Definition sample_exc (e : py_error) : string := "Read timed out.".
Definition sample_time (i : nat) : string := "2024-01-01 08:00:00,000".

Definition sample_get : message :=
  MsgGet "https://api.open-meteo.com/v1/forecast" 1
    [("latitude", JFloat (Dec 3139 (-3))); ("hourly", JStr "temperature_2m");
     ("timezone", JStr "Asia/Kuala_Lumpur")].

Definition sample_log : list log_line :=
  [Info sample_get; Warning (MsgFailed 1 ReadTimeout); Info (MsgQuality 2 1 0);
   Info MsgCompleted].

(** The request line shows the parameters as Python prints a dict. *)
Example sample_get_line :
  emit_bytes sample_exc (sample_time 0) (Info sample_get) =
  String.list_ascii_of_string
    ("2024-01-01 08:00:00,000 | INFO | Extract(API): GET https://api.open-meteo.com/v1/forecast"
     ++ " attempt=1 params={'latitude': 3.139, 'hourly': 'temperature_2m', "
     ++ "'timezone': 'Asia/Kuala_Lumpur'}")%string ++ ["010"%char].
Proof. vm_compute. reflexivity. Qed.

(** The completion line holds U+2705, written as three bytes. *)
Example completed_line :
  emit_bytes sample_exc (sample_time 3) (Info MsgCompleted) =
  String.list_ascii_of_string "2024-01-01 08:00:00,000 | INFO | " ++
  ["226"; "156"; "133"]%char ++
  String.list_ascii_of_string " Weather API ETL completed successfully." ++ ["010"%char].
Proof. vm_compute. reflexivity. Qed.

(** [repr] picks the double quote for a text with a single quote. *)
Example repr_quote_choice :
  py_str_repr "it's" = quote :: String.list_ascii_of_string "it's" ++ [quote].
Proof. reflexivity. Qed.

Lemma log_bytes_records_witness :
  (forall i, one_line (sample_time i)) /\
  Forall (fun l => Forall one_line (message_fields sample_exc (record_message l))) sample_log /\
  split_on "010"%char (log_bytes sample_exc sample_time sample_log) =
  imap (fun i l => utf8_encode (format_record sample_exc (sample_time i) l)) sample_log ++ [[]].
Proof.
  assert (H1 : forall i, one_line (sample_time i)).
  { intros i. apply (bool_decide_unpack _). vm_compute. exact I. }
  assert (H2 : Forall (fun l => Forall one_line (message_fields sample_exc (record_message l)))
                      sample_log).
  { repeat constructor; apply (bool_decide_unpack _); vm_compute; exact I. }
  split; [exact H1|]. split; [exact H2|].
  exact (log_bytes_records sample_exc sample_time sample_log H1 H2).
Defined.

